(** * Groundwater trend and availability analysis engine

    A shallow embedding of the analysis core of the groundwater monitoring
    application: the feature encoders, the three scoring sub-models and the
    ensemble predictor of [mlPredictionService.js], the seasonality detector
    of [statisticalAnalysis.js] and the sustainability, recommendation and
    usage-suitability functions of [analysisService.js].

    Numbers.  JavaScript numbers are embedded as rationals [Q] with exact
    arithmetic; the concrete inputs used below either compute exactly in
    double precision or stay clear of the thresholds by far more than a
    double's rounding error.  Values that JavaScript produces as integers
    (encodings, confidence, rounded scores) are kept in [Z].

    Objects.  A property that may be missing is an [option]; reading a
    property of a missing object raises a [TypeError], which is modelled by
    the [result] monad of module [JS]. *)

From Stdlib Require Import QArith Qround Qabs Qminmax Lqa ZArith Lia Sorted.
From stdpp Require Import gmap strings list sorting.

Local Open Scope Q_scope.

(** ** JavaScript primitives used by the services *)

Module JS.

(** Outcome of evaluating a block that may raise. *)
Inductive result (A : Type) : Type :=
| Ok (a : A)
| Throw (msg : string).
Arguments Ok {A} a.
Arguments Throw {A} msg.

(** Sequencing: the first [Throw] aborts the rest of the block.  With
    these instances the block is written with stdpp's [x ← e; k]. *)
#[export] Instance result_ret : MRet result := fun A a => Ok a.
#[export] Instance result_bind : MBind result := fun A B k r =>
  match r with
  | Ok a => k a
  | Throw m => Throw m
  end.

(** [o.p] where [o] itself may be [undefined] or [null]. *)
Definition deref {A} (what : string) (o : option A) : result A :=
  match o with
  | Some a => Ok a
  | None => Throw ("TypeError: cannot read properties of undefined: " +:+ what)
  end.

(** [try { body } catch (error) { handler }]. *)
Definition try_catch {A} (body : result A) (handler : string -> result A)
  : result A :=
  match body with
  | Ok a => Ok a
  | Throw m => handler m
  end.

(** Truthiness of a number: [0] is falsy. *)
Definition truthy (q : Q) : bool := negb (Qeq_bool q 0).

(** [x || d] for a possibly missing number [x]. *)
Definition or_default (x : option Q) (d : Q) : Q :=
  match x with
  | Some q => if truthy q then q else d
  | None => d
  end.

(** [k] used as a property key: [undefined] becomes the key "undefined". *)
Definition to_key (k : option string) : string :=
  match k with
  | Some s => s
  | None => "undefined"
  end.

(** The property names every object literal inherits from
    [Object.prototype].  Indexing a table with one of them finds the
    inherited member (a function, or the prototype object itself), not an
    entry of the table. *)
Definition Object_prototype_names : list string :=
  ["constructor"; "__defineGetter__"; "__defineSetter__"; "hasOwnProperty";
   "__lookupGetter__"; "__lookupSetter__"; "isPrototypeOf";
   "propertyIsEnumerable"; "toString"; "valueOf"; "__proto__";
   "toLocaleString"].

(** Whether the key [k] names an inherited member. *)
Definition inherited (k : option string) : bool :=
  existsb (String.eqb (to_key k)) Object_prototype_names.

(** [table[k] || d] for an object literal [table] with integer values, at
    a key that names no inherited member ([inherited k = false]): the
    lookup then sees the listed entries only.  At an inherited name the
    source returns the inherited member, which is not a number; the
    properties below that range over arbitrary labels exclude those
    names. *)
Definition lookup_or (table : gmap string Z) (k : option string) (d : Z) : Z :=
  match table !! to_key k with
  | Some v => if (v =? 0)%Z then d else v
  | None => d
  end.

(** Comparisons; a missing operand ([undefined]) compares false. *)
Definition gtb (a b : Q) : bool := if Qlt_le_dec b a then true else false.
Definition ltb (a b : Q) : bool := if Qlt_le_dec a b then true else false.
Definition geb (a b : Q) : bool := if Qlt_le_dec a b then false else true.

Definition opt_gtb (a : option Q) (b : Q) : bool :=
  match a with Some x => gtb x b | None => false end.
Definition opt_ltb (a : option Q) (b : Q) : bool :=
  match a with Some x => ltb x b | None => false end.

(** [Math.round]: nearest integer, halves towards plus infinity. *)
Definition Math_round (x : Q) : Z := Qfloor (x + (1 # 2)).
Definition Math_max (a b : Q) : Q := Qmax a b.
Definition Math_min (a b : Q) : Q := Qmin a b.
Definition Math_abs (a : Q) : Q := Qabs a.

End JS.

Import JS.

(** ** mlPredictionService.js: categorical encoders *)

Module Encoders.

Definition statusMap : gmap string Z :=
  list_to_map [("critical", 0); ("low", 1); ("moderate", 2); ("good", 3);
               ("excellent", 4)]%Z.

Definition getStatusValue (status : option string) : Z :=
  lookup_or statusMap status 2.

Definition trendMap : gmap string Z :=
  list_to_map [("falling", -1); ("stable", 0); ("rising", 1)]%Z.

Definition getTrendValue (trend : option string) : Z :=
  lookup_or trendMap trend 0.

Definition sigMap : gmap string Z :=
  list_to_map [("not_significant", 0); ("marginally_significant", 1);
               ("significant", 2); ("very_significant", 3);
               ("highly_significant", 4)]%Z.

Definition getSignificanceValue (significance : option string) : Z :=
  lookup_or sigMap significance 0.

Definition influenceMap : gmap string Z :=
  list_to_map [("low", 1); ("medium", 2); ("high", 3)]%Z.

Definition getInfluenceValue (influence : option string) : Z :=
  lookup_or influenceMap influence 1.

Definition permMap : gmap string Z :=
  list_to_map [("low", 1); ("medium", 2); ("high", 3)]%Z.

Definition getPermeabilityValue (permeability : option string) : Z :=
  lookup_or permMap permeability 2.

Definition aquiferMap : gmap string Z :=
  list_to_map [("unconfined", 1); ("confined", 2); ("semi-confined", 3);
               ("leaky", 4)]%Z.

Definition getAquiferTypeValue (aquiferType : option string) : Z :=
  lookup_or aquiferMap aquiferType 1.

End Encoders.

Import Encoders.

(** ** mlPredictionService.js: inputs of the predictor *)

Module Input.

Record Metadata := { confidence : option Q }.

Record Reading := {
  waterLevel : Q;
  waterLevelStatus : option string;
  metadata : option Metadata }.

Record TechnicalDetails := {
  wellDepth : option Q;
  aquiferType : option string }.

Record Station := { technicalDetails : option TechnicalDetails }.

Record StationData := {
  station : option Station;
  latestReading : option Reading;
  distance : Q }.

Record Seasonal := { monsoon : option Q }.

Record Rainfall := {
  annual : option Q;
  seasonal : option Seasonal;
  rainfall_trend_label : option string }.

(** An entry of [proximity.rivers] or [proximity.waterBodies]. *)
Record Nearby := {
  nearby_distance : option Q;
  influence : option string }.

Record Proximity := {
  rivers : option (list Nearby);
  waterBodies : option (list Nearby) }.

Record Geology := {
  permeability : option string;
  depth : option Q }.

Record EnvironmentalData := {
  rainfall : option Rainfall;
  proximity : option Proximity;
  geology : option Geology }.

Record TrendAnalysis := {
  direction : option string;
  significance : option string;
  trend : option Q }.

(** The argument object of [predictGroundwaterLevel] and
    [extractFeatures], destructured into its five properties; a property
    that is [None] was left [undefined]. *)
Record t := {
  latitude : Q;
  longitude : Q;
  stationData : option StationData;
  environmentalData : option EnvironmentalData;
  trendAnalysis : option TrendAnalysis }.

(** [xs?.[0]?.distance] and [xs?.[0]?.influence]. *)
Definition first_distance (xs : option (list Nearby)) : option Q :=
  x ← (l ← xs; head l); nearby_distance x.
Definition first_influence (xs : option (list Nearby)) : option string :=
  x ← (l ← xs; head l); influence x.

End Input.

(** ** mlPredictionService.js: feature vector and scoring models *)

Module Ml.

Record Features := {
  f_latitude : Q;
  f_longitude : Q;
  distance_to_station : Q;
  current_water_level : Q;
  water_level_status : Q;
  trend_direction : Q;
  trend_significance : Q;
  trend_magnitude : Q;
  annual_rainfall : Q;
  monsoon_rainfall : Q;
  rainfall_trend : Q;
  nearest_river_distance : Q;
  nearest_waterbody_distance : Q;
  river_influence : Q;
  soil_permeability : Q;
  aquifer_depth : Q;
  well_depth : Q;
  aquifer_type : Q }.

(** [Object.keys(features)]: the property names in assignment order. *)
Definition feature_keys : list string :=
  ["latitude"; "longitude"; "distance_to_station"; "current_water_level";
   "water_level_status"; "trend_direction"; "trend_significance";
   "trend_magnitude"; "annual_rainfall"; "monsoon_rainfall";
   "rainfall_trend"; "nearest_river_distance"; "nearest_waterbody_distance";
   "river_influence"; "soil_permeability"; "aquifer_depth"; "well_depth";
   "aquifer_type"].

(** [features[name]]; [None] is [undefined]. *)
Definition feature_get (f : Features) (name : string) : option Q :=
  (list_to_map
     [("latitude", f_latitude f); ("longitude", f_longitude f);
      ("distance_to_station", distance_to_station f);
      ("current_water_level", current_water_level f);
      ("water_level_status", water_level_status f);
      ("trend_direction", trend_direction f);
      ("trend_significance", trend_significance f);
      ("trend_magnitude", trend_magnitude f);
      ("annual_rainfall", annual_rainfall f);
      ("monsoon_rainfall", monsoon_rainfall f);
      ("rainfall_trend", rainfall_trend f);
      ("nearest_river_distance", nearest_river_distance f);
      ("nearest_waterbody_distance", nearest_waterbody_distance f);
      ("river_influence", river_influence f);
      ("soil_permeability", soil_permeability f);
      ("aquifer_depth", aquifer_depth f);
      ("well_depth", well_depth f);
      ("aquifer_type", aquifer_type f)] : gmap string Q) !! name.

Definition extractFeatures (i : Input.t) : result Features :=
  sd ← deref "distance" (Input.stationData i);
  let distance_to_station := Input.distance sd in
  let '(current_water_level, water_level_status) :=
    match Input.latestReading sd with
    | Some r => (Input.waterLevel r,
                 inject_Z (getStatusValue (Input.waterLevelStatus r)))
    | None => (15, 2)
    end in
  ta ← deref "direction" (Input.trendAnalysis i);
  let trend_direction := inject_Z (getTrendValue (Input.direction ta)) in
  let trend_significance :=
    inject_Z (getSignificanceValue (Input.significance ta)) in
  let trend_magnitude := Math_abs (or_default (Input.trend ta) 0) in
  env ← deref "rainfall" (Input.environmentalData i);
  let '(annual_rainfall, monsoon_rainfall, rainfall_trend) :=
    match Input.rainfall env with
    | Some rf =>
        (or_default (Input.annual rf) 0,
         or_default (s ← Input.seasonal rf; Input.monsoon s) 0,
         inject_Z (getTrendValue (Input.rainfall_trend_label rf)))
    | None => (800, 600, 0)
    end in
  let '(nearest_river_distance, nearest_waterbody_distance, river_influence) :=
    match Input.proximity env with
    | Some px =>
        (or_default (Input.first_distance (Input.rivers px)) 50,
         or_default (Input.first_distance (Input.waterBodies px)) 50,
         inject_Z (getInfluenceValue (Input.first_influence (Input.rivers px))))
    | None => (50, 50, 1)
    end in
  let '(soil_permeability, aquifer_depth) :=
    match Input.geology env with
    | Some g =>
        (inject_Z (getPermeabilityValue (Input.permeability g)),
         or_default (Input.depth g) 20)
    | None => (2, 20)
    end in
  st ← deref "technicalDetails" (Input.station sd);
  let '(well_depth, aquifer_type) :=
    match Input.technicalDetails st with
    | Some td =>
        (or_default (Input.wellDepth td) 30,
         inject_Z (getAquiferTypeValue (Input.aquiferType td)))
    | None => (30, 1)
    end in
  mret {| f_latitude := Input.latitude i;
          f_longitude := Input.longitude i;
          distance_to_station := distance_to_station;
          current_water_level := current_water_level;
          water_level_status := water_level_status;
          trend_direction := trend_direction;
          trend_significance := trend_significance;
          trend_magnitude := trend_magnitude;
          annual_rainfall := annual_rainfall;
          monsoon_rainfall := monsoon_rainfall;
          rainfall_trend := rainfall_trend;
          nearest_river_distance := nearest_river_distance;
          nearest_waterbody_distance := nearest_waterbody_distance;
          river_influence := river_influence;
          soil_permeability := soil_permeability;
          aquifer_depth := aquifer_depth;
          well_depth := well_depth;
          aquifer_type := aquifer_type |}.

(** *** Linear model *)

Definition linear_weights : list (string * Q) :=
  [("current_water_level", - (5 # 2));
   ("annual_rainfall", 5 # 100);
   ("monsoon_rainfall", 8 # 100);
   ("nearest_river_distance", - (3 # 10));
   ("soil_permeability", 15);
   ("trend_direction", 10);
   ("trend_significance", 5)].

Definition calculateLinearAvailability (f : Features) : Q :=
  let score :=
    fold_left
      (fun score '(feature, w) =>
         match feature_get f feature with
         | Some v => score + w * v
         | None => score
         end)
      linear_weights 50 in
  Math_max 0 (Math_min 100 score).

(** *** Weighted-composite model *)

Definition calculateWeightedAvailability (f : Features) : Q :=
  let waterLevelScore := Math_max 0 (100 - current_water_level f * 3) in
  let scores := [(waterLevelScore, 4 # 10)] in
  let rainfallScore :=
    Math_min 100 (annual_rainfall f / 10 + monsoon_rainfall f / 8) in
  let scores := scores ++ [(rainfallScore, 25 # 100)] in
  let proximityScore := Math_max 0 (100 - nearest_river_distance f * 2) in
  let scores := scores ++ [(proximityScore, 2 # 10)] in
  let permeabilityScore := soil_permeability f * 25 in
  let scores := scores ++ [(permeabilityScore, 15 # 100)] in
  let weightedSum :=
    fold_left (fun sum item => sum + fst item * snd item) scores 0 in
  let totalWeight := fold_left (fun sum item => sum + snd item) scores 0 in
  weightedSum / totalWeight.

(** *** Trend-based model *)

Definition calculateTrendBasedAvailability (f : Features) : Q :=
  let score := 50 in
  let score :=
    if Qeq_bool (trend_direction f) 1 then score + 20
    else if Qeq_bool (trend_direction f) (-1) then score - 20
    else score in
  let score := score + trend_significance f * 10 in
  let score :=
    if gtb (trend_magnitude f) (1 # 2) then score + trend_direction f * 15
    else score in
  Math_max 0 (Math_min 100 score).

(** *** Confidence *)

(** [stationData.latestReading?.metadata?.confidence]. *)
Definition reading_confidence (sd : Input.StationData) : option Q :=
  r ← Input.latestReading sd; m ← Input.metadata r; Input.confidence m.

Definition calculatePredictionConfidence (f : Features)
    (sd : Input.StationData) : Z :=
  let confidence := 50%Z in
  let confidence :=
    match Input.latestReading sd with
    | Some _ => (confidence + 20)%Z
    | None => confidence
    end in
  let confidence :=
    if gtb (annual_rainfall f) 0 then (confidence + 10)%Z else confidence in
  let confidence :=
    if ltb (nearest_river_distance f) 20 then (confidence + 10)%Z
    else confidence in
  let confidence :=
    if gtb (trend_significance f) 2 then (confidence + 10)%Z
    else confidence in
  let confidence :=
    if ltb (Input.distance sd) 10 then (confidence + 10)%Z else confidence in
  let confidence :=
    if opt_gtb (reading_confidence sd) 80 then (confidence + 10)%Z
    else confidence in
  Z.min 100 confidence.

Definition calculateFeatureImportance (f : Features) : list (string * Q) :=
  [("current_water_level", 25 # 100);
   ("annual_rainfall", 20 # 100);
   ("trend_direction", 15 # 100);
   ("nearest_river_distance", 15 # 100);
   ("soil_permeability", 10 # 100);
   ("monsoon_rainfall", 10 # 100);
   ("trend_significance", 5 # 100)].

(** *** The ensemble predictor *)

Record ModelDetails := {
  linearScore : Q;
  weightedScore : Q;
  trendScore : Q;
  ensembleScore : Q }.

Record Availability := { score : Z; status : string }.

Record Prediction := {
  availability : Availability;
  confidence : Z;
  features : list string;
  featureImportance : list (string * Q);
  modelDetails : option ModelDetails }.

(** The block guarded by [try]. *)
Definition predict_body (i : Input.t) : result Prediction :=
  features ← extractFeatures i;
  let linearScore := calculateLinearAvailability features in
  let weightedScore := calculateWeightedAvailability features in
  let trendScore := calculateTrendBasedAvailability features in
  let ensembleScore :=
    linearScore * (4 # 10) + weightedScore * (4 # 10) + trendScore * (2 # 10) in
  let status :=
    if geb ensembleScore 80 then "excellent"
    else if geb ensembleScore 60 then "good"
    else if geb ensembleScore 40 then "moderate"
    else if geb ensembleScore 20 then "low"
    else "critical" in
  sd ← deref "latestReading" (Input.stationData i);
  let confidence := calculatePredictionConfidence features sd in
  mret {| availability :=
            {| score := Math_round ensembleScore; status := status |};
          confidence := confidence;
          features := feature_keys;
          featureImportance := calculateFeatureImportance features;
          modelDetails :=
            Some {| linearScore := linearScore;
                    weightedScore := weightedScore;
                    trendScore := trendScore;
                    ensembleScore := ensembleScore |} |}.

(** The value returned from the [catch] block. *)
Definition fallback : Prediction :=
  {| availability := {| score := 50; status := "moderate" |};
     confidence := 30;
     features := ["fallback"];
     featureImportance := [("fallback", 1)];
     modelDetails := None |}.

(** The function is [async]: [Ok r] stands for a promise fulfilled with
    [r], [Throw] for a rejected one.  The parameter list destructures the
    argument before the [try] block is entered, so an argument that is
    [undefined] or [null] ([None]) raises there, outside the guard; an
    argument object ([Some i]) may leave any of its properties out. *)
Definition predictGroundwaterLevel (arg : option Input.t) : result Prediction :=
  i ← deref "latitude" arg;
  try_catch (predict_body i) (fun error => mret fallback).

End Ml.

(** ** statisticalAnalysis.js: seasonality *)

Module Stats.

(** A number that may be [NaN] (or [undefined], which becomes [NaN] in
    arithmetic); every comparison with it is false. *)
Definition num := option Q.

Definition num_gtb (a b : num) : bool :=
  match a, b with
  | Some x, Some y => gtb x y
  | _, _ => false
  end.

Definition num_ltb (a b : num) : bool := num_gtb b a.

Definition sum (xs : list num) : num :=
  fold_left (fun acc x => a ← acc; v ← x; Some (a + v)) xs (Some 0).

(** [simpleStats.mean]: raises on an empty array. *)
Definition mean (xs : list num) : result num :=
  match xs with
  | [] => Throw "mean requires at least one data point"
  | _ => mret (s ← sum xs; Some (s / inject_Z (Z.of_nat (length xs))))
  end.

(** [simpleStats.variance]: population variance. *)
Definition variance (xs : list num) : result num :=
  m ← mean xs;
  mean (map (fun x => v ← x; mu ← m; Some ((v - mu) * (v - mu))) xs).

(** [Date.prototype.getMonth] of [new Date(ms)] on a host whose local
    time zone is UTC, by the usual days-to-civil-date conversion. *)
Definition utcMonth (ms : Z) : nat :=
  let days := (ms / 86400000)%Z in
  let z := (days + 719468)%Z in
  let era := (z / 146097)%Z in
  let doe := (z - era * 146097)%Z in
  let yoe := ((doe - doe / 1460 + doe / 36524 - doe / 146096) / 365)%Z in
  let doy := (doe - (365 * yoe + yoe / 4 - yoe / 100))%Z in
  let mp := ((5 * doy + 2) / 153)%Z in
  Z.to_nat (if (mp <? 10)%Z then mp + 2 else mp - 10)%Z.

Record Seasonality := {
  seasonal : bool;
  monthlyMeans : list (nat * num);
  peakMonth : nat;
  lowMonth : nat }.

Section DetectSeasonality.

(** The host's [getMonth], from epoch milliseconds to a month index. *)
Variable getMonth : Z -> nat.

(** [if (!monthlyData[month]) monthlyData[month] = [];
     monthlyData[month].push(x)].  The object's integer keys are kept
    in ascending order, which is the order [Object.keys] lists them. *)
Fixpoint push_month (month : nat) (x : num)
    (monthlyData : list (nat * list num)) : list (nat * list num) :=
  match monthlyData with
  | [] => [(month, [x])]
  | (k, xs) :: rest =>
      if (month <? k)%nat then (month, [x]) :: monthlyData
      else if (month =? k)%nat then (k, xs ++ [x]) :: rest
      else (k, xs) :: push_month month x rest
  end.

(** [timestamps.forEach((timestamp, index) => ...)], from [index] on. *)
Fixpoint group_from (data : list Q) (index : nat) (timestamps : list Z)
    (monthlyData : list (nat * list num)) : list (nat * list num) :=
  match timestamps with
  | [] => monthlyData
  | timestamp :: rest =>
      group_from data (S index) rest
        (push_month (getMonth timestamp) (data !! index) monthlyData)
  end.

(** [Object.keys(monthlyData).forEach(month => monthlyMeans[month] =
    simpleStats.mean(monthlyData[month]))]. *)
Fixpoint monthly_means (monthlyData : list (nat * list num))
    : result (list (nat * num)) :=
  match monthlyData with
  | [] => mret []
  | (month, xs) :: rest =>
      m ← mean xs;
      ms ← monthly_means rest;
      mret ((month, m) :: ms)
  end.

(** [monthlyMeans[key]]. *)
Fixpoint means_get (monthlyMeans : list (nat * num)) (key : nat) : num :=
  match monthlyMeans with
  | [] => None
  | (k, m) :: rest => if (key =? k)%nat then m else means_get rest key
  end.

(** [keys.reduce((a, b) => pick a b ? a : b)], no initial value. *)
Definition reduce_keys (pick : nat -> nat -> bool) (keys : list nat)
    : result nat :=
  match keys with
  | [] => Throw "TypeError: Reduce of empty array with no initial value"
  | k :: rest => mret (fold_left (fun a b => if pick a b then a else b) rest k)
  end.

(** [cv > 0.1] for [cv = overallStd / overallMean], decided on the
    variance: the standard deviation is its non-negative square root. *)
Definition cv_exceeds_tenth (overallMean overallVar : num) : bool :=
  match overallMean, overallVar with
  | Some m, Some v =>
      if gtb m 0 then gtb v ((1 # 100) * m * m)
      else if Qeq_bool m 0 then gtb v 0
      else false
  | _, _ => false
  end.

Definition detectSeasonality (data : list Q) (timestamps : list Z)
    : result (option Seasonality) :=
  if (length data <? 12)%nat then mret None
  else
    let monthlyData := group_from data 0 timestamps [] in
    monthlyMeans ← monthly_means monthlyData;
    let means := map snd monthlyMeans in
    overallMean ← mean means;
    overallVar ← variance means;
    let keys := map fst monthlyMeans in
    peak ← reduce_keys
             (fun a b => num_gtb (means_get monthlyMeans a)
                                 (means_get monthlyMeans b)) keys;
    low ← reduce_keys
            (fun a b => num_ltb (means_get monthlyMeans a)
                                (means_get monthlyMeans b)) keys;
    mret (Some {| seasonal := cv_exceeds_tenth overallMean overallVar;
                  monthlyMeans := monthlyMeans;
                  peakMonth := peak;
                  lowMonth := low |}).

End DetectSeasonality.

End Stats.

(** ** analysisService.js *)

Module Analysis.

Record Sustainability := {
  yearsRemaining : Z;
  extractionRate : Q;
  rechargeRate : Q;
  balance : string }.

Definition calculateSustainability (currentLevel : option Q)
    (trend : option Input.TrendAnalysis) (extractionRate rechargeRate : Q)
    : Sustainability :=
  match currentLevel with
  | Some level =>
      if truthy level then
        let netExtraction := extractionRate - rechargeRate in
        let availableWater := level * 1000 in
        let yearsRemaining :=
          if gtb netExtraction 0
          then Math_max 0 (availableWater / (netExtraction * 365))
          else 999 in
        let balance :=
          if gtb netExtraction (rechargeRate * (1 # 10)) then "deficit"
          else if gtb rechargeRate (extractionRate * (11 # 10)) then "surplus"
          else "balanced" in
        {| yearsRemaining := Math_round yearsRemaining;
           extractionRate := extractionRate;
           rechargeRate := rechargeRate;
           balance := balance |}
      else
        {| yearsRemaining := 0; extractionRate := extractionRate;
           rechargeRate := rechargeRate; balance := "unknown" |}
  | None =>
      {| yearsRemaining := 0; extractionRate := extractionRate;
         rechargeRate := rechargeRate; balance := "unknown" |}
  end.

Record Recommendation := {
  type : string;
  priority : string;
  title : string;
  description : string;
  impact : string;
  cost : string;
  timeline : string }.

Definition conservation_critical : Recommendation :=
  {| type := "conservation"; priority := "critical";
     title := "Immediate Water Conservation Required";
     description := "Groundwater levels are critically low. Implement immediate water conservation measures.";
     impact := "High water savings potential";
     cost := "Low to Medium"; timeline := "Immediate" |}.

Definition conservation_high : Recommendation :=
  {| type := "conservation"; priority := "high";
     title := "Water Conservation Measures";
     description := "Groundwater levels are low. Implement water conservation practices.";
     impact := "Moderate water savings";
     cost := "Low"; timeline := "1-3 months" |}.

Definition recharge_high : Recommendation :=
  {| type := "recharge"; priority := "high";
     title := "Install Rainwater Harvesting";
     description := "Set up rooftop rainwater collection systems to improve groundwater recharge during monsoon seasons.";
     impact := "Can increase local water table by 15-20%";
     cost := "Medium"; timeline := "3-6 months" |}.

Definition monitoring_medium : Recommendation :=
  {| type := "monitoring"; priority := "medium";
     title := "Enhanced Monitoring Required";
     description := "Water levels are declining significantly. Increase monitoring frequency and consider extraction limits.";
     impact := "Better decision making";
     cost := "Low"; timeline := "1-2 months" |}.

Definition infrastructure_low : Recommendation :=
  {| type := "infrastructure"; priority := "low";
     title := "Water-Efficient Irrigation";
     description := "Switch to drip irrigation systems for agricultural activities. This reduces water usage by 40% while maintaining crop yields.";
     impact := "40% water usage reduction";
     cost := "Medium"; timeline := "6-12 months" |}.

(** [s === lit] for a possibly missing string [s]. *)
Definition str_eqb (s : option string) (lit : string) : bool :=
  match s with
  | Some x => String.eqb x lit
  | None => false
  end.

(** [environmentalData.rainfall.annual > bound]; raises when
    [environmentalData.rainfall] is missing. *)
Definition annual_above (env : Input.EnvironmentalData) (bound : Q)
    : result bool :=
  rf ← deref "annual" (Input.rainfall env);
  mret (opt_gtb (Input.annual rf) bound).

Definition generateRecommendations (availability : Ml.Availability)
    (sustainability : Sustainability) (environmentalData : Input.EnvironmentalData)
    (trendAnalysis : Input.TrendAnalysis) : result (list Recommendation) :=
  let recommendations := [] in
  let recommendations :=
    if (Ml.score availability <? 30)%Z
    then recommendations ++ [conservation_critical]
    else if (Ml.score availability <? 50)%Z
    then recommendations ++ [conservation_high]
    else recommendations in
  wet ← (if String.eqb (balance sustainability) "deficit"
         then annual_above environmentalData 500
         else mret false : result bool);
  let recommendations :=
    if (wet : bool) then recommendations ++ [recharge_high] else recommendations in
  let recommendations :=
    if str_eqb (Input.direction trendAnalysis) "falling"
       && str_eqb (Input.significance trendAnalysis) "significant"
    then recommendations ++ [monitoring_medium]
    else recommendations in
  rainy ← (if (70 <? Ml.score availability)%Z
           then annual_above environmentalData 800
           else mret false : result bool);
  let recommendations :=
    if (rainy : bool) then recommendations ++ [infrastructure_low]
    else recommendations in
  mret recommendations.

Record Quality := { ph : option Q; tds : option Q }.

Record Usage := {
  score : Q;
  status : string;
  recommendations : list string }.

Record UsageSuitability := {
  agriculture : Usage;
  domestic : Usage;
  industrial : Usage }.

(** [quality?.ph] and [quality?.tds]. *)
Definition quality_ph (quality : option Quality) : option Q := q ← quality; ph q.
Definition quality_tds (quality : option Quality) : option Q := q ← quality; tds q.

Definition calculateUsageSuitability (waterLevel : option Q)
    (quality : option Quality) (sustainability : option Sustainability)
    : UsageSuitability :=
  let baseScore := Math_max 0 (100 - or_default waterLevel 20 * 2) in
  {| agriculture :=
       {| score :=
            Math_min 100
              (baseScore +
               (if opt_gtb (quality_ph quality) (65 # 10)
                   && opt_ltb (quality_ph quality) (85 # 10)
                then 20 else 0));
          status :=
            if gtb baseScore 70 then "suitable"
            else if gtb baseScore 40 then "moderate" else "unsuitable";
          recommendations :=
            if ltb baseScore 50
            then ["Consider water-efficient crops"; "Implement drip irrigation"]
            else [] |};
     domestic :=
       {| score :=
            Math_min 100
              (baseScore + (if opt_ltb (quality_tds quality) 500 then 15 else 0));
          status :=
            if gtb baseScore 60 then "suitable"
            else if gtb baseScore 30 then "moderate" else "unsuitable";
          recommendations :=
            if ltb baseScore 40
            then ["Install water treatment"; "Regular water testing"]
            else [] |};
     industrial :=
       {| score :=
            Math_min 100
              (baseScore + (if opt_ltb (quality_tds quality) 1000 then 10 else 0));
          status :=
            if gtb baseScore 50 then "suitable"
            else if gtb baseScore 25 then "moderate" else "unsuitable";
          recommendations :=
            if ltb baseScore 30
            then ["Water recycling systems"; "Alternative water sources"]
            else [] |} |}.

End Analysis.

(** ** Specification-side definitions *)

Module Spec.


(** A confidence bonus that counts only when its signal is present. *)
Definition bonus (signal : bool) (points : Z) : Z :=
  if signal then points else 0%Z.

(** Base 50 plus the six corroborating signals, capped at 100. *)
Definition confidence_sum
    (hasReading rainfall riverNear trendStrong stationNear readingSure : bool)
    : Z :=
  Z.min 100
    (50 + bonus hasReading 20 + bonus rainfall 10 + bonus riverNear 10
     + bonus trendStrong 10 + bonus stationNear 10 + bonus readingSure 10).

(** The significance levels from "significant" upwards. *)
Definition significant_or_stronger (s : option string) : Prop :=
  s = Some "significant" \/ s = Some "very_significant"
  \/ s = Some "highly_significant".


(** Shape of the monthly groups: distinct month keys in ascending order,
    every group non-empty and free of [undefined]. *)
Definition grouped_ok (monthlyData : list (nat * list Stats.num)) : Prop :=
  StronglySorted lt (map fst monthlyData)
  /\ Forall (fun g => snd g <> [] /\ Forall is_Some (snd g)) monthlyData.

(** [monthlyData[k]], with the empty list for a month never seen. *)
Fixpoint group_get (monthlyData : list (nat * list Stats.num)) (k : nat)
    : list Stats.num :=
  match monthlyData with
  | [] => []
  | (k', xs) :: rest => if (k =? k')%nat then xs else group_get rest k
  end.

(** The observations whose timestamp falls in month [k], in input order;
    [index] is the position of the first timestamp in [data]. *)
Fixpoint month_values (getMonth : Z -> nat) (data : list Q) (index : nat)
    (timestamps : list Z) (k : nat) : list Stats.num :=
  match timestamps with
  | [] => []
  | t :: rest =>
      (if (getMonth t =? k)%nat then [data !! index] else [])
      ++ month_values getMonth data (S index) rest k
  end.

(** The value of a number known not to be [NaN]. *)
Definition num_value (x : Stats.num) : Q :=
  match x with
  | Some q => q
  | None => 0
  end.

End Spec.

(** ** Concrete inputs used in the examples below *)

Module Examples.

Definition station_ok : Input.Station :=
  {| Input.technicalDetails :=
       Some {| Input.wellDepth := Some 30;
               Input.aquiferType := Some "unconfined" |} |}.

Definition reading (level : Q) (st : string) : Input.Reading :=
  {| Input.waterLevel := level;
     Input.waterLevelStatus := Some st;
     Input.metadata := None |}.

Definition env (annual monsoon : Q) (perm : string) : Input.EnvironmentalData :=
  {| Input.rainfall :=
       Some {| Input.annual := Some annual;
               Input.seasonal := Some {| Input.monsoon := Some monsoon |};
               Input.rainfall_trend_label := None |};
     Input.proximity :=
       Some {| Input.rivers := Some []; Input.waterBodies := Some [] |};
     Input.geology :=
       Some {| Input.permeability := Some perm; Input.depth := Some 20 |} |}.

Definition trend_of (dir sig : string) : Input.TrendAnalysis :=
  {| Input.direction := Some dir;
     Input.significance := Some sig;
     Input.trend := Some 0 |}.

(** A deep well (44 m) in a dry area with a falling trend.  No river is
    listed, so the river distance defaults to 50.
    linear = 50 − 2.5·44 + 0.05·400 + 0.08·300 − 0.3·50 + 15·3 − 10 = 4;
    weighted = 0.4·0 + 0.25·77.5 + 0.2·0 + 0.15·75 = 30.625;
    trend = 50 − 20 = 30; ensemble = 1.6 + 12.25 + 6 = 19.85. *)
Definition boundary_input : Input.t :=
  {| Input.latitude := 28; Input.longitude := 77;
     Input.stationData :=
       Some {| Input.station := Some station_ok;
               Input.latestReading := Some (reading 44 "low");
               Input.distance := 12 |};
     Input.environmentalData := Some (env 400 300 "high");
     Input.trendAnalysis := Some (trend_of "falling" "not_significant") |}.

(** The same site with the water level at 43.5 m: linear = 5.25 and the
    ensemble score is 20.35. *)
Definition above_boundary_input : Input.t :=
  {| Input.latitude := 28; Input.longitude := 77;
     Input.stationData :=
       Some {| Input.station := Some station_ok;
               Input.latestReading := Some (reading (435 # 10) "low");
               Input.distance := 12 |};
     Input.environmentalData := Some (env 400 300 "high");
     Input.trendAnalysis := Some (trend_of "falling" "not_significant") |}.

Definition boundary_prediction : Ml.Prediction :=
  Eval vm_compute in
    match Ml.predict_body boundary_input with
    | Ok r => r
    | Throw _ => Ml.fallback
    end.

(** The same request when no station record was supplied. *)
Definition no_station_input : Input.t :=
  {| Input.latitude := 28; Input.longitude := 77;
     Input.stationData := None;
     Input.environmentalData := Some (env 400 300 "high");
     Input.trendAnalysis := Some (trend_of "falling" "not_significant") |}.

(** A feature vector inside the documented ranges. *)
Definition typical_features : Ml.Features :=
  {| Ml.f_latitude := 28; Ml.f_longitude := 77;
     Ml.distance_to_station := 12;
     Ml.current_water_level := 8;
     Ml.water_level_status := 3;
     Ml.trend_direction := 1;
     Ml.trend_significance := 3;
     Ml.trend_magnitude := 7 # 10;
     Ml.annual_rainfall := 1000;
     Ml.monsoon_rainfall := 700;
     Ml.rainfall_trend := 0;
     Ml.nearest_river_distance := 5;
     Ml.nearest_waterbody_distance := 50;
     Ml.river_influence := 3;
     Ml.soil_permeability := 3;
     Ml.aquifer_depth := 20;
     Ml.well_depth := 30;
     Ml.aquifer_type := 1 |}.

(** Features whose only corroborating signal is a trend encoded 2
    ("significant"). *)
Definition significant_only_features : Ml.Features :=
  {| Ml.f_latitude := 28; Ml.f_longitude := 77;
     Ml.distance_to_station := 12;
     Ml.current_water_level := 15;
     Ml.water_level_status := 2;
     Ml.trend_direction := -1;
     Ml.trend_significance :=
       inject_Z (getSignificanceValue (Some "significant"));
     Ml.trend_magnitude := 0;
     Ml.annual_rainfall := 0;
     Ml.monsoon_rainfall := 0;
     Ml.rainfall_trend := 0;
     Ml.nearest_river_distance := 50;
     Ml.nearest_waterbody_distance := 50;
     Ml.river_influence := 1;
     Ml.soil_permeability := 2;
     Ml.aquifer_depth := 20;
     Ml.well_depth := 30;
     Ml.aquifer_type := 1 |}.

Definition far_station_no_reading : Input.StationData :=
  {| Input.station := Some station_ok;
     Input.latestReading := None;
     Input.distance := 12 |}.

(** Twelve readings of 5 m: six in January 1970 and six in February 1970
    (epoch milliseconds). *)
Definition flat_levels : list Q := repeat 5 12.
Definition jan_feb_timestamps : list Z :=
  [0; 1; 2; 3; 4; 5;
   2678400000; 2678400001; 2678400002; 2678400003; 2678400004;
   2678400005]%Z.

End Examples.

(** ** statisticalAnalysis.js: trend test and slope *)

Module Trend.

(** The numeric comparator [(a, b) => a - b] of [Array.prototype.sort]
    orders by [<=]. *)
#[export] Instance Qle_decision : RelDecision Qle := fun x y =>
  match Qlt_le_dec y x with
  | left H => right (Qlt_not_le _ _ H)
  | right H => left H
  end.

(** The inner loop of the S statistic: [x] is [data[i]], [later] holds
    [data[j]] for [j > i], and the accumulator is [(S, ties)]. *)
Fixpoint compare_later (x : Q) (later : list Q) (acc : Z * Z) : Z * Z :=
  match later with
  | [] => acc
  | y :: rest =>
      let diff := y - x in
      compare_later x rest
        (if gtb diff 0 then (fst acc + 1, snd acc)%Z
         else if ltb diff 0 then (fst acc - 1, snd acc)%Z
         else (fst acc, snd acc + 1)%Z)
  end.

(** The outer loop over [i]. *)
Fixpoint s_statistic (data : list Q) (acc : Z * Z) : Z * Z :=
  match data with
  | [] => acc
  | x :: rest => s_statistic rest (compare_later x rest acc)
  end.

Definition ms_per_day : Q := 1000 * 60 * 60 * 24.

(** The slope pushed for the pair [(i, j)], if any: an index outside
    [timestamps] reads [undefined], the difference is [NaN] and the test
    [timeDiff > 0] fails. *)
Definition pair_slope (data : list Q) (timestamps : list Z) (i j : nat)
    : list Q :=
  match data !! i, data !! j, timestamps !! i, timestamps !! j with
  | Some di, Some dj, Some ti, Some tj =>
      let timeDiff := inject_Z (tj - ti) / ms_per_day in
      if gtb timeDiff 0 then [(dj - di) / timeDiff] else []
  | _, _, _, _ => []
  end.

(** The two nested loops of [calculateSenSlope], in push order. *)
Definition pairwise_slopes (data : list Q) (timestamps : list Z) : list Q :=
  let n := length data in
  flat_map
    (fun i => flat_map (pair_slope data timestamps i) (seq (S i) (n - S i)))
    (seq 0 (n - 1)).

(** The median step of [calculateSenSlope] on the collected slopes. *)
Definition median_of_slopes (slopes : list Q) : Q :=
  match slopes with
  | [] => 0
  | _ =>
      let slopes := merge_sort Qle slopes in
      let medianIndex := (length slopes / 2)%nat in
      if (length slopes mod 2 =? 0)%nat
      then (nth (medianIndex - 1) slopes 0 + nth medianIndex slopes 0) / 2
      else nth medianIndex slopes 0
  end.

Definition calculateSenSlope (data : list Q) (timestamps : list Z) : Q :=
  median_of_slopes (pairwise_slopes data timestamps).

Record MannKendall := {
  trend : Q;
  direction : string;
  significance : string;
  pValue : Q;
  S_stat : option Z;
  Z_stat : option Q;
  variance : option Q;
  dataPoints : option nat }.

Definition insufficient_data : MannKendall :=
  {| trend := 0; direction := "stable"; significance := "insufficient_data";
     pValue := 1; S_stat := None; Z_stat := None; variance := None;
     dataPoints := None |}.

Section HostMath.

(** [Math.sqrt] and [Math.exp] of the host, which have no rational
    counterpart. *)
Variable Math_sqrt : Q -> Q.
Variable Math_exp : Q -> Q.

Definition erf (x : Q) : Q :=
  let a1 := 254829592 # 1000000000 in
  let a2 := - (284496736 # 1000000000) in
  let a3 := 1421413741 # 1000000000 in
  let a4 := - (1453152027 # 1000000000) in
  let a5 := 1061405429 # 1000000000 in
  let p := 3275911 # 10000000 in
  let sign := if geb x 0 then 1 else - (1) in
  let x := Math_abs x in
  let t := 1 / (1 + p * x) in
  let y :=
    1 - (((((a5 * t + a4) * t) + a3) * t + a2) * t + a1) * t
        * Math_exp (- (x * x)) in
  sign * y.

Definition normalCDF (x : Q) : Q := (1 # 2) * (1 + erf (x / Math_sqrt 2)).

Definition calculateMannKendallTrend (data : list Q) (timestamps : list Z)
    : MannKendall :=
  if (length data <? 3)%nat then insufficient_data
  else
    let n := Z.of_nat (length data) in
    let '(s, ties) := s_statistic data (0, 0)%Z in
    let variance := inject_Z (n * (n - 1) * (2 * n + 5) - ties) / 18 in
    let stdDev := Math_sqrt variance in
    let z :=
      if (s >? 0)%Z then inject_Z (s - 1) / stdDev
      else if (s <? 0)%Z then inject_Z (s + 1) / stdDev
      else 0 in
    let pValue := 2 * (1 - normalCDF (Math_abs z)) in
    let significance :=
      if ltb pValue (1 # 1000) then "highly_significant"
      else if ltb pValue (1 # 100) then "very_significant"
      else if ltb pValue (5 # 100) then "significant"
      else if ltb pValue (1 # 10) then "marginally_significant"
      else "not_significant" in
    let direction :=
      if (s >? 0)%Z then "rising"
      else if (s <? 0)%Z then "falling" else "stable" in
    let trend := calculateSenSlope data timestamps in
    {| trend := trend; direction := direction; significance := significance;
       pValue := pValue; S_stat := Some s; Z_stat := Some z;
       variance := Some variance; dataPoints := Some (length data) |}.

End HostMath.

End Trend.

(** ** mlPredictionService.js: forecast *)

Module Forecast.

Record Prediction := {
  day : nat;
  predictedLevel : Stats.num;
  confidence : Q }.

(** [Math.max(0, x)] for an [x] that may be [NaN]. *)
Definition max0 (x : Stats.num) : Stats.num := q ← x; Some (Math_max 0 q).

Section Regression.

(** [new SimpleLinearRegression(data)] of the ml-regression package, which
    is not part of the repository: the constructor may raise on the points
    it is given; it yields the [predict] method, which may raise or return
    [NaN]. *)
Variable SimpleLinearRegression :
  list (Q * Q) -> result (Q -> result Stats.num).

(** [readings.map((r, i) => [i, r.waterLevel])], from index [i] on. *)
Fixpoint indexed (i : nat) (levels : list Q) : list (Q * Q) :=
  match levels with
  | [] => []
  | l :: rest => (inject_Z (Z.of_nat i), l) :: indexed (S i) rest
  end.

(** The loop over the days, from day [i] on with [todo] days to go, for
    [n] readings; the first call of [predict] that raises aborts it.  The
    date of a prediction is represented by its day offset [i]. *)
Fixpoint predict_days (predict : Q -> result Stats.num) (n i todo : nat)
    : result (list Prediction) :=
  match todo with
  | O => mret []
  | S todo' =>
      let futureIndex := inject_Z (Z.of_nat (n + i)) in
      predictedLevel ← predict futureIndex;
      predictions ← predict_days predict n (S i) todo';
      mret ({| day := i;
               predictedLevel := max0 predictedLevel;
               confidence :=
                 Math_max 50 (100 - inject_Z (Z.of_nat i) * 2) |}
            :: predictions)
  end.

(** The block guarded by [try], from the point where the query for the
    readings of the last 90 days has settled: [fetched] is its outcome,
    the water levels of the readings in time order or a rejection.
    [None] is [null]. *)
Definition forecast_body (fetched : result (list Q)) (days : nat)
    : result (option (list Prediction)) :=
  levels ← fetched;
  if (length levels <? 10)%nat then mret None
  else
    let data := indexed 0 levels in
    regression ← SimpleLinearRegression data;
    predictions ← predict_days regression (length levels) 0 days;
    mret (Some predictions).

(** [predictFutureLevels]: whatever the guarded block raises is caught and
    answered with [null]. *)
Definition predictFutureLevels (fetched : result (list Q)) (days : nat)
    : result (option (list Prediction)) :=
  try_catch (forecast_body fetched days) (fun error => mret None).

End Regression.

End Forecast.

(** ** analysisService.js: the steps around the predictor *)

Module Pipeline.

(** [calculateTrendAnalysis] once the readings of the last year are
    fetched: [levels] and [timestamps] are their water levels and epoch
    milliseconds.  Of the returned object the fields read downstream
    (trend, significance, direction) are kept. *)
Definition calculateTrendAnalysis (Math_sqrt Math_exp : Q -> Q)
    (levels : list Q) (timestamps : list Z) : Input.TrendAnalysis :=
  if (length levels <? 10)%nat then
    {| Input.direction := Some "stable";
       Input.significance := Some "insufficient_data";
       Input.trend := Some 0 |}
  else
    let mkResult :=
      Trend.calculateMannKendallTrend Math_sqrt Math_exp levels timestamps in
    {| Input.direction := Some (Trend.direction mkResult);
       Input.significance := Some (Trend.significance mkResult);
       Input.trend := Some (Trend.trend mkResult) |}.

(** Arithmetic and comparison on numbers that may be [NaN]. *)
Definition num_sub (a b : Stats.num) : Stats.num :=
  x ← a; y ← b; Some (x - y).
Definition num_mul (a b : Stats.num) : Stats.num :=
  x ← a; y ← b; Some (x * y).

Record Sustainability := {
  yearsRemaining : Z;
  extractionRate : Q;
  rechargeRate : Stats.num;
  balance : string }.

(** [calculateSustainability] for a recharge rate that may be [NaN]. *)
Definition calculateSustainability (currentLevel : option Q)
    (trend : option Input.TrendAnalysis) (extractionRate : Q)
    (rechargeRate : Stats.num) : Sustainability :=
  match currentLevel with
  | Some level =>
      if truthy level then
        let netExtraction := num_sub (Some extractionRate) rechargeRate in
        let availableWater := level * 1000 in
        let yearsRemaining :=
          if Stats.num_gtb netExtraction (Some 0)
          then Math_max 0
                 (availableWater / (Spec.num_value netExtraction * 365))
          else 999 in
        let balance :=
          if Stats.num_gtb netExtraction
               (num_mul rechargeRate (Some (1 # 10)))
          then "deficit"
          else if Stats.num_gtb rechargeRate
                    (Some (extractionRate * (11 # 10)))
          then "surplus"
          else "balanced" in
        {| yearsRemaining := Math_round yearsRemaining;
           extractionRate := extractionRate;
           rechargeRate := rechargeRate;
           balance := balance |}
      else
        {| yearsRemaining := 0; extractionRate := extractionRate;
           rechargeRate := rechargeRate; balance := "unknown" |}
  | None =>
      {| yearsRemaining := 0; extractionRate := extractionRate;
         rechargeRate := rechargeRate; balance := "unknown" |}
  end.

(** [environmentalData.annualRainfall]: the object built by
    [getExternalData] has the properties rainfall, weather, proximity,
    geology and lastUpdated only, so this read yields [undefined]. *)
Definition annualRainfall (env : Input.EnvironmentalData) : Stats.num := None.

(** [nearestStationData.latestReading?.waterLevel]. *)
Definition latest_level (sd : Input.StationData) : option Q :=
  r ← Input.latestReading sd; Some (Input.waterLevel r).

(** Step 5 of [performGroundwaterAnalysis]. *)
Definition sustainability_step (sd : Input.StationData)
    (env : Input.EnvironmentalData) (ta : Input.TrendAnalysis)
    (extractionRate : Q) : Sustainability :=
  calculateSustainability (latest_level sd) (Some ta) extractionRate
    (num_mul (annualRainfall env) (Some (3 # 10))).

Record Depth := { estimated : Q; range_min : Q; range_max : Q }.

(** The [depth] entry of the assessment returned by
    [performGroundwaterAnalysis]. *)
Definition depth (sd : Input.StationData) : Depth :=
  {| estimated := or_default (latest_level sd) 15;
     range_min := Math_max 0 (or_default (latest_level sd) 15 - 5);
     range_max := or_default (latest_level sd) 15 + 5 |}.

End Pipeline.

(** ** Record updates and shapes used to state the properties *)

Module Shape.

Definition with_water_level (f : Ml.Features) (level : Q) : Ml.Features :=
  {| Ml.f_latitude := Ml.f_latitude f;
     Ml.f_longitude := Ml.f_longitude f;
     Ml.distance_to_station := Ml.distance_to_station f;
     Ml.current_water_level := level;
     Ml.water_level_status := Ml.water_level_status f;
     Ml.trend_direction := Ml.trend_direction f;
     Ml.trend_significance := Ml.trend_significance f;
     Ml.trend_magnitude := Ml.trend_magnitude f;
     Ml.annual_rainfall := Ml.annual_rainfall f;
     Ml.monsoon_rainfall := Ml.monsoon_rainfall f;
     Ml.rainfall_trend := Ml.rainfall_trend f;
     Ml.nearest_river_distance := Ml.nearest_river_distance f;
     Ml.nearest_waterbody_distance := Ml.nearest_waterbody_distance f;
     Ml.river_influence := Ml.river_influence f;
     Ml.soil_permeability := Ml.soil_permeability f;
     Ml.aquifer_depth := Ml.aquifer_depth f;
     Ml.well_depth := Ml.well_depth f;
     Ml.aquifer_type := Ml.aquifer_type f |}.

Definition ensemble (f : Ml.Features) : Q :=
  Ml.calculateLinearAvailability f * (4 # 10)
  + Ml.calculateWeightedAvailability f * (4 # 10)
  + Ml.calculateTrendBasedAvailability f * (2 # 10).

Definition with_reading (sd : Input.StationData) (r : option Input.Reading)
    : Input.StationData :=
  {| Input.station := Input.station sd;
     Input.latestReading := r;
     Input.distance := Input.distance sd |}.

(** Number of unordered pairs among [n] items. *)
Definition pairs (n : nat) : Z := (Z.of_nat n * (Z.of_nat n - 1) / 2)%Z.

(** A series on a straight line: level [a + b·days] at time [t]. *)
Definition on_line (a b : Q) (data : list Q) (timestamps : list Z) : Prop :=
  length timestamps = length data
  /\ forall i d t, data !! i = Some d -> timestamps !! i = Some t ->
       d == a + b * (inject_Z t / Trend.ms_per_day).

(** The contribution of the pair [(x, y)], [x] before [y], to the S
    statistic and to the tie count. *)
Definition sgn (x y : Q) : Z :=
  if gtb (y - x) 0 then 1%Z else if ltb (y - x) 0 then (-1)%Z else 0%Z.
Definition tie (x y : Q) : Z :=
  if gtb (y - x) 0 then 0%Z else if ltb (y - x) 0 then 0%Z else 1%Z.

Definition zsum (zs : list Z) : Z := foldr Z.add 0%Z zs.

(** Sum of [sgn], and number of ties, over all pairs in list order. *)
Fixpoint sign_sum (data : list Q) : Z :=
  match data with
  | [] => 0%Z
  | x :: rest => (zsum (map (sgn x) rest) + sign_sum rest)%Z
  end.
Fixpoint tie_count (data : list Q) : Z :=
  match data with
  | [] => 0%Z
  | x :: rest => (zsum (map (tie x) rest) + tie_count rest)%Z
  end.

(** An input whose measured quantities (water level, annual and monsoon
    rainfall, distance to the nearest river) are not negative. *)
Definition nonneg_input (i : Input.t) : Prop :=
  (forall sd r,
      Input.stationData i = Some sd -> Input.latestReading sd = Some r ->
      0 <= Input.waterLevel r)
  /\ (forall env rf,
        Input.environmentalData i = Some env -> Input.rainfall env = Some rf ->
        (forall a, Input.annual rf = Some a -> 0 <= a)
        /\ (forall s m, Input.seasonal rf = Some s -> Input.monsoon s = Some m ->
                        0 <= m))
  /\ (forall env px d,
        Input.environmentalData i = Some env -> Input.proximity env = Some px ->
        Input.first_distance (Input.rivers px) = Some d -> 0 <= d).

(** An input none of whose labels names a member inherited from
    [Object.prototype]: the labels are the ones [extractFeatures] passes
    to the encoders. *)
Definition plain_labels (i : Input.t) : Prop :=
  (forall sd r,
      Input.stationData i = Some sd -> Input.latestReading sd = Some r ->
      inherited (Input.waterLevelStatus r) = false)
  /\ (forall ta,
        Input.trendAnalysis i = Some ta ->
        inherited (Input.direction ta) = false
        /\ inherited (Input.significance ta) = false)
  /\ (forall env rf,
        Input.environmentalData i = Some env -> Input.rainfall env = Some rf ->
        inherited (Input.rainfall_trend_label rf) = false)
  /\ (forall env px,
        Input.environmentalData i = Some env -> Input.proximity env = Some px ->
        inherited (Input.first_influence (Input.rivers px)) = false)
  /\ (forall env g,
        Input.environmentalData i = Some env -> Input.geology env = Some g ->
        inherited (Input.permeability g) = false)
  /\ (forall sd st td,
        Input.stationData i = Some sd -> Input.station sd = Some st ->
        Input.technicalDetails st = Some td ->
        inherited (Input.aquiferType td) = false).

(** A value that is a number equal to [c]. *)
Definition is_num (c : Q) (v : Stats.num) : Prop :=
  exists q, v = Some q /\ q == c.

End Shape.

(** ** Further concrete inputs *)

Module Samples.

(** A request for a station that has only three readings in the year. *)
Definition short_history_input : Input.t :=
  {| Input.latitude := 28; Input.longitude := 77;
     Input.stationData := Some Examples.far_station_no_reading;
     Input.environmentalData := Some (Examples.env 400 300 "high");
     Input.trendAnalysis :=
       Some (Pipeline.calculateTrendAnalysis (fun x => x) (fun x => x)
               [9; 8; 7] [0; 1; 2]%Z) |}.

(** A station 12 km away whose latest reading is 15.1 m. *)
Definition station_with_reading : Input.StationData :=
  {| Input.station := Some Examples.station_ok;
     Input.latestReading := Some (Examples.reading (151 # 10) "moderate");
     Input.distance := 12 |}.

(** A regression that extrapolates along a fixed line, and a constructor
    that rejects the points it is given. *)
Definition line_regression (data : list (Q * Q))
    : result (Q -> result Stats.num) :=
  Ok (fun x => Ok (Some (x - 40))).
Definition failing_regression (data : list (Q * Q))
    : result (Q -> result Stats.num) :=
  Throw "TypeError: x and y must be arrays".

End Samples.

(** * Properties *)

(** ** Facts about the JavaScript primitives *)

Lemma gtb_true a b : gtb a b = true <-> b < a.
Proof.
  unfold gtb. destruct (Qlt_le_dec b a) as [H|H]; split; intros H0; try easy.
  exfalso. apply (Qlt_not_le _ _ H0 H).
Qed.

Lemma gtb_false a b : gtb a b = false <-> a <= b.
Proof.
  unfold gtb. destruct (Qlt_le_dec b a) as [H|H]; split; intros H0; try easy.
  exfalso. apply (Qlt_not_le _ _ H H0).
Qed.

Lemma ltb_true a b : ltb a b = true <-> a < b.
Proof.
  unfold ltb. destruct (Qlt_le_dec a b) as [H|H]; split; intros H0; try easy.
  exfalso. apply (Qlt_not_le _ _ H0 H).
Qed.

Lemma ltb_false a b : ltb a b = false <-> b <= a.
Proof.
  unfold ltb. destruct (Qlt_le_dec a b) as [H|H]; split; intros H0; try easy.
  exfalso. apply (Qlt_not_le _ _ H H0).
Qed.

Lemma geb_true a b : geb a b = true <-> b <= a.
Proof.
  unfold geb. destruct (Qlt_le_dec a b) as [H|H]; split; intros H0; try easy.
  exfalso. apply (Qlt_not_le _ _ H H0).
Qed.

Lemma geb_false a b : geb a b = false <-> a < b.
Proof.
  unfold geb. destruct (Qlt_le_dec a b) as [H|H]; split; intros H0; try easy.
  exfalso. apply (Qlt_not_le _ _ H0 H).
Qed.

Lemma truthy_false q : truthy q = false <-> q == 0.
Proof. unfold truthy. rewrite negb_false_iff. apply Qeq_bool_iff. Qed.

Lemma truthy_true q : truthy q = true <-> ~ q == 0.
Proof.
  unfold truthy. rewrite negb_true_iff. split.
  - apply Qeq_bool_neq.
  - intros H. destruct (Qeq_bool q 0) eqn:E; [|reflexivity].
    apply Qeq_bool_iff in E. contradiction.
Qed.

(** Turns the boolean comparisons in the context into order facts. *)
Ltac order_facts :=
  repeat match goal with
         | H : gtb _ _ = true |- _ => apply gtb_true in H
         | H : gtb _ _ = false |- _ => apply gtb_false in H
         | H : ltb _ _ = true |- _ => apply ltb_true in H
         | H : ltb _ _ = false |- _ => apply ltb_false in H
         | H : geb _ _ = true |- _ => apply geb_true in H
         | H : geb _ _ = false |- _ => apply geb_false in H
         end.

(** [Math.round] never falls below an integer that the argument reaches. *)
Lemma Math_round_ge (k : Z) (x : Q) : inject_Z k <= x -> (k <= Math_round x)%Z.
Proof.
  intros H. unfold Math_round.
  rewrite <- (Qfloor_Z k). apply Qfloor_resp_le. lra.
Qed.


Lemma Math_round_mono (x y : Q) : x <= y -> (Math_round x <= Math_round y)%Z.
Proof. intros H. unfold Math_round. apply Qfloor_resp_le. lra. Qed.

(** ** Categorical encoders *)

(** All listed labels except the status "critical" are encoded by the
    integer their table lists. *)
Lemma encoders_nonzero_and_default_labels :
  map getStatusValue [Some "low"; Some "moderate"; Some "good"; Some "excellent"]
    = [1; 2; 3; 4]%Z
  /\ map getTrendValue [Some "falling"; Some "stable"; Some "rising"]
    = [-1; 0; 1]%Z
  /\ map getSignificanceValue
       [Some "not_significant"; Some "marginally_significant";
        Some "significant"; Some "very_significant"; Some "highly_significant"]
    = [0; 1; 2; 3; 4]%Z
  /\ map getInfluenceValue [Some "low"; Some "medium"; Some "high"] = [1; 2; 3]%Z
  /\ map getPermeabilityValue [Some "low"; Some "medium"; Some "high"]
    = [1; 2; 3]%Z
  /\ map getAquiferTypeValue
       [Some "unconfined"; Some "confined"; Some "semi-confined"; Some "leaky"]
    = [1; 2; 3; 4]%Z.
Proof. vm_compute. tauto. Qed.

(** C2.  The status table lists critical as 0, but the encoder returns
    [statusMap[status] || 2], and 0 is falsy: the status "critical" is
    encoded as 2, the same as "moderate", and never as 0. *)
Theorem getStatusValue_critical_is_moderate :
  statusMap !! "critical" = Some 0%Z
  /\ getStatusValue (Some "critical") = 2%Z
  /\ getStatusValue (Some "critical") = getStatusValue (Some "moderate")
  /\ getStatusValue (Some "critical") <> 0%Z.
Proof. vm_compute. repeat split; congruence. Qed.

(** No status at all is encoded as 0. *)
Lemma getStatusValue_never_zero (status : option string) :
  getStatusValue status <> 0%Z.
Proof.
  unfold getStatusValue, lookup_or.
  destruct (statusMap !! to_key status) as [v|]; [|discriminate].
  destruct (v =? 0)%Z eqn:E; [discriminate|]. now apply Z.eqb_neq.
Qed.

(** ** The predictor's failure boundary *)

(** Feature extraction raises exactly when one of the objects it reads
    from is missing. *)
Lemma extractFeatures_throws_iff (i : Input.t) :
  (exists msg, Ml.extractFeatures i = Throw msg) <->
  Input.stationData i = None \/ Input.trendAnalysis i = None
  \/ Input.environmentalData i = None
  \/ (exists sd, Input.stationData i = Some sd /\ Input.station sd = None).
Proof.
  unfold Ml.extractFeatures.
  destruct (Input.stationData i) as [sd|]; simpl.
  2: { split; eauto. }
  destruct (Input.latestReading sd); simpl;
    (destruct (Input.trendAnalysis i) as [ta|]; simpl; [| split; eauto ]);
    (destruct (Input.environmentalData i) as [env|]; simpl;
       [| split; eauto 6 ]);
    destruct (Input.rainfall env), (Input.proximity env), (Input.geology env);
    simpl;
    (destruct (Input.station sd) as [st|] eqn:Est; simpl;
       [| split; eauto 8 ]);
    destruct (Input.technicalDetails st); simpl;
    (split; [intros [msg H]; discriminate
            | intros [H|[H|[H|[sd' [H1 H2]]]]]; try discriminate;
              injection H1 as <-; congruence]).
Qed.

(** The guarded block raises exactly when feature extraction does. *)
Lemma predict_body_throws_iff (i : Input.t) :
  (exists msg, Ml.predict_body i = Throw msg)
  <-> (exists msg, Ml.extractFeatures i = Throw msg).
Proof.
  unfold Ml.predict_body.
  destruct (Ml.extractFeatures i) as [f|m] eqn:Ef;
    cbn [mbind result_bind]; [|split; eauto].
  destruct (Input.stationData i) as [sd|] eqn:Esd;
    cbn [deref mbind result_bind mret result_ret].
  - split; intros [msg H]; discriminate.
  - destruct (proj2 (extractFeatures_throws_iff i) (or_introl Esd))
      as [msg H].
    congruence.
Qed.

Lemma predict_body_throws_without_station :
  exists msg, Ml.predict_body Examples.no_station_input = Throw msg.
Proof. eexists. vm_compute. reflexivity. Qed.

(** C3.  Called with an argument object, whatever its five properties
    hold, the predictor returns a result and does not raise; whenever the
    guarded block (feature extraction and the sub-models) raises, the
    result is the fixed neutral fallback: score 50, status moderate,
    confidence 30, features ["fallback"].  The predictor raises exactly
    when it is called without an argument object: the parameter list is
    destructured before the guard is entered. *)
Theorem predictGroundwaterLevel_throws_only_without_argument (i : Input.t) :
  (exists r, Ml.predictGroundwaterLevel (Some i) = Ok r)
  /\ (forall msg, Ml.predict_body i = Throw msg ->
        Ml.predictGroundwaterLevel (Some i) = Ok Ml.fallback)
  /\ (forall msg, Ml.extractFeatures i = Throw msg ->
        Ml.predictGroundwaterLevel (Some i) = Ok Ml.fallback)
  /\ Ml.score (Ml.availability Ml.fallback) = 50%Z
  /\ Ml.status (Ml.availability Ml.fallback) = "moderate"
  /\ Ml.confidence Ml.fallback = 30%Z
  /\ Ml.features Ml.fallback = ["fallback"]
  /\ (forall arg,
        (exists msg, Ml.predictGroundwaterLevel arg = Throw msg)
        <-> arg = None).
Proof.
  unfold Ml.predictGroundwaterLevel, try_catch.
  cbn [deref mbind result_bind].
  split; [|split; [|split]].
  - destruct (Ml.predict_body i); eauto.
  - intros msg ->. reflexivity.
  - intros msg H. unfold Ml.predict_body. rewrite H. reflexivity.
  - do 4 (split; [reflexivity|]).
    intros [j|]; cbn [deref mbind result_bind].
    + split; [|discriminate].
      intros [msg H]. destruct (Ml.predict_body j); discriminate.
    + split; [reflexivity|eauto].
Qed.

Lemma predictGroundwaterLevel_throws_only_without_argument_witness :
  Ml.predictGroundwaterLevel (Some Examples.no_station_input)
  = Ok Ml.fallback.
Proof.
  destruct (predictGroundwaterLevel_throws_only_without_argument
              Examples.no_station_input)
    as (_ & _ & H & _).
  apply (H "TypeError: cannot read properties of undefined: distance").
  reflexivity.
Defined.

(** C3 (as stated) fails: a call that passes no argument, or passes
    [null], raises to the caller instead of returning the fallback. *)
Lemma predictGroundwaterLevel_rejects_missing_argument :
  ~ (forall arg, exists r, Ml.predictGroundwaterLevel arg = Ok r).
Proof.
  intros H. destruct (H None) as [r Hr]. discriminate.
Qed.

(** ** Status and reported score *)

Lemma bind_Ok_inv {A B} (r : result A) (k : A -> result B) (b : B) :
  r ≫= k = Ok b -> exists a, r = Ok a /\ k a = Ok b.
Proof. destruct r as [a|m]; [eauto|discriminate]. Qed.

Lemma mret_Ok_inv {A} (a b : A) : mret a = Ok b -> a = b.
Proof. intros [= ->]. reflexivity. Qed.

Lemma deref_Ok_inv {A} (what : string) (o : option A) (a : A) :
  deref what o = Ok a -> o = Some a.
Proof. destruct o; [intros [= ->]; reflexivity|discriminate]. Qed.

Lemma predict_body_ok (i : Input.t) (r : Ml.Prediction) :
  Ml.predict_body i = Ok r ->
  exists f sd e,
    Ml.extractFeatures i = Ok f /\ Input.stationData i = Some sd
    /\ e = Ml.calculateLinearAvailability f * (4 # 10)
           + Ml.calculateWeightedAvailability f * (4 # 10)
           + Ml.calculateTrendBasedAvailability f * (2 # 10)
    /\ Ml.modelDetails r
       = Some {| Ml.linearScore := Ml.calculateLinearAvailability f;
                 Ml.weightedScore := Ml.calculateWeightedAvailability f;
                 Ml.trendScore := Ml.calculateTrendBasedAvailability f;
                 Ml.ensembleScore := e |}
    /\ Ml.score (Ml.availability r) = Math_round e
    /\ Ml.status (Ml.availability r)
       = (if geb e 80 then "excellent"
          else if geb e 60 then "good"
          else if geb e 40 then "moderate"
          else if geb e 20 then "low"
          else "critical")
    /\ Ml.confidence r = Ml.calculatePredictionConfidence f sd.
Proof.
  unfold Ml.predict_body. intros H.
  apply bind_Ok_inv in H as (f & Hf & H). cbv beta zeta in H.
  apply bind_Ok_inv in H as (sd & Hsd & H).
  apply deref_Ok_inv in Hsd. apply mret_Ok_inv in H. subst r.
  exists f, sd. eexists. split; [exact Hf|]. split; [exact Hsd|].
  split; [reflexivity|].
  cbv beta iota delta
    [Ml.modelDetails Ml.availability Ml.score Ml.status Ml.confidence].
  repeat split.
Qed.









Lemma boundary_input_scores :
  exists f,
    Ml.extractFeatures Examples.boundary_input = Ok f
    /\ Ml.calculateLinearAvailability f == 4
    /\ Ml.calculateWeightedAvailability f == 30625 # 1000
    /\ Ml.calculateTrendBasedAvailability f == 30
    /\ Ml.calculateLinearAvailability f * (4 # 10)
       + Ml.calculateWeightedAvailability f * (4 # 10)
       + Ml.calculateTrendBasedAvailability f * (2 # 10) == 1985 # 100.
Proof. eexists. split; [reflexivity|]. vm_compute. tauto. Qed.

(** Two requests with the same reported score 20 and different statuses:
    the status is not determined by the reported score at all. *)
Lemma same_score_different_status :
  exists r1 r2,
    Ml.predict_body Examples.boundary_input = Ok r1
    /\ Ml.predict_body Examples.above_boundary_input = Ok r2
    /\ Ml.score (Ml.availability r1) = 20%Z
    /\ Ml.score (Ml.availability r2) = 20%Z
    /\ Ml.status (Ml.availability r1) = "critical"
    /\ Ml.status (Ml.availability r2) = "low".
Proof. do 2 eexists. vm_compute. repeat split. Qed.


(** ** Confidence *)

Lemma gtb_inject_Z (z k : Z) : gtb (inject_Z z) (inject_Z k) = true <-> (k < z)%Z.
Proof. rewrite gtb_true, <- Zlt_Qlt. reflexivity. Qed.

(** Only the two strongest significance labels are encoded above 2. *)
Lemma significance_above_2 (sig : option string) :
  (2 < getSignificanceValue sig)%Z <->
  sig = Some "very_significant" \/ sig = Some "highly_significant".
Proof.
  split.
  - unfold getSignificanceValue, lookup_or, sigMap.
    destruct sig as [s|]; [|vm_compute; discriminate].
    cbn [to_key list_to_map foldr uncurry fst snd].
    rewrite !lookup_insert, lookup_empty.
    repeat case_decide; subst; cbn; try lia; auto.
  - intros [->| ->]; vm_compute; reflexivity.
Qed.

(** C4 (as the predictor computes it).  The confidence is 50 plus 20 for a
    latest reading, 10 for annual rainfall above 0, 10 for a river nearer
    than 20 km, 10 for a trend significance encoded above 2, 10 for a
    station nearer than 10 km and 10 for a reading confidence above 80,
    capped at 100; a significance is encoded above 2 exactly when it is
    "very_significant" or "highly_significant". *)
Theorem confidence_formula (f : Ml.Features) (sd : Input.StationData) :
  Ml.calculatePredictionConfidence f sd
  = Spec.confidence_sum
      (bool_decide (is_Some (Input.latestReading sd)))
      (gtb (Ml.annual_rainfall f) 0)
      (ltb (Ml.nearest_river_distance f) 20)
      (gtb (Ml.trend_significance f) 2)
      (ltb (Input.distance sd) 10)
      (opt_gtb (Ml.reading_confidence sd) 80)
  /\ (forall sig,
        Ml.trend_significance f = inject_Z (getSignificanceValue sig) ->
        (gtb (Ml.trend_significance f) 2 = true <->
         sig = Some "very_significant" \/ sig = Some "highly_significant"))
  /\ (50 <= Ml.calculatePredictionConfidence f sd <= 100)%Z.
Proof.
  split; [|split].
  - unfold Ml.calculatePredictionConfidence, Spec.confidence_sum, Spec.bonus.
    destruct (Input.latestReading sd) as [r|]; cbn [bool_decide];
      [rewrite bool_decide_eq_true_2 by eauto
      |rewrite bool_decide_eq_false_2 by (intros [? ?]; discriminate)];
      destruct (gtb (Ml.annual_rainfall f) 0),
        (ltb (Ml.nearest_river_distance f) 20),
        (gtb (Ml.trend_significance f) 2), (ltb (Input.distance sd) 10),
        (opt_gtb (Ml.reading_confidence sd) 80); reflexivity.
  - intros sig ->. change 2 with (inject_Z 2).
    rewrite gtb_inject_Z. apply significance_above_2.
  - unfold Ml.calculatePredictionConfidence.
    destruct (Input.latestReading sd), (gtb (Ml.annual_rainfall f) 0),
      (ltb (Ml.nearest_river_distance f) 20),
      (gtb (Ml.trend_significance f) 2), (ltb (Input.distance sd) 10),
      (opt_gtb (Ml.reading_confidence sd) 80); lia.
Qed.

Lemma confidence_formula_witness :
  gtb (Ml.trend_significance Examples.significant_only_features) 2 = true <->
  Some "significant" = Some "very_significant"
  \/ Some "significant" = Some "highly_significant".
Proof.
  destruct (confidence_formula Examples.significant_only_features
              Examples.far_station_no_reading) as (_ & H & _).
  apply (H (Some "significant")). reflexivity.
Defined.

(** C4 (as stated) fails: a trend that is exactly "significant" is encoded
    2, which is not above 2, so it earns no bonus; with no other signal the
    confidence is 50, not 60. *)
Lemma confidence_skips_significant :
  ~ (forall f sd,
       Ml.calculatePredictionConfidence f sd
       = Spec.confidence_sum
           (bool_decide (is_Some (Input.latestReading sd)))
           (gtb (Ml.annual_rainfall f) 0)
           (ltb (Ml.nearest_river_distance f) 20)
           (geb (Ml.trend_significance f)
                (inject_Z (getSignificanceValue (Some "significant"))))
           (ltb (Input.distance sd) 10)
           (opt_gtb (Ml.reading_confidence sd) 80)).
Proof.
  intros H.
  specialize (H Examples.significant_only_features
                Examples.far_station_no_reading).
  vm_compute in H. discriminate.
Qed.

(** ** Score ranges *)

Lemma clamp_range (x : Q) :
  0 <= Math_max 0 (Math_min 100 x) /\ Math_max 0 (Math_min 100 x) <= 100.
Proof.
  unfold Math_max, Math_min.
  destruct (Q.max_spec 0 (Qmin 100 x)) as [[? ->]|[? ->]],
    (Q.min_spec 100 x) as [[? Hm]|[? Hm]]; rewrite ?Hm in *; lra.
Qed.

Lemma linear_range (f : Ml.Features) :
  0 <= Ml.calculateLinearAvailability f <= 100.
Proof. apply clamp_range. Qed.

Lemma trend_range (f : Ml.Features) :
  0 <= Ml.calculateTrendBasedAvailability f <= 100.
Proof. apply clamp_range. Qed.

(** The four weights of the composite model add up to one. *)
Lemma weighted_expansion (f : Ml.Features) :
  Ml.calculateWeightedAvailability f
  == Math_max 0 (100 - Ml.current_water_level f * 3) * (4 # 10)
     + Math_min 100 (Ml.annual_rainfall f * (1 # 10)
                     + Ml.monsoon_rainfall f * (1 # 8)) * (25 # 100)
     + Math_max 0 (100 - Ml.nearest_river_distance f * 2) * (2 # 10)
     + Ml.soil_permeability f * 25 * (15 # 100).
Proof.
  unfold Ml.calculateWeightedAvailability. cbn [fold_left app fst snd].
  set (t := 0 + (4 # 10) + (25 # 100) + (2 # 10) + (15 # 100)).
  assert (Ht : t == 1) by reflexivity.
  rewrite Ht. unfold Qdiv. change (/ 10) with (1 # 10).
  change (/ 8) with (1 # 8). change (/ 1) with 1. ring.
Qed.

Lemma weighted_range (f : Ml.Features) :
  0 <= Ml.current_water_level f ->
  0 <= Ml.annual_rainfall f -> 0 <= Ml.monsoon_rainfall f ->
  0 <= Ml.nearest_river_distance f ->
  1 <= Ml.soil_permeability f <= 3 ->
  0 <= Ml.calculateWeightedAvailability f <= 100.
Proof.
  intros Hl Ha Hm Hr Hp. rewrite weighted_expansion.
  unfold Math_max, Math_min.
  destruct (Q.max_spec 0 (100 - Ml.current_water_level f * 3))
    as [[? ->]|[? ->]],
    (Q.max_spec 0 (100 - Ml.nearest_river_distance f * 2))
    as [[? ->]|[? ->]],
    (Q.min_spec 100 (Ml.annual_rainfall f * (1 # 10)
                     + Ml.monsoon_rainfall f * (1 # 8)))
    as [[? ->]|[? ->]]; lra.
Qed.

(** C8.  Inside the documented input ranges each of the three sub-model
    scores lies in [0,100], and so does the ensemble score
    0.4·linear + 0.4·weighted + 0.2·trend. *)
Theorem scores_within_0_100 (f : Ml.Features) :
  0 <= Ml.current_water_level f ->
  0 <= Ml.annual_rainfall f ->
  0 <= Ml.monsoon_rainfall f ->
  0 <= Ml.nearest_river_distance f ->
  1 <= Ml.soil_permeability f <= 3 ->
  0 <= Ml.trend_significance f <= 4 ->
  let linearScore := Ml.calculateLinearAvailability f in
  let weightedScore := Ml.calculateWeightedAvailability f in
  let trendScore := Ml.calculateTrendBasedAvailability f in
  let ensembleScore :=
    linearScore * (4 # 10) + weightedScore * (4 # 10) + trendScore * (2 # 10) in
  (0 <= linearScore <= 100) /\ (0 <= weightedScore <= 100)
  /\ (0 <= trendScore <= 100) /\ (0 <= ensembleScore <= 100).
Proof.
  intros Hl Ha Hm Hr Hp Hs. cbv zeta.
  pose proof (linear_range f) as HL.
  pose proof (weighted_range f Hl Ha Hm Hr Hp) as HW.
  pose proof (trend_range f) as HT.
  repeat split; lra.
Qed.

Lemma scores_within_0_100_witness :
  let f := Examples.typical_features in
  let ensembleScore :=
    Ml.calculateLinearAvailability f * (4 # 10)
    + Ml.calculateWeightedAvailability f * (4 # 10)
    + Ml.calculateTrendBasedAvailability f * (2 # 10) in
  (0 <= Ml.calculateLinearAvailability f <= 100)
  /\ (0 <= Ml.calculateWeightedAvailability f <= 100)
  /\ (0 <= Ml.calculateTrendBasedAvailability f <= 100)
  /\ (0 <= ensembleScore <= 100).
Proof.
  apply (scores_within_0_100 Examples.typical_features);
    vm_compute; try split; discriminate.
Defined.

(** ** Sustainability *)

Lemma years_unknown_level (trend : option Input.TrendAnalysis) (e r : Q) :
  Analysis.yearsRemaining (Analysis.calculateSustainability None trend e r) = 0%Z
  /\ Analysis.balance (Analysis.calculateSustainability None trend e r)
     = "unknown".
Proof. split; reflexivity. Qed.

Lemma years_when_recharged (level : Q) trend (e r : Q) :
  ~ level == 0 -> e <= r ->
  Analysis.yearsRemaining (Analysis.calculateSustainability (Some level) trend e r)
  = 999%Z.
Proof.
  intros Hl Her. unfold Analysis.calculateSustainability.
  apply truthy_true in Hl. rewrite Hl.
  assert (Hn : gtb (e - r) 0 = false) by (apply gtb_false; lra).
  rewrite Hn. reflexivity.
Qed.

(** The projection before rounding, for a net extraction above zero. *)
Lemma years_when_depleting (level : Q) trend (e r : Q) :
  ~ level == 0 -> r < e ->
  Analysis.yearsRemaining (Analysis.calculateSustainability (Some level) trend e r)
  = Math_round (Math_max 0 (level * 1000 / ((e - r) * 365))).
Proof.
  intros Hl Her. unfold Analysis.calculateSustainability.
  apply truthy_true in Hl. rewrite Hl.
  assert (Hn : gtb (e - r) 0 = true) by (apply gtb_true; lra).
  rewrite Hn. reflexivity.
Qed.

Lemma Qdiv_antitone (a b c : Q) : 0 <= a -> 0 < b -> b <= c -> a / c <= a / b.
Proof.
  intros Ha Hb Hbc.
  assert (Hc : 0 < c) by lra.
  apply Qle_shift_div_l; [assumption|].
  assert (E : a / c * b == a * b / c) by (field; lra).
  rewrite E. apply Qle_shift_div_r; [assumption|]. nra.
Qed.

Lemma max0_div_antitone (a b c : Q) :
  0 < b -> b <= c -> Math_max 0 (a / c) <= Math_max 0 (a / b).
Proof.
  intros Hb Hbc. unfold Math_max.
  destruct (Qlt_le_dec a 0) as [Ha|Ha].
  - assert (a / c <= 0) by (apply Qle_shift_div_r; lra).
    assert (a / b <= 0) by (apply Qle_shift_div_r; lra).
    rewrite !Q.max_l by assumption. lra.
  - apply Q.max_le_compat_l. apply Qdiv_antitone; assumption.
Qed.

(** C6 (as the calculator computes it).  Years remaining is 0 with balance
    "unknown" when the level is absent; it is 999 when the level is present
    and non-zero and recharge is at least extraction; with extraction above
    recharge the reported value is the rounded projection, which never
    increases as extraction increases. *)
Theorem sustainability_years (level : Q) (trend : option Input.TrendAnalysis)
    (r e1 e2 : Q) :
  ~ level == 0 ->
  let years e :=
    Analysis.yearsRemaining
      (Analysis.calculateSustainability (Some level) trend e r) in
  let projection e := Math_max 0 (level * 1000 / ((e - r) * 365)) in
  (Analysis.yearsRemaining (Analysis.calculateSustainability None trend e1 r)
   = 0%Z
   /\ Analysis.balance (Analysis.calculateSustainability None trend e1 r)
      = "unknown")
  /\ (e1 <= r -> years e1 = 999%Z)
  /\ (r < e1 -> years e1 = Math_round (projection e1))
  /\ (r < e1 -> e1 <= e2 -> (years e2 <= years e1)%Z).
Proof.
  intros Hl years projection. subst years projection. cbv beta.
  split; [apply years_unknown_level|].
  split; [apply years_when_recharged; assumption|].
  split; [apply years_when_depleting; assumption|].
  intros H1 H12.
  rewrite !years_when_depleting by (assumption || lra).
  apply Math_round_mono. apply max0_div_antitone; lra.
Qed.

Lemma sustainability_years_witness :
  Z.le
    (Analysis.yearsRemaining
       (Analysis.calculateSustainability (Some 10) None 2100 100))
    (Analysis.yearsRemaining
       (Analysis.calculateSustainability (Some 10) None 1100 100)).
Proof.
  assert (Hl : ~ 10 == 0) by discriminate.
  destruct (sustainability_years 10 None 100 1100 2100 Hl)
    as (_ & _ & _ & H).
  apply H; [reflexivity | discriminate].
Defined.

(** C6 (as stated) fails: at level 10 and recharge 100 the extraction rates
    1100 and 2100 both report 0 years, so the reported value does not
    strictly decrease. *)
Lemma years_not_strictly_decreasing :
  ~ (forall level trend r e1 e2,
       r < e1 -> e1 < e2 ->
       Z.lt
         (Analysis.yearsRemaining
            (Analysis.calculateSustainability (Some level) trend e2 r))
         (Analysis.yearsRemaining
            (Analysis.calculateSustainability (Some level) trend e1 r))).
Proof.
  intros H.
  specialize (H 10 None 100 1100 2100 eq_refl eq_refl).
  vm_compute in H. discriminate.
Qed.

(** ** Usage suitability *)

Lemma or_default_truthy (l d : Q) : ~ l == 0 -> or_default (Some l) d = l.
Proof. intros H. unfold or_default. apply truthy_true in H. now rewrite H. Qed.

Lemma min100_mono (x y : Q) : x <= y -> Math_min 100 x <= Math_min 100 y.
Proof. apply Q.min_le_compat_l. Qed.

(** Over levels that are not 0 the three scores never increase with the
    level. *)
Lemma usage_scores_antitone_nonzero (l1 l2 : Q)
    (quality : option Analysis.Quality) (s : option Analysis.Sustainability) :
  ~ l1 == 0 -> ~ l2 == 0 -> l1 <= l2 ->
  let u1 := Analysis.calculateUsageSuitability (Some l1) quality s in
  let u2 := Analysis.calculateUsageSuitability (Some l2) quality s in
  Analysis.score (Analysis.agriculture u2) <= Analysis.score (Analysis.agriculture u1)
  /\ Analysis.score (Analysis.domestic u2) <= Analysis.score (Analysis.domestic u1)
  /\ Analysis.score (Analysis.industrial u2) <= Analysis.score (Analysis.industrial u1).
Proof.
  intros H1 H2 Hle. cbv zeta. unfold Analysis.calculateUsageSuitability.
  cbn [Analysis.score Analysis.agriculture Analysis.domestic Analysis.industrial].
  rewrite !or_default_truthy by assumption.
  assert (Hb : Math_max 0 (100 - l2 * 2) <= Math_max 0 (100 - l1 * 2))
    by (apply Q.max_le_compat_l; lra).
  repeat split; apply min100_mono; lra.
Qed.

(** C7.  The scores are not monotone at level 0: the level 0 is replaced
    by the default 20 (base score 60), so every score at level 0 is below
    the score at the deeper level 5 (base score 90). *)
Theorem usage_scores_rise_from_level_0 :
  let u0 := Analysis.calculateUsageSuitability (Some 0) None None in
  let u5 := Analysis.calculateUsageSuitability (Some 5) None None in
  0 <= 5
  /\ Analysis.score (Analysis.agriculture u0) == 60
  /\ Analysis.score (Analysis.agriculture u5) == 90
  /\ Analysis.score (Analysis.agriculture u0) < Analysis.score (Analysis.agriculture u5)
  /\ Analysis.score (Analysis.domestic u0) < Analysis.score (Analysis.domestic u5)
  /\ Analysis.score (Analysis.industrial u0) < Analysis.score (Analysis.industrial u5).
Proof. vm_compute. repeat split; discriminate. Qed.

(** C10.  A water level of exactly 0 is falsy and is replaced by the
    default 20: for every quality input the result at level 0 is the result
    at level 20 (and the result for an absent level).  Its scores are the
    base score 60 plus the quality bonus (agriculture 60 or 80, domestic 60
    or 75, industrial 60 or 70), its statuses are those of base score 60
    and no advice is given; no score reaches the 100 that base score 100,
    i.e. max(0, 100 − 2·level) at level 0, gives for every quality. *)
Theorem usage_level_0_is_level_20 (quality : option Analysis.Quality)
    (s : option Analysis.Sustainability) :
  let u := Analysis.calculateUsageSuitability (Some 0) quality s in
  let ph_ok :=
    opt_gtb (Analysis.quality_ph quality) (65 # 10)
    && opt_ltb (Analysis.quality_ph quality) (85 # 10) in
  u = Analysis.calculateUsageSuitability (Some 20) quality s
  /\ u = Analysis.calculateUsageSuitability None quality s
  /\ Analysis.score (Analysis.agriculture u)
     == 60 + (if ph_ok then 20 else 0)
  /\ Analysis.score (Analysis.domestic u)
     == 60 + (if opt_ltb (Analysis.quality_tds quality) 500 then 15 else 0)
  /\ Analysis.score (Analysis.industrial u)
     == 60 + (if opt_ltb (Analysis.quality_tds quality) 1000 then 10 else 0)
  /\ Analysis.status (Analysis.agriculture u) = "moderate"
  /\ Analysis.status (Analysis.domestic u) = "moderate"
  /\ Analysis.status (Analysis.industrial u) = "suitable"
  /\ Analysis.recommendations (Analysis.agriculture u) = []
  /\ Analysis.recommendations (Analysis.domestic u) = []
  /\ Analysis.recommendations (Analysis.industrial u) = []
  /\ Analysis.score (Analysis.agriculture u) < 100
  /\ Analysis.score (Analysis.domestic u) < 100
  /\ Analysis.score (Analysis.industrial u) < 100
  /\ Math_min 100
       (Math_max 0 (100 - 0 * 2) + (if ph_ok then 20 else 0)) == 100.
Proof.
  cbv zeta. unfold Analysis.calculateUsageSuitability.
  cbn [Analysis.score Analysis.status Analysis.recommendations
       Analysis.agriculture Analysis.domestic Analysis.industrial].
  change (or_default (Some 0) 20) with 20.
  change (or_default None 20) with 20.
  change (Math_max 0 (100 - 20 * 2)) with 60.
  change (Math_max 0 (100 - 0 * 2)) with 100.
  split; [reflexivity|]. split; [reflexivity|].
  destruct (opt_gtb (Analysis.quality_ph quality) (65 # 10)
            && opt_ltb (Analysis.quality_ph quality) (85 # 10)),
    (opt_ltb (Analysis.quality_tds quality) 500),
    (opt_ltb (Analysis.quality_tds quality) 1000);
    repeat split; reflexivity.
Qed.

(** ** Recommendations *)

Lemma str_eqb_true (s : option string) (lit : string) :
  Analysis.str_eqb s lit = true <-> s = Some lit.
Proof.
  destruct s as [x|]; simpl; [|split; discriminate].
  rewrite String.eqb_eq. split; [intros ->; reflexivity|intros [= ->]; reflexivity].
Qed.

(** The generator raises only when the rainfall record is missing. *)
Lemma generateRecommendations_returns (av : Ml.Availability)
    (su : Analysis.Sustainability) (env : Input.EnvironmentalData)
    (ta : Input.TrendAnalysis) :
  is_Some (Input.rainfall env) ->
  exists recs, Analysis.generateRecommendations av su env ta = Ok recs.
Proof.
  intros [rf Hrf]. unfold Analysis.generateRecommendations, Analysis.annual_above.
  rewrite Hrf. cbn [deref mbind result_bind mret result_ret].
  destruct (String.eqb _ _), (70 <? Ml.score av)%Z; eauto.
Qed.

Lemma monitoring_membership (av : Ml.Availability)
    (su : Analysis.Sustainability) (env : Input.EnvironmentalData)
    (ta : Input.TrendAnalysis) (recs : list Analysis.Recommendation) :
  Analysis.generateRecommendations av su env ta = Ok recs ->
  (Analysis.monitoring_medium ∈ recs <->
   Input.direction ta = Some "falling"
   /\ Input.significance ta = Some "significant").
Proof.
  unfold Analysis.generateRecommendations. intros H.
  apply bind_Ok_inv in H as (wet & _ & H).
  apply bind_Ok_inv in H as (rainy & _ & H).
  apply mret_Ok_inv in H. subst recs.
  rewrite <- !str_eqb_true, <- andb_true_iff.
  destruct (_ && _);
    destruct (Ml.score av <? 30)%Z, (Ml.score av <? 50)%Z, wet, rainy;
    cbn [app]; split; try discriminate; try (intros _; set_solver);
    intros Hin; exfalso;
    repeat (apply elem_of_cons in Hin as [Hin|Hin]; [discriminate|]);
    now apply elem_of_nil in Hin.
Qed.

(** C5 (as the generator computes it).  The generator returns a list
    whenever rainfall data is present, and a list it returns contains the
    medium-priority enhanced-monitoring recommendation exactly when the
    trend direction is "falling" and the significance is exactly
    "significant". *)
Theorem monitoring_iff_falling_and_significant (av : Ml.Availability)
    (su : Analysis.Sustainability) (env : Input.EnvironmentalData)
    (ta : Input.TrendAnalysis) :
  (is_Some (Input.rainfall env) ->
   exists recs, Analysis.generateRecommendations av su env ta = Ok recs)
  /\ (forall recs,
        Analysis.generateRecommendations av su env ta = Ok recs ->
        (Analysis.monitoring_medium ∈ recs <->
         Input.direction ta = Some "falling"
         /\ Input.significance ta = Some "significant")).
Proof.
  split.
  - apply generateRecommendations_returns.
  - intros recs. apply monitoring_membership.
Qed.

Lemma monitoring_iff_falling_and_significant_witness :
  Analysis.monitoring_medium
    ∈ [Analysis.conservation_critical; Analysis.monitoring_medium].
Proof.
  destruct (monitoring_iff_falling_and_significant
              {| Ml.score := 20; Ml.status := "critical" |}
              {| Analysis.yearsRemaining := 0;
                 Analysis.extractionRate := 5000;
                 Analysis.rechargeRate := 90;
                 Analysis.balance := "deficit" |}
              (Examples.env 300 200 "low")
              (Examples.trend_of "falling" "significant")) as [_ H].
  apply (H [Analysis.conservation_critical; Analysis.monitoring_medium]).
  - reflexivity.
  - split; reflexivity.
Defined.

(** C5 (as stated) fails: a falling trend that is "very_significant" gets
    no monitoring recommendation. *)
Lemma no_monitoring_for_very_significant :
  ~ (forall av su env ta recs,
       Input.direction ta = Some "falling" ->
       Spec.significant_or_stronger (Input.significance ta) ->
       Analysis.generateRecommendations av su env ta = Ok recs ->
       Analysis.monitoring_medium ∈ recs).
Proof.
  intros H.
  specialize (H {| Ml.score := 20; Ml.status := "critical" |}
                {| Analysis.yearsRemaining := 0;
                   Analysis.extractionRate := 5000;
                   Analysis.rechargeRate := 90;
                   Analysis.balance := "deficit" |}
                (Examples.env 300 200 "low")
                (Examples.trend_of "falling" "very_significant")
                [Analysis.conservation_critical]
                eq_refl (or_intror (or_introl eq_refl)) eq_refl).
  apply list_elem_of_singleton in H. discriminate.
Qed.

(** ** Seasonality: peak and low month *)

Section Seasonality.

Variable getMonth : Z -> nat.

Lemma push_month_keys_Forall (P : nat -> Prop) (m : nat) (x : Stats.num)
    (md : list (nat * list Stats.num)) :
  P m -> Forall P (map fst md) ->
  Forall P (map fst (Stats.push_month m x md)).
Proof.
  intros Hm. induction md as [|[k xs] rest IH]; simpl; intros H.
  - repeat constructor. exact Hm.
  - inversion H as [|? ? Hk Hrest]; subst.
    destruct (m <? k)%nat; [|destruct (m =? k)%nat]; simpl.
    + constructor; [exact Hm|]. constructor; assumption.
    + constructor; assumption.
    + constructor; [assumption|]. apply IH. assumption.
Qed.

Lemma push_month_ok (m : nat) (q : Q) (md : list (nat * list Stats.num)) :
  Spec.grouped_ok md -> Spec.grouped_ok (Stats.push_month m (Some q) md).
Proof.
  unfold Spec.grouped_ok.
  induction md as [|[k xs] rest IH]; simpl; intros [Hs Hg].
  - split; repeat constructor; [discriminate|eauto].
  - inversion Hs as [|? ? Hs' Hlt]; subst.
    inversion Hg as [|? ? [Hne Hsome] Hg']; subst. simpl in *.
    destruct (m <? k)%nat eqn:Elt; [|destruct (m =? k)%nat eqn:Eeq]; simpl.
    + apply Nat.ltb_lt in Elt. split.
      * constructor; [constructor; assumption|].
        constructor; [assumption|].
        eapply Forall_impl; [exact Hlt|]. intros; simpl in *; lia.
      * constructor; [split; [discriminate|repeat constructor; eauto]|].
        constructor; [split|]; assumption.
    + split; [constructor; assumption|].
      constructor; [|assumption]. simpl. split.
      * intros H. apply app_eq_nil in H as [_ H]. discriminate.
      * apply Forall_app. split; [assumption|repeat constructor; eauto].
    + apply Nat.ltb_ge in Elt. apply Nat.eqb_neq in Eeq.
      destruct (IH (conj Hs' Hg')) as [IHs IHg]. split.
      * constructor; [assumption|].
        apply push_month_keys_Forall; [lia|assumption].
      * constructor; [split|]; assumption.
Qed.

Lemma push_month_nonempty (m : nat) (x : Stats.num)
    (md : list (nat * list Stats.num)) : Stats.push_month m x md <> [].
Proof.
  destruct md as [|[k xs] rest]; simpl; [discriminate|].
  destruct (m <? k)%nat; [|destruct (m =? k)%nat]; discriminate.
Qed.

Lemma group_from_ok (data : list Q) (timestamps : list Z) :
  forall index md,
    (index + length timestamps <= length data)%nat ->
    Spec.grouped_ok md ->
    Spec.grouped_ok (Stats.group_from getMonth data index timestamps md).
Proof.
  induction timestamps as [|t rest IH]; simpl; intros index md Hlen Hok.
  - exact Hok.
  - destruct (data !! index) as [q|] eqn:Eq.
    + apply IH; [lia|]. apply push_month_ok. exact Hok.
    + apply lookup_ge_None in Eq. lia.
Qed.

Lemma group_from_nonempty (data : list Q) (timestamps : list Z) :
  forall index md,
    (timestamps <> [] \/ md <> []) ->
    Stats.group_from getMonth data index timestamps md <> [].
Proof.
  induction timestamps as [|t rest IH]; simpl; intros index md H.
  - destruct H as [H|H]; [congruence|exact H].
  - apply IH. right. apply push_month_nonempty.
Qed.

Lemma sum_Some (xs : list Stats.num) :
  Forall is_Some xs -> forall acc, exists s,
    fold_left (fun acc x => a ← acc; v ← x; Some (a + v)) xs (Some acc)
    = Some s.
Proof.
  induction 1 as [|x xs [v ->] _ IH]; simpl; intros acc; eauto.
Qed.

Lemma mean_Some (xs : list Stats.num) :
  xs <> [] -> Forall is_Some xs -> exists m, Stats.mean xs = Ok (Some m).
Proof.
  intros Hne Hall. unfold Stats.mean, Stats.sum.
  destruct xs as [|x xs]; [congruence|].
  destruct (sum_Some _ Hall 0) as [s ->]. simpl. eauto.
Qed.

Lemma mean_nonempty (xs : list Stats.num) :
  xs <> [] -> exists m, Stats.mean xs = Ok m.
Proof. destruct xs; [congruence|]. simpl. eauto. Qed.

Lemma monthly_means_ok (md : list (nat * list Stats.num)) :
  Spec.grouped_ok md ->
  exists mm,
    Stats.monthly_means md = Ok mm
    /\ map fst mm = map fst md
    /\ Forall (fun e => is_Some (snd e)) mm.
Proof.
  intros [_ Hg]. induction Hg as [|[k xs] rest [Hne Hsome] _ IH]; simpl.
  - exists []. repeat split. constructor.
  - destruct (mean_Some xs Hne Hsome) as [m ->].
    destruct IH as (mm & -> & Hkeys & Hall). simpl.
    exists ((k, Some m) :: mm). simpl. rewrite Hkeys.
    repeat split. constructor; [simpl; eauto|assumption].
Qed.

Lemma means_get_Some (mm : list (nat * Stats.num)) (k : nat) :
  Forall (fun e => is_Some (snd e)) mm -> k ∈ map fst mm ->
  is_Some (Stats.means_get mm k).
Proof.
  induction 1 as [|[k' m] rest Hm _ IH]; simpl; intros Hin.
  - now apply elem_of_nil in Hin.
  - destruct (k =? k')%nat eqn:E; [exact Hm|].
    apply Nat.eqb_neq in E. apply elem_of_cons in Hin as [?|?]; [congruence|].
    now apply IH.
Qed.

(** The reduction keeps the last of the keys whose value is greatest. *)
Lemma reduce_keeps_last_greatest (val : nat -> Q) (pick : nat -> nat -> bool) :
  forall rest a,
    StronglySorted lt (a :: rest) ->
    (forall x y, x ∈ a :: rest -> y ∈ a :: rest ->
                 (pick x y = true <-> val y < val x)) ->
    let p := fold_left (fun a b => if pick a b then a else b) rest a in
    p ∈ a :: rest
    /\ forall k, k ∈ a :: rest ->
         val k <= val p /\ (val k == val p -> (k <= p)%nat).
Proof.
  induction rest as [|b rest IH]; intros a Hs Hpick; simpl.
  - split; [left|]. intros k Hk. apply list_elem_of_singleton in Hk as ->.
    split; [lra|lia].
  - inversion Hs as [|? ? Hs' Hlt]; subst.
    inversion Hs' as [|? ? Hs'' Hlt']; subst.
    inversion Hlt as [|? ? Hab Hlt'']; subst.
    assert (Hsa : StronglySorted lt (a :: rest)) by (constructor; assumption).
    destruct (pick a b) eqn:E.
    + apply Hpick in E; [|left|right; left].
      destruct (IH a Hsa) as [Hin Hmax].
      { intros x y Hx Hy. apply Hpick.
        - apply elem_of_cons in Hx as [->|Hx]; [left|right; right; exact Hx].
        - apply elem_of_cons in Hy as [->|Hy]; [left|right; right; exact Hy]. }
      split.
      * apply elem_of_cons in Hin as [->|Hin]; [left|right; right; exact Hin].
      * intros k Hk. apply elem_of_cons in Hk as [->|Hk].
        { apply Hmax. left. }
        apply elem_of_cons in Hk as [->|Hk].
        { pose proof (Hmax a (list_elem_of_here _ _)) as [Ha _].
          split; [lra|intros Heq; exfalso; lra]. }
        apply Hmax. right. exact Hk.
    + assert (Hle : val a <= val b).
      { destruct (Qlt_le_dec (val b) (val a)) as [H|H]; [|exact H].
        apply Hpick in H; [congruence|left|right; left]. }
      destruct (IH b Hs') as [Hin Hmax].
      { intros x y Hx Hy. apply Hpick; right; assumption. }
      split; [right; exact Hin|].
      intros k Hk. apply elem_of_cons in Hk as [->|Hk]; [|now apply Hmax].
      pose proof (Hmax b (list_elem_of_here _ _)) as [Hb _].
      split; [lra|]. intros _.
      assert (Forall (lt a) (b :: rest)) as Hall by (constructor; assumption).
      rewrite Forall_forall in Hall. specialize (Hall _ Hin). lia.
Qed.

Lemma push_month_keys (m : nat) (x : Stats.num)
    (md : list (nat * list Stats.num)) (k : nat) :
  k ∈ map fst (Stats.push_month m x md) <-> k = m \/ k ∈ map fst md.
Proof.
  induction md as [|[k' xs] rest IH]; simpl.
  - rewrite list_elem_of_singleton. split; [auto|intros [H|H]; [exact H|]].
    now apply elem_of_nil in H.
  - destruct (m <? k')%nat; [|destruct (m =? k')%nat eqn:E]; simpl.
    + rewrite !elem_of_cons. tauto.
    + apply Nat.eqb_eq in E. subst. rewrite !elem_of_cons. tauto.
    + rewrite !elem_of_cons, IH. tauto.
Qed.

Lemma group_from_keys (data : list Q) (timestamps : list Z) (k : nat) :
  forall index md,
    k ∈ map fst (Stats.group_from getMonth data index timestamps md)
    <-> k ∈ map getMonth timestamps \/ k ∈ map fst md.
Proof.
  induction timestamps as [|t rest IH]; simpl; intros index md.
  - split; [auto|intros [H|H]; [now apply elem_of_nil in H|exact H]].
  - rewrite IH, push_month_keys, elem_of_cons. tauto.
Qed.

Lemma group_get_absent (md : list (nat * list Stats.num)) (m : nat) :
  Forall (lt m) (map fst md) -> Spec.group_get md m = [].
Proof.
  induction md as [|[k xs] rest IH]; simpl; intros H; [reflexivity|].
  inversion H as [|? ? Hk Hrest]; subst.
  destruct (m =? k)%nat eqn:E; [apply Nat.eqb_eq in E; lia|]. now apply IH.
Qed.

Lemma group_get_push (m : nat) (x : Stats.num)
    (md : list (nat * list Stats.num)) (k : nat) :
  StronglySorted lt (map fst md) ->
  Spec.group_get (Stats.push_month m x md) k
  = Spec.group_get md k ++ (if (m =? k)%nat then [x] else []).
Proof.
  induction md as [|[k' xs] rest IH]; simpl; intros Hs.
  - rewrite (Nat.eqb_sym k m). now destruct (m =? k)%nat.
  - inversion Hs as [|? ? Hs' Hlt]; subst.
    destruct (m <? k')%nat eqn:Elt; [|destruct (m =? k')%nat eqn:Eeq]; simpl.
    + apply Nat.ltb_lt in Elt. rewrite (Nat.eqb_sym k m).
      destruct (m =? k)%nat eqn:E.
      * apply Nat.eqb_eq in E. subst k.
        destruct (m =? k')%nat eqn:E'; [apply Nat.eqb_eq in E'; lia|].
        rewrite group_get_absent; [reflexivity|].
        eapply Forall_impl; [exact Hlt|]. intros; simpl in *; lia.
      * now rewrite app_nil_r.
    + apply Nat.eqb_eq in Eeq. subst k'. rewrite (Nat.eqb_sym m k).
      destruct (k =? m)%nat; [reflexivity|now rewrite app_nil_r].
    + apply Nat.ltb_ge in Elt. apply Nat.eqb_neq in Eeq.
      destruct (k =? k')%nat eqn:E.
      * apply Nat.eqb_eq in E. subst k'.
        destruct (m =? k)%nat eqn:E'; [apply Nat.eqb_eq in E'; lia|].
        now rewrite app_nil_r.
      * now apply IH.
Qed.

Lemma push_month_sorted (m : nat) (x : Stats.num)
    (md : list (nat * list Stats.num)) :
  StronglySorted lt (map fst md) ->
  StronglySorted lt (map fst (Stats.push_month m x md)).
Proof.
  induction md as [|[k xs] rest IH]; simpl; intros Hs.
  - repeat constructor.
  - inversion Hs as [|? ? Hs' Hlt]; subst.
    destruct (m <? k)%nat eqn:Elt; [|destruct (m =? k)%nat eqn:Eeq]; simpl.
    + apply Nat.ltb_lt in Elt.
      constructor; [constructor; assumption|].
      constructor; [assumption|].
      eapply Forall_impl; [exact Hlt|]. intros; simpl in *; lia.
    + constructor; assumption.
    + apply Nat.ltb_ge in Elt. apply Nat.eqb_neq in Eeq.
      constructor; [now apply IH|].
      apply push_month_keys_Forall; [lia|assumption].
Qed.

(** Grouping collects, for every month, exactly the observations of that
    month in input order. *)
Lemma group_from_get (data : list Q) (timestamps : list Z) (k : nat) :
  forall index md,
    StronglySorted lt (map fst md) ->
    Spec.group_get (Stats.group_from getMonth data index timestamps md) k
    = Spec.group_get md k
      ++ Spec.month_values getMonth data index timestamps k.
Proof.
  induction timestamps as [|t rest IH]; simpl; intros index md Hs.
  - now rewrite app_nil_r.
  - rewrite IH by now apply push_month_sorted.
    rewrite group_get_push by assumption. now rewrite <- app_assoc.
Qed.

Lemma monthly_means_get (md : list (nat * list Stats.num)) :
  forall mm, Stats.monthly_means md = Ok mm ->
  forall k, k ∈ map fst md ->
    Stats.mean (Spec.group_get md k) = Ok (Stats.means_get mm k).
Proof.
  induction md as [|[k' xs] rest IH]; simpl; intros mm H k Hk.
  - now apply elem_of_nil in Hk.
  - apply bind_Ok_inv in H as (m & Hm & H).
    apply bind_Ok_inv in H as (ms & Hms & H).
    apply mret_Ok_inv in H. subst mm. simpl.
    destruct (k =? k')%nat eqn:E; [exact Hm|].
    apply Nat.eqb_neq in E. apply elem_of_cons in Hk as [?|Hk]; [congruence|].
    now apply IH.
Qed.

Lemma detectSeasonality_unfold (data : list Q) (timestamps : list Z) :
  (12 <= length data)%nat -> length timestamps = length data ->
  let md := Stats.group_from getMonth data 0 timestamps [] in
  exists mm k0 rest r,
    Stats.monthly_means md = Ok mm
    /\ map fst mm = map fst md
    /\ map fst mm = k0 :: rest
    /\ StronglySorted lt (map fst mm)
    /\ Forall (fun e => is_Some (snd e)) mm
    /\ Stats.detectSeasonality getMonth data timestamps = Ok (Some r)
    /\ Stats.monthlyMeans r = mm
    /\ Stats.peakMonth r
       = fold_left
           (fun a b => if Stats.num_gtb (Stats.means_get mm a)
                                        (Stats.means_get mm b)
                       then a else b) rest k0
    /\ Stats.lowMonth r
       = fold_left
           (fun a b => if Stats.num_ltb (Stats.means_get mm a)
                                        (Stats.means_get mm b)
                       then a else b) rest k0.
Proof.
  intros H12 Hlen md.
  assert (Hok : Spec.grouped_ok md).
  { apply group_from_ok; [simpl; lia|]. split; constructor. }
  assert (Hne : md <> []).
  { apply group_from_nonempty. left. destruct timestamps; simpl in *; [lia|discriminate]. }
  destruct (monthly_means_ok md Hok) as (mm & Hmm & Hkeys & Hsome).
  destruct (map fst mm) as [|k0 rest] eqn:Ek.
  { destruct md; [congruence|discriminate]. }
  assert (Hmeans : map snd mm <> []).
  { destruct mm; [discriminate|discriminate]. }
  destruct (mean_nonempty _ Hmeans) as [om Hom].
  assert (Hvar : exists ov, Stats.variance (map snd mm) = Ok ov).
  { unfold Stats.variance. rewrite Hom. cbn [mbind result_bind].
    apply mean_nonempty. destruct (map snd mm); [congruence|discriminate]. }
  destruct Hvar as [ov Hov].
  exists mm, k0, rest. eexists.
  split; [exact Hmm|]. split; [congruence|]. split; [exact Ek|].
  split; [rewrite Ek, Hkeys; apply Hok|]. split; [exact Hsome|].
  unfold Stats.detectSeasonality.
  assert (E12 : (length data <? 12)%nat = false) by (apply Nat.ltb_ge; lia).
  rewrite E12. fold md. rewrite Hmm. cbn [mbind result_bind].
  rewrite Hom. cbn [mbind result_bind]. rewrite Hov. cbn [mbind result_bind].
  rewrite Ek. unfold Stats.reduce_keys.
  cbn [mbind result_bind mret result_ret].
  split; [reflexivity|]. cbn [Stats.monthlyMeans Stats.peakMonth Stats.lowMonth].
  repeat split.
Qed.

Lemma num_gtb_value (a b : Stats.num) :
  is_Some a -> is_Some b ->
  (Stats.num_gtb a b = true <-> Spec.num_value b < Spec.num_value a).
Proof. intros [x ->] [y ->]. simpl. apply gtb_true. Qed.

(** C9 (as the detector computes it).  For at least 12 observations with
    one timestamp each, the detector returns a verdict whose monthly means
    are the means of the observations of each month present, listed in
    ascending month order; the peak month has the greatest monthly mean and
    the low month the smallest, and among months that tie on that mean the
    highest month index (the last one in key order) is reported. *)
Theorem peak_and_low_month (data : list Q) (timestamps : list Z) :
  (12 <= length data)%nat -> length timestamps = length data ->
  exists r,
    Stats.detectSeasonality getMonth data timestamps = Ok (Some r)
    /\ let mm := Stats.monthlyMeans r in
       let peak := Stats.peakMonth r in
       let low := Stats.lowMonth r in
       let mean_of k := Spec.num_value (Stats.means_get mm k) in
       StronglySorted lt (map fst mm)
       /\ (forall k, k ∈ map fst mm <-> k ∈ map getMonth timestamps)
       /\ (forall k, k ∈ map fst mm ->
              is_Some (Stats.means_get mm k)
              /\ Stats.mean (Spec.month_values getMonth data 0 timestamps k)
                 = Ok (Stats.means_get mm k))
       /\ peak ∈ map fst mm /\ low ∈ map fst mm
       /\ (forall k, k ∈ map fst mm ->
              mean_of k <= mean_of peak
              /\ (mean_of k == mean_of peak -> (k <= peak)%nat))
       /\ (forall k, k ∈ map fst mm ->
              mean_of low <= mean_of k
              /\ (mean_of k == mean_of low -> (k <= low)%nat)).
Proof.
  intros H12 Hlen.
  destruct (detectSeasonality_unfold data timestamps H12 Hlen)
    as (mm & k0 & rest & r & Hmm & Hkeys & Ek & Hs & Hsome & Hr & Hrm & Hp & Hl).
  exists r. split; [exact Hr|]. cbv zeta. rewrite Hrm, Hp, Hl. clear Hr Hrm Hp Hl.
  split; [exact Hs|].
  split.
  { intros k. rewrite Hkeys, group_from_keys. simpl. split; [|auto].
    intros [H|H]; [exact H|now apply elem_of_nil in H]. }
  split.
  { intros k Hk. split; [now apply means_get_Some|].
    rewrite <- (monthly_means_get _ _ Hmm k) by (now rewrite <- Hkeys).
    rewrite group_from_get by constructor. reflexivity. }
  rewrite Ek in *.
  pose proof (reduce_keeps_last_greatest
                (fun k => Spec.num_value (Stats.means_get mm k))
                (fun a b => Stats.num_gtb (Stats.means_get mm a)
                                          (Stats.means_get mm b))
                rest k0 Hs) as Hpeak.
  pose proof (reduce_keeps_last_greatest
                (fun k => - Spec.num_value (Stats.means_get mm k))
                (fun a b => Stats.num_ltb (Stats.means_get mm a)
                                          (Stats.means_get mm b))
                rest k0 Hs) as Hlow.
  cbv zeta in Hpeak, Hlow.
  destruct Hpeak as [Hpin Hpmax].
  { intros x y Hx Hy. apply num_gtb_value; apply means_get_Some;
      rewrite ?Ek; assumption. }
  destruct Hlow as [Hlin Hlmin].
  { intros x y Hx Hy. unfold Stats.num_ltb.
    rewrite num_gtb_value by (apply means_get_Some; rewrite ?Ek; assumption).
    split; intros; lra. }
  split; [exact Hpin|]. split; [exact Hlin|].
  split; [exact Hpmax|].
  intros k Hk. destruct (Hlmin k Hk) as [H1 H2].
  split; [lra|]. intros Heq. apply H2. lra.
Qed.

End Seasonality.

Lemma peak_and_low_month_witness :
  exists r,
    Stats.detectSeasonality Stats.utcMonth Examples.flat_levels
      Examples.jan_feb_timestamps = Ok (Some r)
    /\ Stats.peakMonth r ∈ map fst (Stats.monthlyMeans r)
    /\ Stats.lowMonth r ∈ map fst (Stats.monthlyMeans r).
Proof.
  destruct (peak_and_low_month Stats.utcMonth Examples.flat_levels
              Examples.jan_feb_timestamps)
    as (r & Hr & _ & _ & _ & Hp & Hl & _).
  - vm_compute. lia.
  - reflexivity.
  - exists r. auto.
Defined.

(** C9 (as stated) fails on ties: six readings of 5 m in January and six
    in February give both months the mean 5, and the reported peak month
    and low month are February (index 1), not January (index 0). *)
Lemma tie_reports_later_month :
  ~ (forall getMonth data timestamps r,
       (12 <= length data)%nat -> length timestamps = length data ->
       Stats.detectSeasonality getMonth data timestamps = Ok (Some r) ->
       forall k, k ∈ map fst (Stats.monthlyMeans r) ->
         (Spec.num_value (Stats.means_get (Stats.monthlyMeans r) k)
          == Spec.num_value
               (Stats.means_get (Stats.monthlyMeans r) (Stats.peakMonth r)) ->
          (Stats.peakMonth r <= k)%nat)
         /\ (Spec.num_value (Stats.means_get (Stats.monthlyMeans r) k)
             == Spec.num_value
                  (Stats.means_get (Stats.monthlyMeans r) (Stats.lowMonth r)) ->
             (Stats.lowMonth r <= k)%nat)).
Proof.
  intros H.
  destruct (Stats.detectSeasonality Stats.utcMonth Examples.flat_levels
              Examples.jan_feb_timestamps) as [[r|]|] eqn:E;
    [|vm_compute in E; discriminate|vm_compute in E; discriminate].
  assert (H12 : (12 <= length Examples.flat_levels)%nat)
    by (vm_compute; lia).
  specialize (H Stats.utcMonth Examples.flat_levels
                Examples.jan_feb_timestamps r H12 eq_refl E 0%nat).
  vm_compute in E. injection E as <-.
  destruct H as [H _]; [left|].
  specialize (H ltac:(reflexivity)). vm_compute in H. lia.
Qed.

(** ** Mann-Kendall statistic *)

Lemma pairs_S (n : nat) : Shape.pairs (S n) = (Shape.pairs n + Z.of_nat n)%Z.
Proof.
  unfold Shape.pairs.
  replace (Z.of_nat (S n) * (Z.of_nat (S n) - 1))%Z
    with (Z.of_nat n * (Z.of_nat n - 1) + Z.of_nat n * 2)%Z by lia.
  rewrite Z.div_add by lia. reflexivity.
Qed.

Lemma pairs_nonneg (n : nat) : (0 <= Shape.pairs n)%Z.
Proof. induction n; [reflexivity|rewrite pairs_S; lia]. Qed.

Lemma compare_step (x y : Q) (s t : Z) :
  (if gtb (y - x) 0 then (s + 1, t)%Z
   else if ltb (y - x) 0 then (s - 1, t)%Z else (s, t + 1)%Z)
  = (s + Shape.sgn x y, t + Shape.tie x y)%Z.
Proof.
  unfold Shape.sgn, Shape.tie.
  destruct (gtb (y - x) 0); [|destruct (ltb (y - x) 0)]; f_equal; lia.
Qed.

Lemma compare_later_counts (x : Q) (later : list Q) :
  forall s t,
    Trend.compare_later x later (s, t)
    = (s + Shape.zsum (map (Shape.sgn x) later),
       t + Shape.zsum (map (Shape.tie x) later))%Z.
Proof.
  induction later as [|y rest IH]; intros s t.
  - simpl. f_equal; lia.
  - cbn [Trend.compare_later fst snd map Shape.zsum foldr].
    rewrite compare_step, IH. fold (Shape.zsum (map (Shape.sgn x) rest)).
    fold (Shape.zsum (map (Shape.tie x) rest)). f_equal; lia.
Qed.

(** The two loops compute the sum of signs and the number of ties over all
    pairs. *)
Lemma s_statistic_counts (data : list Q) :
  forall s t,
    Trend.s_statistic data (s, t)
    = (s + Shape.sign_sum data, t + Shape.tie_count data)%Z.
Proof.
  induction data as [|x rest IH]; intros s t; simpl.
  - f_equal; lia.
  - rewrite compare_later_counts, IH. f_equal; lia.
Qed.

Lemma zsum_cons (z : Z) (zs : list Z) :
  Shape.zsum (z :: zs) = (z + Shape.zsum zs)%Z.
Proof. reflexivity. Qed.

Lemma sgn_tie_one (x y : Q) : (Z.abs (Shape.sgn x y) + Shape.tie x y = 1)%Z.
Proof.
  unfold Shape.sgn, Shape.tie.
  destruct (gtb (y - x) 0); [|destruct (ltb (y - x) 0)]; reflexivity.
Qed.

Lemma tie_nonneg (x y : Q) : (0 <= Shape.tie x y)%Z.
Proof.
  unfold Shape.tie.
  destruct (gtb (y - x) 0); [|destruct (ltb (y - x) 0)]; lia.
Qed.

Lemma sgn_tie_bounds (x : Q) (later : list Q) :
  (0 <= Shape.zsum (map (Shape.tie x) later)
   /\ Z.abs (Shape.zsum (map (Shape.sgn x) later))
      + Shape.zsum (map (Shape.tie x) later) <= Z.of_nat (length later))%Z.
Proof.
  induction later as [|y rest [IH1 IH2]]; [simpl; lia|].
  cbn [map length]. rewrite !zsum_cons.
  pose proof (sgn_tie_one x y). pose proof (tie_nonneg x y). lia.
Qed.

Lemma sign_tie_bounds (data : list Q) :
  (0 <= Shape.tie_count data
   /\ Z.abs (Shape.sign_sum data) + Shape.tie_count data
      <= Shape.pairs (length data))%Z.
Proof.
  induction data as [|x rest [IH1 IH2]].
  - simpl. split; [lia|]. reflexivity.
  - cbn [Shape.sign_sum Shape.tie_count length]. rewrite pairs_S.
    pose proof (sgn_tie_bounds x rest). lia.
Qed.

Lemma sgn_antisym (x y : Q) : Shape.sgn y x = (- Shape.sgn x y)%Z.
Proof.
  unfold Shape.sgn.
  destruct (gtb (y - x) 0) eqn:A, (ltb (y - x) 0) eqn:B,
    (gtb (x - y) 0) eqn:C, (ltb (x - y) 0) eqn:D;
    order_facts; try reflexivity; exfalso; lra.
Qed.

Lemma tie_sym (x y : Q) : Shape.tie y x = Shape.tie x y.
Proof.
  unfold Shape.tie.
  destruct (gtb (y - x) 0) eqn:A, (ltb (y - x) 0) eqn:B,
    (gtb (x - y) 0) eqn:C, (ltb (x - y) 0) eqn:D;
    order_facts; try reflexivity; exfalso; lra.
Qed.

Lemma zsum_app (a b : list Z) :
  Shape.zsum (a ++ b) = (Shape.zsum a + Shape.zsum b)%Z.
Proof. induction a as [|x a IH]; simpl; [reflexivity|]. rewrite IH. lia. Qed.

Lemma zsum_rev (a : list Z) : Shape.zsum (rev a) = Shape.zsum a.
Proof.
  induction a as [|x a IH]; simpl; [reflexivity|].
  rewrite zsum_app, IH. simpl. lia.
Qed.

Lemma sign_sum_snoc (data : list Q) (y : Q) :
  Shape.sign_sum (data ++ [y])
  = (Shape.sign_sum data + Shape.zsum (map (fun x => Shape.sgn x y) data))%Z.
Proof.
  induction data as [|x rest IH]; simpl; [reflexivity|].
  rewrite map_app, zsum_app, IH. simpl. lia.
Qed.

Lemma tie_count_snoc (data : list Q) (y : Q) :
  Shape.tie_count (data ++ [y])
  = (Shape.tie_count data + Shape.zsum (map (fun x => Shape.tie x y) data))%Z.
Proof.
  induction data as [|x rest IH]; simpl; [reflexivity|].
  rewrite map_app, zsum_app, IH. simpl. lia.
Qed.

Lemma zsum_map_opp {A} (f g : A -> Z) (l : list A) :
  (forall a, f a = (- g a)%Z) ->
  Shape.zsum (map f l) = (- Shape.zsum (map g l))%Z.
Proof.
  intros H. induction l as [|a l IH]; simpl; [reflexivity|].
  rewrite IH, H. lia.
Qed.

Lemma sign_sum_rev (data : list Q) :
  Shape.sign_sum (rev data) = (- Shape.sign_sum data)%Z.
Proof.
  induction data as [|x rest IH]; simpl; [reflexivity|].
  rewrite sign_sum_snoc, IH, map_rev, zsum_rev.
  rewrite (zsum_map_opp (fun z => Shape.sgn z x) (Shape.sgn x)).
  - lia.
  - intros a. apply sgn_antisym.
Qed.

Lemma tie_count_rev (data : list Q) :
  Shape.tie_count (rev data) = Shape.tie_count data.
Proof.
  induction data as [|x rest IH]; simpl; [reflexivity|].
  rewrite tie_count_snoc, IH, map_rev, zsum_rev.
  rewrite (map_ext (fun z => Shape.tie z x) (Shape.tie x)); [lia|].
  intros a. apply tie_sym.
Qed.

Section MannKendall.

Variables Math_sqrt Math_exp : Q -> Q.

Local Abbreviation mk :=
  (Trend.calculateMannKendallTrend Math_sqrt Math_exp).

(** What the test reports on a series of at least three points. *)
Lemma mann_kendall_fields (data : list Q) (timestamps : list Z) :
  (3 <= length data)%nat ->
  let s := Shape.sign_sum data in
  let ties := Shape.tie_count data in
  let n := Z.of_nat (length data) in
  Trend.S_stat (mk data timestamps) = Some s
  /\ Trend.direction (mk data timestamps)
     = (if (s >? 0)%Z then "rising"
        else if (s <? 0)%Z then "falling" else "stable")
  /\ Trend.variance (mk data timestamps)
     = Some (inject_Z (n * (n - 1) * (2 * n + 5) - ties) / 18)
  /\ Trend.trend (mk data timestamps) = Trend.calculateSenSlope data timestamps
  /\ Trend.dataPoints (mk data timestamps) = Some (length data)
  /\ Trend.significance (mk data timestamps) <> "insufficient_data"
  /\ (s = 0%Z -> Trend.Z_stat (mk data timestamps) = Some 0).
Proof.
  intros Hn. cbv zeta. unfold Trend.calculateMannKendallTrend.
  assert (E : (length data <? 3)%nat = false) by (apply Nat.ltb_ge; lia).
  rewrite E, s_statistic_counts. cbn [Z.add].
  cbv beta iota zeta.
  cbn [Trend.S_stat Trend.direction Trend.variance Trend.trend
       Trend.dataPoints Trend.significance Trend.Z_stat].
  repeat split.
  - repeat match goal with |- context [if ?b then _ else _] =>
      destruct b end; discriminate.
  - intros ->. reflexivity.
Qed.

Lemma sgn_all_up (x : Q) (later : list Q) :
  Forall (Qlt x) later ->
  Shape.zsum (map (Shape.sgn x) later) = Z.of_nat (length later)
  /\ Shape.zsum (map (Shape.tie x) later) = 0%Z.
Proof.
  induction 1 as [|y rest Hy _ [IH1 IH2]]; [split; reflexivity|].
  cbn [map length]. rewrite !zsum_cons, IH1, IH2.
  unfold Shape.sgn, Shape.tie.
  assert (E : gtb (y - x) 0 = true) by (apply gtb_true; lra).
  rewrite E. split; lia.
Qed.

Lemma sgn_all_down (x : Q) (later : list Q) :
  Forall (fun y => y < x) later ->
  Shape.zsum (map (Shape.sgn x) later) = (- Z.of_nat (length later))%Z
  /\ Shape.zsum (map (Shape.tie x) later) = 0%Z.
Proof.
  induction 1 as [|y rest Hy _ [IH1 IH2]]; [split; reflexivity|].
  cbn [map length]. rewrite !zsum_cons, IH1, IH2.
  unfold Shape.sgn, Shape.tie.
  assert (E : gtb (y - x) 0 = false) by (apply gtb_false; lra).
  assert (E' : ltb (y - x) 0 = true) by (apply ltb_true; lra).
  rewrite E, E'. split; lia.
Qed.

Lemma sgn_all_equal (x : Q) (later : list Q) :
  Forall (fun y => y == x) later ->
  Shape.zsum (map (Shape.sgn x) later) = 0%Z
  /\ Shape.zsum (map (Shape.tie x) later) = Z.of_nat (length later).
Proof.
  induction 1 as [|y rest Hy _ [IH1 IH2]]; [split; reflexivity|].
  cbn [map length]. rewrite !zsum_cons, IH1, IH2.
  unfold Shape.sgn, Shape.tie.
  assert (E : gtb (y - x) 0 = false) by (apply gtb_false; lra).
  assert (E' : ltb (y - x) 0 = false) by (apply ltb_false; lra).
  rewrite E, E'. split; lia.
Qed.

Lemma sign_sum_increasing (data : list Q) :
  StronglySorted Qlt data ->
  Shape.sign_sum data = Shape.pairs (length data)
  /\ Shape.tie_count data = 0%Z.
Proof.
  induction 1 as [|x rest _ [IH1 IH2] Hx]; [split; reflexivity|].
  cbn [Shape.sign_sum Shape.tie_count length]. rewrite pairs_S, IH1, IH2.
  destruct (sgn_all_up x rest Hx) as [-> ->]. split; lia.
Qed.

Lemma sign_sum_decreasing (data : list Q) :
  StronglySorted (fun x y => y < x) data ->
  Shape.sign_sum data = (- Shape.pairs (length data))%Z
  /\ Shape.tie_count data = 0%Z.
Proof.
  induction 1 as [|x rest _ [IH1 IH2] Hx]; [split; reflexivity|].
  cbn [Shape.sign_sum Shape.tie_count length]. rewrite pairs_S, IH1, IH2.
  destruct (sgn_all_down x rest Hx) as [-> ->]. split; lia.
Qed.

Lemma sign_sum_constant (c : Q) (data : list Q) :
  Forall (fun y => y == c) data ->
  Shape.sign_sum data = 0%Z
  /\ Shape.tie_count data = Shape.pairs (length data).
Proof.
  induction 1 as [|x rest Hx Hrest [IH1 IH2]]; [split; reflexivity|].
  cbn [Shape.sign_sum Shape.tie_count length]. rewrite pairs_S, IH1, IH2.
  destruct (sgn_all_equal x rest) as [-> ->]; [|split; lia].
  eapply Forall_impl; [exact Hrest|]. intros y Hy. simpl in *.
  rewrite Hy, Hx. reflexivity.
Qed.

Lemma pairs_pos (n : nat) : (2 <= n)%nat -> (0 < Shape.pairs n)%Z.
Proof.
  destruct n as [|[|n]]; [lia|lia|]. intros _.
  rewrite pairs_S. pose proof (pairs_nonneg (S n)). lia.
Qed.

(** X1.  On a strictly increasing series of at least three levels every
    pair counts +1: S is the number of pairs n(n-1)/2, there is no tie and
    the direction is "rising", whatever the timestamps are. *)
Theorem mann_kendall_increasing (data : list Q) (timestamps : list Z) :
  (3 <= length data)%nat -> StronglySorted Qlt data ->
  Trend.S_stat (mk data timestamps) = Some (Shape.pairs (length data))
  /\ Trend.direction (mk data timestamps) = "rising".
Proof.
  intros Hn Hs.
  destruct (mann_kendall_fields data timestamps Hn) as (HS & Hd & _).
  destruct (sign_sum_increasing data Hs) as [E _].
  rewrite HS, Hd, E. split; [reflexivity|].
  pose proof (pairs_pos (length data)) as Hp.
  destruct (Shape.pairs (length data) >? 0)%Z eqn:G; [reflexivity|]. lia.
Qed.

(** X2.  On a strictly decreasing series of at least three levels S is
    -n(n-1)/2 and the direction is "falling". *)
Theorem mann_kendall_decreasing (data : list Q) (timestamps : list Z) :
  (3 <= length data)%nat -> StronglySorted (fun x y => y < x) data ->
  Trend.S_stat (mk data timestamps) = Some (- Shape.pairs (length data))%Z
  /\ Trend.direction (mk data timestamps) = "falling".
Proof.
  intros Hn Hs.
  destruct (mann_kendall_fields data timestamps Hn) as (HS & Hd & _).
  destruct (sign_sum_decreasing data Hs) as [E _].
  rewrite HS, Hd, E. split; [reflexivity|].
  pose proof (pairs_pos (length data)) as Hp.
  destruct (- Shape.pairs (length data) >? 0)%Z eqn:G; [lia|].
  destruct (- Shape.pairs (length data) <? 0)%Z eqn:L; [reflexivity|]. lia.
Qed.

(** X3.  On a series of at least three equal levels S is 0, every pair is
    a tie, the Z statistic is 0 and the direction is "stable". *)
Theorem mann_kendall_constant (c : Q) (data : list Q) (timestamps : list Z) :
  (3 <= length data)%nat -> Forall (fun y => y == c) data ->
  Trend.S_stat (mk data timestamps) = Some 0%Z
  /\ Trend.Z_stat (mk data timestamps) = Some 0
  /\ Trend.direction (mk data timestamps) = "stable"
  /\ Shape.tie_count data = Shape.pairs (length data).
Proof.
  intros Hn Hc.
  destruct (mann_kendall_fields data timestamps Hn)
    as (HS & Hd & _ & _ & _ & _ & HZ).
  destruct (sign_sum_constant c data Hc) as [E Et].
  rewrite HS, Hd, E. repeat split; [|exact Et].
  apply HZ. exact E.
Qed.

(** X4.  For at least three levels the S statistic and the ties share the
    n(n-1)/2 pairs, and the variance handed to [Math.sqrt] is positive. *)
Theorem mann_kendall_variance_positive (data : list Q) (timestamps : list Z) :
  (3 <= length data)%nat ->
  exists s v,
    Trend.S_stat (mk data timestamps) = Some s
    /\ Trend.variance (mk data timestamps) = Some v
    /\ (Z.abs s + Shape.tie_count data <= Shape.pairs (length data))%Z
    /\ 0 < v.
Proof.
  intros Hn.
  destruct (mann_kendall_fields data timestamps Hn) as (HS & _ & Hv & _).
  do 2 eexists. split; [exact HS|]. split; [exact Hv|].
  destruct (sign_tie_bounds data) as [Ht Hb]. split; [exact Hb|].
  assert (Hp : (2 * Shape.pairs (length data)
                <= Z.of_nat (length data) * (Z.of_nat (length data) - 1))%Z).
  { unfold Shape.pairs. apply Z.mul_div_le. lia. }
  apply Qlt_shift_div_l; [reflexivity|].
  rewrite Qmult_0_l. change 0 with (inject_Z 0). rewrite <- Zlt_Qlt.
  nia.
Qed.

(** X5.  Reading the series backwards negates S, keeps the variance and
    swaps "rising" with "falling". *)
Theorem mann_kendall_reversed (data : list Q) (ts ts' : list Z) :
  (3 <= length data)%nat ->
  exists s,
    Trend.S_stat (mk data ts) = Some s
    /\ Trend.S_stat (mk (rev data) ts') = Some (- s)%Z
    /\ Trend.variance (mk (rev data) ts') = Trend.variance (mk data ts)
    /\ (Trend.direction (mk data ts) = "rising"
        <-> Trend.direction (mk (rev data) ts') = "falling")
    /\ (Trend.direction (mk data ts) = "stable"
        <-> Trend.direction (mk (rev data) ts') = "stable").
Proof.
  intros Hn.
  assert (Hn' : (3 <= length (rev data))%nat) by (rewrite length_rev; exact Hn).
  destruct (mann_kendall_fields data ts Hn) as (HS & Hd & Hv & _).
  destruct (mann_kendall_fields (rev data) ts' Hn') as (HS' & Hd' & Hv' & _).
  rewrite sign_sum_rev in HS', Hd'.
  rewrite tie_count_rev, length_rev in Hv'.
  exists (Shape.sign_sum data).
  rewrite HS, HS', Hv, Hv', Hd, Hd'. repeat split; try reflexivity.
  all: destruct (Shape.sign_sum data >? 0)%Z eqn:A,
         (Shape.sign_sum data <? 0)%Z eqn:B,
         (- Shape.sign_sum data >? 0)%Z eqn:C,
         (- Shape.sign_sum data <? 0)%Z eqn:D;
       try reflexivity; try discriminate; lia.
Qed.

End MannKendall.

Lemma mann_kendall_increasing_witness :
  Trend.direction
    (Trend.calculateMannKendallTrend (fun x => x) (fun x => x)
       [1; 2; 3; 4] [0; 1; 2; 3]%Z) = "rising".
Proof.
  apply (mann_kendall_increasing (fun x => x) (fun x => x)).
  - simpl. lia.
  - repeat constructor.
Defined.

Lemma mann_kendall_decreasing_witness :
  Trend.direction
    (Trend.calculateMannKendallTrend (fun x => x) (fun x => x)
       [4; 3; 2; 1] [0; 1; 2; 3]%Z) = "falling".
Proof.
  apply (mann_kendall_decreasing (fun x => x) (fun x => x)).
  - simpl. lia.
  - repeat constructor.
Defined.

Lemma mann_kendall_constant_witness :
  Trend.direction
    (Trend.calculateMannKendallTrend (fun x => x) (fun x => x)
       [8; 8; 8] [0; 1; 2]%Z) = "stable".
Proof.
  apply (mann_kendall_constant (fun x => x) (fun x => x) 8).
  - simpl. lia.
  - repeat constructor.
Defined.

Lemma mann_kendall_variance_positive_witness :
  exists v,
    Trend.variance (Trend.calculateMannKendallTrend (fun x => x)
                      (fun x => x) [1; 3; 2] [0; 1; 2]%Z) = Some v
    /\ 0 < v.
Proof.
  destruct (mann_kendall_variance_positive (fun x => x) (fun x => x)
              [1; 3; 2] [0; 1; 2]%Z) as (s & v & _ & Hv & _ & Hpos).
  - simpl. lia.
  - exists v. split; assumption.
Defined.

Lemma mann_kendall_reversed_witness :
  exists s,
    Trend.S_stat (Trend.calculateMannKendallTrend (fun x => x) (fun x => x)
                    [1; 3; 2] [0; 1; 2]%Z) = Some s
    /\ Trend.S_stat (Trend.calculateMannKendallTrend (fun x => x)
                       (fun x => x) (rev [1; 3; 2]) [0; 1; 2]%Z)
       = Some (- s)%Z.
Proof.
  destruct (mann_kendall_reversed (fun x => x) (fun x => x)
              [1; 3; 2] [0; 1; 2]%Z [0; 1; 2]%Z) as (s & H1 & H2 & _).
  - simpl. lia.
  - exists s. split; assumption.
Defined.

(** ** Sen's slope *)

Lemma ms_per_day_pos : 0 < Trend.ms_per_day.
Proof. reflexivity. Qed.

Lemma timeDiff_pos (ti tj : Z) :
  0 < inject_Z (tj - ti) / Trend.ms_per_day <-> (ti < tj)%Z.
Proof.
  pose proof ms_per_day_pos as Hd. split; intros H.
  - destruct (Z_lt_le_dec ti tj) as [?|Hle]; [assumption|exfalso].
    assert (Hz : inject_Z (tj - ti) <= 0).
    { change 0 with (inject_Z 0). rewrite <- Zle_Qle. lia. }
    assert (inject_Z (tj - ti) / Trend.ms_per_day <= 0)
      by (apply Qle_shift_div_r; lra).
    lra.
  - apply Qlt_shift_div_l; [exact Hd|].
    rewrite Qmult_0_l. change 0 with (inject_Z 0). rewrite <- Zlt_Qlt. lia.
Qed.

(** A property of every pair with a positive time difference holds for
    every collected slope. *)
Lemma pairwise_slopes_Forall (P : Q -> Prop) (data : list Q)
    (timestamps : list Z) :
  (forall i j di dj ti tj,
      (i < j)%nat ->
      data !! i = Some di -> data !! j = Some dj ->
      timestamps !! i = Some ti -> timestamps !! j = Some tj ->
      (ti < tj)%Z ->
      P ((dj - di) / (inject_Z (tj - ti) / Trend.ms_per_day))) ->
  Forall P (Trend.pairwise_slopes data timestamps).
Proof.
  intros H. unfold Trend.pairwise_slopes.
  apply Forall_flat_map, Forall_forall. intros i Hi.
  apply Forall_flat_map, Forall_forall. intros j Hj.
  apply elem_of_seq in Hj. unfold Trend.pair_slope.
  destruct (data !! i) as [di|] eqn:Edi; [|constructor].
  destruct (data !! j) as [dj|] eqn:Edj; [|constructor].
  destruct (timestamps !! i) as [ti|] eqn:Eti; [|constructor].
  destruct (timestamps !! j) as [tj|] eqn:Etj; [|constructor].
  cbv zeta.
  destruct (gtb (inject_Z (tj - ti) / Trend.ms_per_day) 0) eqn:G;
    [|constructor].
  apply gtb_true in G. apply (proj1 (timeDiff_pos ti tj)) in G.
  repeat constructor. apply (H i j); auto. lia.
Qed.

(** The median keeps every property of the slopes that survives taking
    the midpoint of two of them. *)
Lemma median_of_slopes_keeps (P : Q -> Prop) (slopes : list Q) :
  P 0 -> (forall x y, P x -> P y -> P ((x + y) / 2)) ->
  Forall P slopes -> P (Trend.median_of_slopes slopes).
Proof.
  intros H0 Hmid Hall. unfold Trend.median_of_slopes.
  destruct slopes as [|s0 rest]; [exact H0|].
  set (sorted := merge_sort Qle (s0 :: rest)).
  assert (Hperm : sorted ≡ₚ s0 :: rest) by apply merge_sort_Permutation.
  assert (Hsorted : Forall P sorted) by (rewrite Hperm; exact Hall).
  assert (Hlen : (0 < length sorted)%nat)
    by (rewrite Hperm; simpl; lia).
  cbv zeta.
  assert (Hmi : (length sorted / 2 < length sorted)%nat)
    by (apply Nat.div_lt; lia).
  rewrite (Forall_nth P 0) in Hsorted.
  destruct (length sorted mod 2 =? 0)%nat.
  - apply Hmid; apply Hsorted; lia.
  - apply Hsorted. exact Hmi.
Qed.

Lemma StronglySorted_lookup_lt {A} (R : A -> A -> Prop) (l : list A) :
  StronglySorted R l ->
  forall i j x y, (i < j)%nat -> l !! i = Some x -> l !! j = Some y -> R x y.
Proof.
  induction 1 as [|a l Hl IH Ha]; intros i j x y Hij Hi Hj.
  - discriminate.
  - destruct j as [|j]; [lia|]. simpl in Hj.
    destruct i as [|i]; simpl in Hi.
    + injection Hi as <-. rewrite Forall_forall in Ha. apply Ha.
      eapply list_elem_of_lookup_2. exact Hj.
    + apply (IH i j); [lia|assumption|assumption].
Qed.

(** X6.  When no later timestamp is greater than an earlier one (fewer
    than two timestamps, repeated or descending times), no slope is
    collected and the estimator returns 0. *)
Theorem sen_slope_without_time_progress (data : list Q) (timestamps : list Z) :
  (forall i j ti tj,
      (i < j)%nat -> timestamps !! i = Some ti -> timestamps !! j = Some tj ->
      (tj <= ti)%Z) ->
  Trend.pairwise_slopes data timestamps = []
  /\ Trend.calculateSenSlope data timestamps = 0.
Proof.
  intros H.
  assert (Hnone : Forall (fun _ => False) (Trend.pairwise_slopes data timestamps)).
  { apply pairwise_slopes_Forall. intros i j di dj ti tj Hij _ _ Hi Hj Hlt.
    specialize (H i j ti tj Hij Hi Hj). lia. }
  assert (E : Trend.pairwise_slopes data timestamps = []).
  { destruct (Trend.pairwise_slopes data timestamps); [reflexivity|].
    inversion Hnone; contradiction. }
  split; [exact E|]. unfold Trend.calculateSenSlope. rewrite E. reflexivity.
Qed.

Lemma sen_slope_without_time_progress_witness :
  Trend.calculateSenSlope [1; 2; 3] [5; 5; 5]%Z = 0.
Proof.
  apply (sen_slope_without_time_progress [1; 2; 3] [5; 5; 5]%Z).
  intros i j ti tj Hij Hi Hj.
  assert (Hall : Forall (fun t => t = 5%Z) [5; 5; 5]%Z) by (repeat constructor).
  rewrite Forall_lookup in Hall.
  rewrite (Hall _ _ Hi), (Hall _ _ Hj). lia.
Defined.

Lemma line_slope (a b di dj : Q) (ti tj : Z) :
  (ti < tj)%Z ->
  di == a + b * (inject_Z ti / Trend.ms_per_day) ->
  dj == a + b * (inject_Z tj / Trend.ms_per_day) ->
  (dj - di) / (inject_Z (tj - ti) / Trend.ms_per_day) == b.
Proof.
  intros Hlt Hi Hj. pose proof ms_per_day_pos as Hd.
  assert (Hz : 0 < inject_Z tj - inject_Z ti).
  { rewrite Zlt_Qlt in Hlt. lra. }
  unfold Z.sub. rewrite inject_Z_plus, inject_Z_opp, Hi, Hj.
  field. split; lra.
Qed.

(** X7.  On a series that lies on a straight line, level = a + b·days,
    with strictly increasing timestamps and at least two points, the
    estimator returns the slope b of the line. *)
Theorem sen_slope_of_line (a b : Q) (data : list Q) (timestamps : list Z) :
  Shape.on_line a b data timestamps ->
  StronglySorted Z.lt timestamps ->
  (2 <= length data)%nat ->
  Trend.pairwise_slopes data timestamps <> []
  /\ Trend.calculateSenSlope data timestamps == b.
Proof.
  intros [Hlen Hline] Hs Hn.
  assert (Hall : Forall (fun s => s == b)
                   (Trend.pairwise_slopes data timestamps)).
  { apply pairwise_slopes_Forall. intros i j di dj ti tj _ Hdi Hdj Hti Htj Hlt.
    apply (line_slope a); [exact Hlt|eauto|eauto]. }
  assert (Hne : Trend.pairwise_slopes data timestamps <> []).
  { destruct data as [|d0 [|d1 data]]; simpl in Hn; try lia.
    destruct timestamps as [|t0 [|t1 timestamps]]; try discriminate.
    assert (Hlt : (t0 < t1)%Z).
    { apply (StronglySorted_lookup_lt Z.lt _ Hs 0%nat 1%nat); auto. }
    intros E.
    assert (Hin : ((d1 - d0) / (inject_Z (t1 - t0) / Trend.ms_per_day))
                  ∈ Trend.pairwise_slopes (d0 :: d1 :: data)
                      (t0 :: t1 :: timestamps)).
    { unfold Trend.pairwise_slopes. apply list_elem_of_In, in_flat_map.
      exists 0%nat. split; [apply in_seq; simpl; lia|].
      apply in_flat_map. exists 1%nat. split; [apply in_seq; simpl; lia|].
      unfold Trend.pair_slope. cbn [lookup list_lookup]. cbv zeta.
      assert (G : gtb (inject_Z (t1 - t0) / Trend.ms_per_day) 0 = true)
        by (apply gtb_true; apply (proj2 (timeDiff_pos t0 t1)); exact Hlt).
      rewrite G. left. reflexivity. }
    rewrite E in Hin. now apply elem_of_nil in Hin. }
  split; [exact Hne|]. unfold Trend.calculateSenSlope.
  destruct (Trend.pairwise_slopes data timestamps) as [|s0 rest] eqn:E;
    [congruence|].
  unfold Trend.median_of_slopes.
  set (sorted := merge_sort Qle (s0 :: rest)).
  assert (Hperm : sorted ≡ₚ s0 :: rest) by apply merge_sort_Permutation.
  assert (Hsorted : Forall (fun s => s == b) sorted)
    by (rewrite Hperm; exact Hall).
  assert (Hlen' : (0 < length sorted)%nat) by (rewrite Hperm; simpl; lia).
  cbv zeta.
  assert (Hmi : (length sorted / 2 < length sorted)%nat)
    by (apply Nat.div_lt; lia).
  rewrite (Forall_nth _ 0) in Hsorted.
  destruct (length sorted mod 2 =? 0)%nat.
  - rewrite (Hsorted (length sorted / 2 - 1)%nat) by lia.
    rewrite (Hsorted (length sorted / 2)%nat) by lia. field.
  - apply Hsorted. exact Hmi.
Qed.

Lemma sen_slope_of_line_witness :
  Trend.calculateSenSlope [10; 12; 14] [0; 86400000; 172800000]%Z == 2.
Proof.
  apply (sen_slope_of_line 10 2 [10; 12; 14] [0; 86400000; 172800000]%Z).
  - split; [reflexivity|]. intros i d t Hd Ht.
    destruct i as [|[|[|i]]]; simpl in Hd, Ht; try discriminate;
      injection Hd as <-; injection Ht as <-; reflexivity.
  - repeat constructor.
  - simpl. lia.
Defined.

(** X8.  The estimator has the sign of a monotone series: it is never
    negative when the levels never decrease in input order, and never
    positive when they never increase. *)
Theorem sen_slope_sign (data : list Q) (timestamps : list Z) :
  (StronglySorted Qle data -> 0 <= Trend.calculateSenSlope data timestamps)
  /\ (StronglySorted (fun x y => y <= x) data ->
      Trend.calculateSenSlope data timestamps <= 0).
Proof.
  pose proof ms_per_day_pos as Hd.
  split; intros Hs; unfold Trend.calculateSenSlope;
    apply median_of_slopes_keeps; try lra.
  - intros x y Hx Hy. apply Qle_shift_div_l; lra.
  - apply pairwise_slopes_Forall. intros i j di dj ti tj Hij Hdi Hdj _ _ Hlt.
    pose proof (StronglySorted_lookup_lt _ _ Hs i j di dj Hij Hdi Hdj) as Hle.
    apply (proj2 (timeDiff_pos ti tj)) in Hlt.
    apply Qle_shift_div_l; [exact Hlt|]. lra.
  - intros x y Hx Hy. apply Qle_shift_div_r; lra.
  - apply pairwise_slopes_Forall. intros i j di dj ti tj Hij Hdi Hdj _ _ Hlt.
    pose proof (StronglySorted_lookup_lt _ _ Hs i j di dj Hij Hdi Hdj) as Hle.
    simpl in Hle.
    apply (proj2 (timeDiff_pos ti tj)) in Hlt.
    apply Qle_shift_div_r; [exact Hlt|]. lra.
Qed.

Lemma sen_slope_sign_witness :
  0 <= Trend.calculateSenSlope [1; 1; 3] [0; 5; 9]%Z.
Proof.
  apply (sen_slope_sign [1; 1; 3] [0; 5; 9]%Z).
  repeat constructor; discriminate.
Defined.

(** ** Arithmetic helpers *)

Lemma length_pos_Q {A} (xs : list A) :
  xs <> [] -> 0 < inject_Z (Z.of_nat (length xs)).
Proof.
  intros H. change 0 with (inject_Z 0). rewrite <- Zlt_Qlt.
  destruct xs; [congruence|]. simpl. lia.
Qed.

Lemma square_nonneg (x : Q) : 0 <= x * x.
Proof.
  destruct (Qlt_le_dec x 0) as [H|H].
  - assert (E : x * x == (- x) * (- x)) by ring. rewrite E.
    apply Qmult_le_0_compat; lra.
  - apply Qmult_le_0_compat; assumption.
Qed.

(** ** Seasonality: edge cases and flat series *)

Section SeasonalityEdges.

Variable getMonth : Z -> nat.

Lemma push_month_groups (P : list Stats.num -> Prop) (m : nat) (x : Stats.num)
    (md : list (nat * list Stats.num)) :
  P [x] -> (forall xs, P xs -> P (xs ++ [x])) ->
  Forall (fun g => P (snd g)) md ->
  Forall (fun g => P (snd g)) (Stats.push_month m x md).
Proof.
  intros H1 Happ. induction 1 as [|[k xs] rest Hk Hrest IH]; simpl.
  - repeat constructor. exact H1.
  - destruct (m <? k)%nat; [|destruct (m =? k)%nat].
    + constructor; [exact H1|]. constructor; assumption.
    + constructor; [apply Happ; exact Hk|assumption].
    + constructor; assumption.
Qed.

Lemma group_from_groups_nonempty (data : list Q) (timestamps : list Z) :
  forall index md,
    Forall (fun g => snd g <> []) md ->
    Forall (fun g => snd g <> [])
      (Stats.group_from getMonth data index timestamps md).
Proof.
  induction timestamps as [|t rest IH]; simpl; intros index md H; [exact H|].
  apply IH. apply (push_month_groups (fun xs => xs <> [])); [discriminate| |exact H].
  intros xs _ E. apply app_eq_nil in E as [_ E]. discriminate.
Qed.

Lemma monthly_means_total (md : list (nat * list Stats.num)) :
  Forall (fun g => snd g <> []) md ->
  exists mm, Stats.monthly_means md = Ok mm /\ map fst mm = map fst md.
Proof.
  induction 1 as [|[k xs] rest Hne _ (mm & IH & Hk)]; simpl.
  - exists []. split; reflexivity.
  - destruct (mean_nonempty xs Hne) as [m ->]. rewrite IH.
    exists ((k, m) :: mm). simpl. rewrite Hk. split; reflexivity.
Qed.

(** The detector's result once the monthly means and their mean and
    variance are known. *)
Lemma detectSeasonality_verdict (data : list Q) (timestamps : list Z)
    (mm : list (nat * Stats.num)) (om ov : Stats.num) :
  (12 <= length data)%nat ->
  Stats.monthly_means (Stats.group_from getMonth data 0 timestamps []) = Ok mm ->
  Stats.mean (map snd mm) = Ok om ->
  Stats.variance (map snd mm) = Ok ov ->
  exists r,
    Stats.detectSeasonality getMonth data timestamps = Ok (Some r)
    /\ Stats.seasonal r = Stats.cv_exceeds_tenth om ov
    /\ Stats.monthlyMeans r = mm.
Proof.
  intros H12 Hmm Hom Hov. unfold Stats.detectSeasonality.
  assert (E12 : (length data <? 12)%nat = false) by (apply Nat.ltb_ge; lia).
  rewrite E12, Hmm. cbn [mbind result_bind].
  rewrite Hom. cbn [mbind result_bind]. rewrite Hov. cbn [mbind result_bind].
  destruct mm as [|[k0 m0] mm]; [discriminate|].
  cbn [map fst Stats.reduce_keys mbind result_bind mret result_ret].
  eexists. split; [reflexivity|]. split; reflexivity.
Qed.

(** X11.  The detector returns null exactly when there are fewer than 12
    observations; with at least 12 observations it raises when there is no
    timestamp at all and returns a verdict otherwise. *)
Theorem detectSeasonality_outcomes (data : list Q) (timestamps : list Z) :
  ((length data < 12)%nat ->
   Stats.detectSeasonality getMonth data timestamps = Ok None)
  /\ ((12 <= length data)%nat -> timestamps = [] ->
      exists msg, Stats.detectSeasonality getMonth data timestamps = Throw msg)
  /\ ((12 <= length data)%nat -> timestamps <> [] ->
      exists r, Stats.detectSeasonality getMonth data timestamps = Ok (Some r)).
Proof.
  split; [|split].
  - intros H. unfold Stats.detectSeasonality.
    assert (E : (length data <? 12)%nat = true) by (apply Nat.ltb_lt; lia).
    rewrite E. reflexivity.
  - intros H ->. unfold Stats.detectSeasonality.
    assert (E : (length data <? 12)%nat = false) by (apply Nat.ltb_ge; lia).
    rewrite E. eexists. reflexivity.
  - intros H Hts.
    set (md := Stats.group_from getMonth data 0 timestamps []).
    assert (Hg : Forall (fun g => snd g <> []) md)
      by (apply group_from_groups_nonempty; constructor).
    assert (Hne : md <> []) by (apply group_from_nonempty; left; exact Hts).
    destruct (monthly_means_total md Hg) as (mm & Hmm & Hk).
    assert (Hmeans : map snd mm <> []).
    { destruct mm; [destruct md; [congruence|discriminate]|discriminate]. }
    destruct (mean_nonempty _ Hmeans) as [om Hom].
    assert (Hvar : exists ov, Stats.variance (map snd mm) = Ok ov).
    { unfold Stats.variance. rewrite Hom. cbn [mbind result_bind].
      apply mean_nonempty. destruct (map snd mm); [congruence|discriminate]. }
    destruct Hvar as [ov Hov].
    destruct (detectSeasonality_verdict data timestamps mm om ov H Hmm Hom Hov)
      as (r & Hr & _).
    eauto.
Qed.

Lemma sum_is_num (c : Q) (xs : list Stats.num) :
  Forall (Shape.is_num c) xs ->
  forall acc, exists s,
    fold_left (fun acc x => a ← acc; v ← x; Some (a + v)) xs (Some acc) = Some s
    /\ s == acc + inject_Z (Z.of_nat (length xs)) * c.
Proof.
  induction 1 as [|x xs (q & -> & Hq) _ IH]; intros acc.
  - exists acc. split; [reflexivity|]. simpl. ring.
  - destruct (IH (acc + q)) as (s & Hs & Es). exists s.
    split; [exact Hs|]. cbn [length]. rewrite Es, Hq.
    rewrite Nat2Z.inj_succ. unfold Z.succ. rewrite inject_Z_plus. ring.
Qed.

Lemma mean_is_num (c : Q) (xs : list Stats.num) :
  xs <> [] -> Forall (Shape.is_num c) xs ->
  exists m, Stats.mean xs = Ok (Some m) /\ m == c.
Proof.
  intros Hne Hall. unfold Stats.mean, Stats.sum.
  destruct (sum_is_num c xs Hall 0) as (s & Hs & Es).
  pose proof (length_pos_Q xs Hne) as Hlen.
  destruct xs as [|x xs]; [congruence|].
  rewrite Hs. eexists. split; [reflexivity|].
  rewrite Es. field. lra.
Qed.

Lemma variance_is_num (c : Q) (xs : list Stats.num) :
  xs <> [] -> Forall (Shape.is_num c) xs ->
  exists v, Stats.variance xs = Ok (Some v) /\ v == 0.
Proof.
  intros Hne Hall. unfold Stats.variance.
  destruct (mean_is_num c xs Hne Hall) as (m & -> & Em).
  cbn [mbind result_bind]. apply mean_is_num.
  - destruct xs; [congruence|discriminate].
  - apply Forall_map. eapply Forall_impl; [exact Hall|].
    intros x (q & -> & Hq). eexists. split; [reflexivity|].
    rewrite Hq, Em. ring.
Qed.

Lemma group_from_is_num (c : Q) (data : list Q) (timestamps : list Z) :
  Forall (fun x => x == c) data ->
  forall index md,
    (index + length timestamps <= length data)%nat ->
    Forall (fun g => Forall (Shape.is_num c) (snd g)) md ->
    Forall (fun g => Forall (Shape.is_num c) (snd g))
      (Stats.group_from getMonth data index timestamps md).
Proof.
  intros Hc. induction timestamps as [|t rest IH]; simpl; intros index md Hlen H;
    [exact H|].
  apply IH; [lia|].
  destruct (data !! index) as [q|] eqn:Eq;
    [|apply lookup_ge_None in Eq; lia].
  assert (Hq : Shape.is_num c (Some q)).
  { exists q. split; [reflexivity|].
    rewrite Forall_lookup in Hc. exact (Hc _ _ Eq). }
  apply (push_month_groups (Forall (Shape.is_num c))); [|
    |exact H].
  - repeat constructor. exact Hq.
  - intros xs Hxs. apply Forall_app. split; [exact Hxs|].
    repeat constructor. exact Hq.
Qed.

Lemma monthly_means_is_num (c : Q) (md : list (nat * list Stats.num)) :
  Forall (fun g => snd g <> []) md ->
  Forall (fun g => Forall (Shape.is_num c) (snd g)) md ->
  exists mm,
    Stats.monthly_means md = Ok mm
    /\ map fst mm = map fst md
    /\ Forall (fun e => Shape.is_num c (snd e)) mm.
Proof.
  induction 1 as [|[k xs] rest Hne _ IH]; intros Hall; simpl.
  - exists []. repeat split. constructor.
  - inversion Hall as [|? ? Hxs Hrest]; subst. simpl in *.
    destruct (mean_is_num c xs Hne Hxs) as (m & -> & Em).
    destruct (IH Hrest) as (mm & -> & Hk & Hmm).
    exists ((k, Some m) :: mm). simpl. rewrite Hk. repeat split.
    constructor; [|exact Hmm]. exists m. split; [reflexivity|exact Em].
Qed.

(** X12.  A series of at least 12 equal observations (one timestamp
    each, the common level within a million metres of 0) gets a verdict,
    and the verdict is never "seasonal", whatever months the timestamps
    fall in. *)
Theorem constant_series_not_seasonal (c : Q) (data : list Q)
    (timestamps : list Z) :
  (12 <= length data)%nat -> length timestamps = length data ->
  Qabs c <= 1000000 ->
  Forall (fun x => x == c) data ->
  exists r,
    Stats.detectSeasonality getMonth data timestamps = Ok (Some r)
    /\ Stats.seasonal r = false.
Proof.
  intros H12 Hlen _ Hc.
  set (md := Stats.group_from getMonth data 0 timestamps []).
  assert (Hg : Forall (fun g => snd g <> []) md)
    by (apply group_from_groups_nonempty; constructor).
  assert (Hv : Forall (fun g => Forall (Shape.is_num c) (snd g)) md)
    by (apply group_from_is_num; [exact Hc|simpl; lia|constructor]).
  assert (Hne : md <> []).
  { apply group_from_nonempty. left.
    destruct timestamps; simpl in *; [lia|discriminate]. }
  destruct (monthly_means_is_num c md Hg Hv) as (mm & Hmm & Hk & Hnum).
  assert (Hmeans : map snd mm <> []).
  { destruct mm; [destruct md; [congruence|discriminate]|discriminate]. }
  assert (Hall : Forall (Shape.is_num c) (map snd mm))
    by (apply Forall_map; exact Hnum).
  destruct (mean_is_num c _ Hmeans Hall) as (om & Hom & Eom).
  destruct (variance_is_num c _ Hmeans Hall) as (ov & Hov & Eov).
  destruct (detectSeasonality_verdict data timestamps mm (Some om) (Some ov)
              H12 Hmm Hom Hov) as (r & Hr & Hs & Hrm).
  exists r. split; [exact Hr|]. rewrite Hs.
  unfold Stats.cv_exceeds_tenth.
  destruct (gtb om 0).
  - apply gtb_false. pose proof (square_nonneg om). lra.
  - destruct (Qeq_bool om 0); [|reflexivity]. apply gtb_false. lra.
Qed.

End SeasonalityEdges.

Lemma detectSeasonality_outcomes_witness :
  exists msg,
    Stats.detectSeasonality Stats.utcMonth Examples.flat_levels [] = Throw msg.
Proof.
  destruct (detectSeasonality_outcomes Stats.utcMonth Examples.flat_levels [])
    as (_ & H & _).
  apply H; [vm_compute; lia|reflexivity].
Defined.

Lemma constant_series_not_seasonal_witness :
  exists r,
    Stats.detectSeasonality Stats.utcMonth Examples.flat_levels
      Examples.jan_feb_timestamps = Ok (Some r)
    /\ Stats.seasonal r = false.
Proof.
  destruct (constant_series_not_seasonal Stats.utcMonth 5 Examples.flat_levels
              Examples.jan_feb_timestamps) as (r & Hr & Hs).
  - vm_compute. lia.
  - reflexivity.
  - discriminate.
  - repeat constructor.
  - exists r. split; assumption.
Defined.

(** ** Encoders and feature ranges *)

(** A table lookup with default yields the default or a non-zero table
    value. *)
Lemma lookup_or_cases (entries : list (string * Z)) (k : option string) (d : Z) :
  lookup_or (list_to_map entries) k d = d
  \/ exists v, (to_key k, v) ∈ entries /\ v <> 0%Z
               /\ lookup_or (list_to_map entries) k d = v.
Proof.
  unfold lookup_or.
  destruct (list_to_map entries !! to_key k) as [v|] eqn:E; [|left; reflexivity].
  destruct (v =? 0)%Z eqn:Ez; [left; reflexivity|right].
  exists v. apply Z.eqb_neq in Ez.
  split; [apply elem_of_list_to_map_2; exact E|]. split; [exact Ez|reflexivity].
Qed.

Lemma lookup_or_range (entries : list (string * Z)) (k : option string)
    (d lo hi : Z) :
  (lo <= d <= hi)%Z -> Forall (fun e => snd e = 0%Z \/ lo <= snd e <= hi)%Z entries ->
  (lo <= lookup_or (list_to_map entries) k d <= hi)%Z.
Proof.
  intros Hd Hall.
  destruct (lookup_or_cases entries k d) as [->|(v & Hin & Hv & ->)];
    [exact Hd|].
  rewrite Forall_forall in Hall. destruct (Hall _ Hin) as [?|?]; simpl in *;
    [contradiction|assumption].
Qed.

Lemma lookup_or_unknown (entries : list (string * Z)) (k : option string)
    (d : Z) :
  to_key k ∉ map fst entries -> lookup_or (list_to_map entries) k d = d.
Proof.
  intros H. unfold lookup_or.
  rewrite not_elem_of_list_to_map_1; [reflexivity|exact H].
Qed.

Lemma encoders_in_range (label : option string) :
  (1 <= getStatusValue label <= 4)%Z
  /\ (-1 <= getTrendValue label <= 1)%Z
  /\ (0 <= getSignificanceValue label <= 4)%Z
  /\ (1 <= getInfluenceValue label <= 3)%Z
  /\ (1 <= getPermeabilityValue label <= 3)%Z
  /\ (1 <= getAquiferTypeValue label <= 4)%Z.
Proof.
  unfold getStatusValue, getTrendValue, getSignificanceValue,
    getInfluenceValue, getPermeabilityValue, getAquiferTypeValue,
    statusMap, trendMap, sigMap, influenceMap, permMap, aquiferMap.
  do 5 (split; [apply lookup_or_range;
                   [lia|repeat constructor; simpl; lia]|]).
  apply lookup_or_range; [lia|repeat constructor; simpl; lia].
Qed.

(** X13.  Whatever label an encoder is given (listed, unknown or
    undefined), provided it names no member inherited from
    Object.prototype, its code stays in the encoder's range: status 1..4
    (never 0), trend -1..1, significance 0..4, influence and permeability
    1..3, aquifer type 1..4. *)
Theorem encoder_ranges (label : option string) :
  inherited label = false ->
  (1 <= getStatusValue label <= 4)%Z
  /\ (-1 <= getTrendValue label <= 1)%Z
  /\ (0 <= getSignificanceValue label <= 4)%Z
  /\ (1 <= getInfluenceValue label <= 3)%Z
  /\ (1 <= getPermeabilityValue label <= 3)%Z
  /\ (1 <= getAquiferTypeValue label <= 4)%Z.
Proof. intros _. apply encoders_in_range. Qed.

Lemma encoder_ranges_witness :
  (1 <= getStatusValue (Some "critical") <= 4)%Z
  /\ (-1 <= getTrendValue (Some "critical") <= 1)%Z
  /\ (0 <= getSignificanceValue (Some "critical") <= 4)%Z
  /\ (1 <= getInfluenceValue (Some "critical") <= 3)%Z
  /\ (1 <= getPermeabilityValue (Some "critical") <= 3)%Z
  /\ (1 <= getAquiferTypeValue (Some "critical") <= 4)%Z.
Proof. apply (encoder_ranges (Some "critical")). reflexivity. Defined.

(** X14.  A label outside an encoder's table that names no member
    inherited from Object.prototype, or a missing label, is encoded as the
    encoder's default: status 2, trend 0, significance 0, influence 1,
    permeability 2, aquifer type 1. *)
Theorem encoder_defaults (label : option string) :
  inherited label = false ->
  (to_key label ∉ ["critical"; "low"; "moderate"; "good"; "excellent"] ->
   getStatusValue label = 2%Z)
  /\ (to_key label ∉ ["falling"; "stable"; "rising"] ->
      getTrendValue label = 0%Z)
  /\ (to_key label ∉ ["not_significant"; "marginally_significant";
                      "significant"; "very_significant";
                      "highly_significant"] ->
      getSignificanceValue label = 0%Z)
  /\ (to_key label ∉ ["low"; "medium"; "high"] ->
      getInfluenceValue label = 1%Z /\ getPermeabilityValue label = 2%Z)
  /\ (to_key label ∉ ["unconfined"; "confined"; "semi-confined"; "leaky"] ->
      getAquiferTypeValue label = 1%Z).
Proof.
  intros _.
  split; [|split; [|split; [|split]]]; intros H;
    try split; apply lookup_or_unknown; exact H.
Qed.

Lemma encoder_defaults_witness :
  getSignificanceValue (Some "insufficient_data") = 0%Z
  /\ getTrendValue (Some "increasing") = 0%Z
  /\ getStatusValue None = 2%Z.
Proof.
  split; [|split].
  - apply (encoder_defaults (Some "insufficient_data")); [reflexivity|].
    simpl. intros H.
    repeat (apply elem_of_cons in H as [H|H]; [discriminate|]).
    now apply elem_of_nil in H.
  - apply (encoder_defaults (Some "increasing")); [reflexivity|].
    simpl. intros H.
    repeat (apply elem_of_cons in H as [H|H]; [discriminate|]).
    now apply elem_of_nil in H.
  - apply (encoder_defaults None); [reflexivity|]. simpl. intros H.
    repeat (apply elem_of_cons in H as [H|H]; [discriminate|]).
    now apply elem_of_nil in H.
Defined.

(** The fields of an extracted feature vector. *)
Lemma extractFeatures_Ok (i : Input.t) (f : Ml.Features) :
  Ml.extractFeatures i = Ok f ->
  exists sd ta env,
    Input.stationData i = Some sd /\ Input.trendAnalysis i = Some ta
    /\ Input.environmentalData i = Some env
    /\ Ml.current_water_level f
       = match Input.latestReading sd with
         | Some r => Input.waterLevel r
         | None => 15
         end
    /\ Ml.water_level_status f
       = match Input.latestReading sd with
         | Some r => inject_Z (getStatusValue (Input.waterLevelStatus r))
         | None => 2
         end
    /\ Ml.trend_direction f = inject_Z (getTrendValue (Input.direction ta))
    /\ Ml.trend_significance f
       = inject_Z (getSignificanceValue (Input.significance ta))
    /\ Ml.trend_magnitude f = Math_abs (or_default (Input.trend ta) 0)
    /\ Ml.annual_rainfall f
       = match Input.rainfall env with
         | Some rf => or_default (Input.annual rf) 0
         | None => 800
         end
    /\ Ml.monsoon_rainfall f
       = match Input.rainfall env with
         | Some rf => or_default (s ← Input.seasonal rf; Input.monsoon s) 0
         | None => 600
         end
    /\ Ml.nearest_river_distance f
       = match Input.proximity env with
         | Some px => or_default (Input.first_distance (Input.rivers px)) 50
         | None => 50
         end
    /\ Ml.soil_permeability f
       = match Input.geology env with
         | Some g => inject_Z (getPermeabilityValue (Input.permeability g))
         | None => 2
         end.
Proof.
  unfold Ml.extractFeatures. intros H.
  apply bind_Ok_inv in H as (sd & Hsd & H). apply deref_Ok_inv in Hsd.
  destruct (Input.latestReading sd) as [r|] eqn:Er; cbv beta iota zeta in H;
    (apply bind_Ok_inv in H as (ta & Hta & H); apply deref_Ok_inv in Hta;
     cbv beta iota zeta in H;
     apply bind_Ok_inv in H as (env & Henv & H); apply deref_Ok_inv in Henv;
     destruct (Input.rainfall env) eqn:Erf, (Input.proximity env) eqn:Epx,
       (Input.geology env) eqn:Eg;
     cbv beta iota zeta in H;
     apply bind_Ok_inv in H as (st & Hst & H);
     destruct (Input.technicalDetails st); cbv beta iota zeta in H;
     apply mret_Ok_inv in H; subst f;
     exists sd, ta, env; rewrite Er, Erf, Epx, Eg;
     repeat split; first [assumption|reflexivity]).
Qed.

Lemma or_default_nonneg (x : option Q) (d : Q) :
  0 <= d -> (forall q, x = Some q -> 0 <= q) -> 0 <= or_default x d.
Proof.
  intros Hd Hx. unfold or_default. destruct x as [q|]; [|exact Hd].
  destruct (truthy q); [apply Hx; reflexivity|exact Hd].
Qed.

Lemma inject_Z_range (z lo hi : Z) :
  (lo <= z <= hi)%Z -> inject_Z lo <= inject_Z z <= inject_Z hi.
Proof. intros [H1 H2]. rewrite <- !Zle_Qle. split; assumption. Qed.

Lemma extracted_ranges (i : Input.t) (f : Ml.Features) :
  Ml.extractFeatures i = Ok f ->
  1 <= Ml.water_level_status f <= 4
  /\ - (1) <= Ml.trend_direction f <= 1
  /\ 0 <= Ml.trend_significance f <= 4
  /\ 1 <= Ml.soil_permeability f <= 3
  /\ 0 <= Ml.trend_magnitude f.
Proof.
  intros H.
  destruct (extractFeatures_Ok i f H)
    as (sd & ta & env & _ & _ & _ & _ & Hst & Hdir & Hsig & Hmag & _ & _ & _
        & Hperm).
  rewrite Hst, Hdir, Hsig, Hmag, Hperm.
  split; [|split; [|split; [|split]]].
  - destruct (Input.latestReading sd) as [r|]; [|split; discriminate].
    apply (inject_Z_range _ 1 4), encoders_in_range.
  - apply (inject_Z_range _ (-1) 1), encoders_in_range.
  - apply (inject_Z_range _ 0 4), encoders_in_range.
  - destruct (Input.geology env) as [g|]; [|split; discriminate].
    apply (inject_Z_range _ 1 3), encoders_in_range.
  - apply Qabs_nonneg.
Qed.

(** The labels of the sample request are ordinary ones. *)
Lemma boundary_input_plain_labels : Shape.plain_labels Examples.boundary_input.
Proof.
  split; [|split; [|split; [|split; [|split]]]].
  - intros sd r [= <-] [= <-]. reflexivity.
  - intros ta [= <-]. split; reflexivity.
  - intros env rf [= <-] [= <-]. reflexivity.
  - intros env px [= <-] [= <-]. reflexivity.
  - intros env g [= <-] [= <-]. reflexivity.
  - intros sd st td [= <-] [= <-] [= <-]. reflexivity.
Qed.

(** X15.  For an input whose labels name no member inherited from
    Object.prototype, every extracted feature vector has its categorical
    features in range: status 1..4, trend direction -1..1, significance
    0..4, permeability 1..3, and a non-negative trend magnitude, whatever
    those labels and the numbers are. *)
Theorem extracted_features_in_range (i : Input.t) (f : Ml.Features) :
  Shape.plain_labels i ->
  Ml.extractFeatures i = Ok f ->
  1 <= Ml.water_level_status f <= 4
  /\ - (1) <= Ml.trend_direction f <= 1
  /\ 0 <= Ml.trend_significance f <= 4
  /\ 1 <= Ml.soil_permeability f <= 3
  /\ 0 <= Ml.trend_magnitude f.
Proof. intros _. apply extracted_ranges. Qed.

Lemma extracted_features_in_range_witness :
  exists f,
    Ml.extractFeatures Examples.boundary_input = Ok f
    /\ 1 <= Ml.water_level_status f <= 4.
Proof.
  eexists. split; [reflexivity|].
  eapply (extracted_features_in_range Examples.boundary_input);
    [exact boundary_input_plain_labels|reflexivity].
Defined.

Lemma Math_round_100 (x : Q) : x <= 100 -> (Math_round x <= 100)%Z.
Proof.
  intros H. change 100%Z with (Math_round 100). now apply Math_round_mono.
Qed.

(** X16.  For an input with non-negative measurements, whose labels name
    no member inherited from Object.prototype, the reported score of a
    non-fallback prediction lies between 0 and 100 and the ensemble score
    it rounds lies in [0,100], for any such labels and any trend
    magnitude. *)
Theorem predicted_score_in_range (i : Input.t) (r : Ml.Prediction) :
  Shape.nonneg_input i -> Shape.plain_labels i ->
  Ml.predict_body i = Ok r ->
  (0 <= Ml.score (Ml.availability r) <= 100)%Z
  /\ exists md, Ml.modelDetails r = Some md
                /\ 0 <= Ml.ensembleScore md <= 100.
Proof.
  intros (Hlevel & Hrain & Hriver) _ H.
  destruct (predict_body_ok i r H)
    as (f & sd' & e & Hf & _ & He & Hmd & Hscore & _).
  destruct (extractFeatures_Ok i f Hf)
    as (sd & ta & env & Hsd & _ & Henv & Hl & _ & _ & _ & _ & Ha & Hm & Hr
        & Hp).
  pose proof (extracted_ranges i f Hf) as (_ & _ & _ & Hperm & _).
  assert (Hw : 0 <= Ml.calculateWeightedAvailability f <= 100).
  { apply weighted_range; [| | | |exact Hperm].
    - rewrite Hl. destruct (Input.latestReading sd) as [rd|] eqn:Er;
        [apply (Hlevel sd); auto|discriminate].
    - rewrite Ha. destruct (Input.rainfall env) as [rf|] eqn:Er;
        [|discriminate].
      apply or_default_nonneg; [discriminate|].
      intros q Hq. destruct (Hrain env rf Henv Er) as [HA _].
      apply HA. exact Hq.
    - rewrite Hm. destruct (Input.rainfall env) as [rf|] eqn:Er;
        [|discriminate].
      apply or_default_nonneg; [discriminate|].
      intros q Hq. destruct (Input.seasonal rf) as [s|] eqn:Es;
        [|discriminate]. simpl in Hq.
      destruct (Hrain env rf Henv Er) as [_ HM]. apply (HM s); auto.
    - rewrite Hr. destruct (Input.proximity env) as [px|] eqn:Ep;
        [|discriminate].
      apply or_default_nonneg; [discriminate|].
      intros q Hq. apply (Hriver env px); auto. }
  pose proof (linear_range f) as HL. pose proof (trend_range f) as HT.
  assert (Hens : 0 <= e <= 100) by (rewrite He; split; lra).
  split.
  - rewrite Hscore. split.
    + apply (Math_round_ge 0). apply Hens.
    + apply Math_round_100. apply Hens.
  - eexists. split; [exact Hmd|]. exact Hens.
Qed.

Lemma predicted_score_in_range_witness :
  (0 <= Ml.score (Ml.availability Examples.boundary_prediction) <= 100)%Z.
Proof.
  apply (predicted_score_in_range Examples.boundary_input).
  - split; [|split].
    + intros sd r [= <-] [= <-]. discriminate.
    + intros env rf [= <-] [= <-]. split.
      * intros a [= <-]. discriminate.
      * intros s m [= <-] [= <-]. discriminate.
    + intros env px d [= <-] [= <-]. discriminate.
  - exact boundary_input_plain_labels.
  - vm_compute. reflexivity.
Defined.

(** ** Fallback, monotonicity and confidence *)

Lemma confidence_between_50_and_100 (f : Ml.Features) (sd : Input.StationData) :
  (50 <= Ml.calculatePredictionConfidence f sd <= 100)%Z.
Proof.
  unfold Ml.calculatePredictionConfidence.
  destruct (Input.latestReading sd), (gtb (Ml.annual_rainfall f) 0),
    (ltb (Ml.nearest_river_distance f) 20),
    (gtb (Ml.trend_significance f) 2), (ltb (Input.distance sd) 10),
    (opt_gtb (Ml.reading_confidence sd) 80); lia.
Qed.

(** X17.  A caller can tell the fallback from a computed prediction: the
    predictor's confidence is 30 exactly when the guarded block raised,
    and a computed prediction has confidence between 50 and 100 and lists
    the 18 feature names. *)
Theorem fallback_is_recognisable (i : Input.t) (r : Ml.Prediction) :
  Ml.predictGroundwaterLevel (Some i) = Ok r ->
  (Ml.confidence r = 30%Z <-> exists msg, Ml.predict_body i = Throw msg)
  /\ (Ml.confidence r <> 30%Z ->
      (50 <= Ml.confidence r <= 100)%Z
      /\ length (Ml.features r) = 18%nat
      /\ Ml.predict_body i = Ok r).
Proof.
  unfold Ml.predictGroundwaterLevel, try_catch.
  cbn [deref mbind result_bind].
  destruct (Ml.predict_body i) as [r'|msg] eqn:E.
  - intros [= <-].
    destruct (predict_body_ok i r' E) as (f & sd & e & _ & _ & _ & _ & _ & _ & Hc).
    pose proof (confidence_between_50_and_100 f sd) as Hr. rewrite <- Hc in Hr.
    assert (Hk : length (Ml.features r') = 18%nat).
    { unfold Ml.predict_body in E.
      apply bind_Ok_inv in E as (f' & _ & E). cbv beta zeta in E.
      apply bind_Ok_inv in E as (sd' & _ & E).
      apply mret_Ok_inv in E. subst r'. reflexivity. }
    split.
    + split; [lia|intros [m Hm]; discriminate].
    + intros _. repeat split; [lia|lia|exact Hk].
  - intros [= <-]. split.
    + split; [eauto|reflexivity].
    + intros H. exfalso. apply H. reflexivity.
Qed.

Lemma fallback_is_recognisable_witness :
  Ml.confidence Ml.fallback = 30%Z <->
  exists msg, Ml.predict_body Examples.no_station_input = Throw msg.
Proof.
  apply (fallback_is_recognisable Examples.no_station_input Ml.fallback).
  reflexivity.
Defined.

Lemma feature_get_weighted (f : Ml.Features) :
  Ml.feature_get f "current_water_level" = Some (Ml.current_water_level f)
  /\ Ml.feature_get f "annual_rainfall" = Some (Ml.annual_rainfall f)
  /\ Ml.feature_get f "monsoon_rainfall" = Some (Ml.monsoon_rainfall f)
  /\ Ml.feature_get f "nearest_river_distance"
     = Some (Ml.nearest_river_distance f)
  /\ Ml.feature_get f "soil_permeability" = Some (Ml.soil_permeability f)
  /\ Ml.feature_get f "trend_direction" = Some (Ml.trend_direction f)
  /\ Ml.feature_get f "trend_significance" = Some (Ml.trend_significance f).
Proof. repeat split; reflexivity. Qed.

(** The loop over the weight table adds up to the weighted sum of the
    seven features. *)
Lemma linear_expansion (f : Ml.Features) :
  Ml.calculateLinearAvailability f
  = Math_max 0
      (Math_min 100
         (50 + - (5 # 2) * Ml.current_water_level f
          + (5 # 100) * Ml.annual_rainfall f
          + (8 # 100) * Ml.monsoon_rainfall f
          + - (3 # 10) * Ml.nearest_river_distance f
          + 15 * Ml.soil_permeability f
          + 10 * Ml.trend_direction f
          + 5 * Ml.trend_significance f)).
Proof.
  unfold Ml.calculateLinearAvailability, Ml.linear_weights.
  cbn [fold_left].
  destruct (feature_get_weighted f) as (-> & -> & -> & -> & -> & -> & ->).
  reflexivity.
Qed.

Lemma clamp_mono (x y : Q) :
  x <= y -> Math_max 0 (Math_min 100 x) <= Math_max 0 (Math_min 100 y).
Proof. intros H. apply Q.max_le_compat_l, Q.min_le_compat_l, H. Qed.

(** X18.  With every other feature fixed, a deeper water level never
    raises the linear score, the weighted score or the ensemble score, and
    leaves the trend score unchanged. *)
Theorem scores_antitone_in_water_level (f : Ml.Features) (l1 l2 : Q) :
  l1 <= l2 ->
  let f1 := Shape.with_water_level f l1 in
  let f2 := Shape.with_water_level f l2 in
  Ml.calculateLinearAvailability f2 <= Ml.calculateLinearAvailability f1
  /\ Ml.calculateWeightedAvailability f2 <= Ml.calculateWeightedAvailability f1
  /\ Ml.calculateTrendBasedAvailability f2
     = Ml.calculateTrendBasedAvailability f1
  /\ Shape.ensemble f2 <= Shape.ensemble f1.
Proof.
  intros Hle. cbv zeta.
  assert (HL : Ml.calculateLinearAvailability (Shape.with_water_level f l2)
               <= Ml.calculateLinearAvailability (Shape.with_water_level f l1)).
  { rewrite !linear_expansion. apply clamp_mono.
    cbn [Shape.with_water_level Ml.current_water_level Ml.annual_rainfall
         Ml.monsoon_rainfall Ml.nearest_river_distance Ml.soil_permeability
         Ml.trend_direction Ml.trend_significance]. lra. }
  assert (HW : Ml.calculateWeightedAvailability (Shape.with_water_level f l2)
               <= Ml.calculateWeightedAvailability (Shape.with_water_level f l1)).
  { rewrite !weighted_expansion.
    cbn [Shape.with_water_level Ml.current_water_level Ml.annual_rainfall
         Ml.monsoon_rainfall Ml.nearest_river_distance Ml.soil_permeability].
    assert (Math_max 0 (100 - l2 * 3) <= Math_max 0 (100 - l1 * 3))
      by (apply Q.max_le_compat_l; lra).
    lra. }
  assert (HT : Ml.calculateTrendBasedAvailability (Shape.with_water_level f l2)
               = Ml.calculateTrendBasedAvailability (Shape.with_water_level f l1))
    by reflexivity.
  repeat split; try assumption.
  unfold Shape.ensemble. rewrite HT. lra.
Qed.

Lemma scores_antitone_in_water_level_witness :
  Shape.ensemble (Shape.with_water_level Examples.typical_features 20)
  <= Shape.ensemble (Shape.with_water_level Examples.typical_features 8).
Proof.
  apply (scores_antitone_in_water_level Examples.typical_features 8 20).
  discriminate.
Defined.

(** X19.  Adding a latest reading to the station data never lowers the
    confidence, and raises it by at least 20 unless the cap of 100 is
    reached. *)
Theorem confidence_grows_with_reading (f : Ml.Features)
    (sd : Input.StationData) (r : Input.Reading) :
  let without := Ml.calculatePredictionConfidence f (Shape.with_reading sd None) in
  let with_r := Ml.calculatePredictionConfidence f (Shape.with_reading sd (Some r)) in
  (without <= with_r)%Z /\ (Z.min 100 (without + 20) <= with_r)%Z.
Proof.
  cbv zeta. unfold Ml.calculatePredictionConfidence, Ml.reading_confidence.
  cbn [Shape.with_reading Input.latestReading Input.distance mbind
       option_bind].
  destruct (gtb (Ml.annual_rainfall f) 0),
    (ltb (Ml.nearest_river_distance f) 20),
    (gtb (Ml.trend_significance f) 2), (ltb (Input.distance sd) 10),
    (opt_gtb (Input.metadata r ≫= λ m, Input.confidence m) 80);
    cbn [opt_gtb]; lia.
Qed.

Lemma trend_score_neutral (f : Ml.Features) :
  Ml.trend_direction f = 0 -> Ml.trend_significance f = 0 ->
  Ml.calculateTrendBasedAvailability f == 50.
Proof.
  intros Hd Hs. unfold Ml.calculateTrendBasedAvailability.
  rewrite Hd, Hs. cbn [Qeq_bool]. 
  destruct (gtb (Ml.trend_magnitude f) (1 # 2)); reflexivity.
Qed.

(** X20.  With fewer than 10 readings in the year the trend analysis
    reports insufficient data, which the feature extractor encodes as
    direction 0, significance 0 and magnitude 0: the trend-based score is
    exactly 50 and the confidence gets no significance bonus. *)
Theorem short_history_is_neutral (sqrt exp : Q -> Q) (levels : list Q)
    (timestamps : list Z) (i : Input.t) (f : Ml.Features) :
  (length levels < 10)%nat ->
  Input.trendAnalysis i
  = Some (Pipeline.calculateTrendAnalysis sqrt exp levels timestamps) ->
  Ml.extractFeatures i = Ok f ->
  Ml.trend_direction f = 0 /\ Ml.trend_significance f = 0
  /\ Ml.trend_magnitude f = 0
  /\ Ml.calculateTrendBasedAvailability f == 50
  /\ gtb (Ml.trend_significance f) 2 = false.
Proof.
  intros Hn Hta Hf.
  destruct (extractFeatures_Ok i f Hf)
    as (sd & ta & env & _ & Hta' & _ & _ & _ & Hd & Hs & Hm & _).
  rewrite Hta in Hta'. injection Hta' as <-.
  unfold Pipeline.calculateTrendAnalysis in Hd, Hs, Hm.
  assert (E : (length levels <? 10)%nat = true) by (apply Nat.ltb_lt; lia).
  rewrite E in Hd, Hs, Hm.
  assert (Hd0 : Ml.trend_direction f = 0) by (rewrite Hd; reflexivity).
  assert (Hs0 : Ml.trend_significance f = 0) by (rewrite Hs; reflexivity).
  split; [exact Hd0|]. split; [exact Hs0|].
  split; [rewrite Hm; reflexivity|].
  split; [apply trend_score_neutral; assumption|].
  rewrite Hs0. reflexivity.
Qed.

Lemma short_history_is_neutral_witness :
  exists f,
    Ml.extractFeatures Samples.short_history_input = Ok f
    /\ Ml.calculateTrendBasedAvailability f == 50.
Proof.
  eexists. split; [reflexivity|].
  eapply (short_history_is_neutral (fun x => x) (fun x => x)
            [9; 8; 7] [0; 1; 2]%Z Samples.short_history_input).
  - simpl. lia.
  - reflexivity.
  - reflexivity.
Defined.

(** ** Forecast *)

Section ForecastFacts.

Variable SimpleLinearRegression :
  list (Q * Q) -> result (Q -> result Stats.num).

Lemma confidence_schedule (i : nat) :
  let c := Math_max 50 (100 - inject_Z (Z.of_nat i) * 2) in
  50 <= c <= 100
  /\ ((i <= 25)%nat -> c == 100 - inject_Z (Z.of_nat i) * 2)
  /\ ((25 <= i)%nat -> c == 50).
Proof.
  cbv zeta. unfold Math_max.
  assert (Hi : 0 <= inject_Z (Z.of_nat i)).
  { change 0 with (inject_Z 0). rewrite <- Zle_Qle. lia. }
  split; [split; [apply Q.le_max_l|apply Q.max_lub; lra]|].
  split; intros Hd.
  - apply Q.max_r.
    assert (inject_Z (Z.of_nat i) <= inject_Z 25)
      by (rewrite <- Zle_Qle; lia).
    change (inject_Z 25) with 25 in *. lra.
  - apply Q.max_l.
    assert (inject_Z 25 <= inject_Z (Z.of_nat i))
      by (rewrite <- Zle_Qle; lia).
    change (inject_Z 25) with 25 in *. lra.
Qed.

Lemma max0_nonneg (v : Stats.num) :
  Forecast.max0 v = None \/ exists q, Forecast.max0 v = Some q /\ 0 <= q.
Proof.
  destruct v as [q|]; [right|left; reflexivity].
  eexists. split; [reflexivity|]. apply Q.le_max_l.
Qed.

(** What a completed loop over the days has pushed. *)
Lemma predict_days_shape (predict : Q -> result Stats.num) (n todo : nat) :
  forall i preds,
    Forecast.predict_days predict n i todo = Ok preds ->
    length preds = todo
    /\ forall k p, preds !! k = Some p ->
         Forecast.day p = (i + k)%nat
         /\ (exists v, predict (inject_Z (Z.of_nat (n + (i + k)))) = Ok v
                       /\ Forecast.predictedLevel p = Forecast.max0 v)
         /\ Forecast.confidence p
            = Math_max 50 (100 - inject_Z (Z.of_nat (i + k)) * 2).
Proof.
  induction todo as [|todo IH]; intros i preds H.
  - apply mret_Ok_inv in H. subst preds. split; [reflexivity|].
    intros k p Hk. discriminate.
  - cbn [Forecast.predict_days] in H. cbv zeta in H.
    apply bind_Ok_inv in H as (v & Hv & H).
    apply bind_Ok_inv in H as (rest & Hrest & H).
    apply mret_Ok_inv in H. subst preds.
    destruct (IH (S i) rest Hrest) as [Hlen Hall].
    split; [cbn [length]; rewrite Hlen; reflexivity|].
    intros [|k] p Hk.
    + injection Hk as <-. rewrite Nat.add_0_r.
      cbn [Forecast.day Forecast.predictedLevel Forecast.confidence].
      split; [reflexivity|]. split; [eauto|reflexivity].
    + change ((_ :: rest) !! S k) with (rest !! k) in Hk.
      destruct (Hall k p Hk) as (Hd & Hp & Hc).
      replace (i + S k)%nat with (S i + k)%nat by lia.
      split; [exact Hd|]. split; [exact Hp|exact Hc].
Qed.

(** X21.  predictFutureLevels never raises: a failed query, a regression
    constructor that raises and a prediction that raises are all answered
    with null, as are fewer than 10 readings.  A forecast that is not null
    comes from at least 10 readings and a regression that was built; it
    has one entry per requested day, in day order, each with the
    regression's prediction for index n + day clamped at 0 (so a level
    that is NaN or not negative) and a confidence of 100 - 2·day that is
    never below 50 (50 from day 25 on). *)
Theorem forecast_shape (fetched : result (list Q)) (days : nat) :
  let forecast :=
    Forecast.predictFutureLevels SimpleLinearRegression fetched days in
  (exists o, forecast = Ok o)
  /\ (forall msg, fetched = Throw msg -> forecast = Ok None)
  /\ (forall levels, fetched = Ok levels ->
        ((length levels < 10)%nat -> forecast = Ok None)
        /\ (forall msg,
              SimpleLinearRegression (Forecast.indexed 0 levels) = Throw msg ->
              forecast = Ok None))
  /\ forall preds,
       forecast = Ok (Some preds) ->
       exists levels predict,
         fetched = Ok levels /\ (10 <= length levels)%nat
         /\ SimpleLinearRegression (Forecast.indexed 0 levels) = Ok predict
         /\ length preds = days
         /\ forall i p, preds !! i = Some p ->
              Forecast.day p = i
              /\ (exists v,
                    predict (inject_Z (Z.of_nat (length levels + i))) = Ok v
                    /\ Forecast.predictedLevel p = Forecast.max0 v)
              /\ (Forecast.predictedLevel p = None
                  \/ exists q, Forecast.predictedLevel p = Some q /\ 0 <= q)
              /\ 50 <= Forecast.confidence p <= 100
              /\ ((i <= 25)%nat ->
                  Forecast.confidence p == 100 - inject_Z (Z.of_nat i) * 2)
              /\ ((25 <= i)%nat -> Forecast.confidence p == 50).
Proof.
  cbv zeta. unfold Forecast.predictFutureLevels, try_catch.
  split; [destruct (Forecast.forecast_body _ _ _); eauto|].
  split; [intros msg ->; reflexivity|].
  split.
  - intros levels ->. unfold Forecast.forecast_body.
    cbn [mbind result_bind]. split.
    + intros H. apply Nat.ltb_lt in H. rewrite H. reflexivity.
    + intros msg H. destruct (length levels <? 10)%nat; [reflexivity|].
      cbv zeta. rewrite H. reflexivity.
  - intros preds H.
    destruct (Forecast.forecast_body SimpleLinearRegression fetched days)
      as [o|msg] eqn:E; [|discriminate].
    injection H as ->. unfold Forecast.forecast_body in E.
    apply bind_Ok_inv in E as (levels & Hf & E).
    destruct (length levels <? 10)%nat eqn:E10;
      [apply mret_Ok_inv in E; discriminate|].
    apply Nat.ltb_ge in E10. cbv zeta in E.
    apply bind_Ok_inv in E as (predict & Hreg & E).
    apply bind_Ok_inv in E as (ps & Hps & E).
    apply mret_Ok_inv in E. injection E as <-.
    destruct (predict_days_shape predict (length levels) days 0 ps Hps)
      as [Hlen Hall].
    exists levels, predict.
    split; [exact Hf|]. split; [exact E10|]. split; [exact Hreg|].
    split; [exact Hlen|].
    intros i p Hp. destruct (Hall i p Hp) as (Hd & (v & Hv & Hl) & Hc).
    cbn [Nat.add] in Hd, Hv, Hc.
    split; [exact Hd|]. split; [eauto|].
    split; [rewrite Hl; apply max0_nonneg|].
    rewrite Hc. apply confidence_schedule.
Qed.

End ForecastFacts.

(** ** Sustainability: consistency of the reported fields *)

(** X22.  The calculator's two outputs agree with each other: years
    remaining is never negative, balance "unknown" means the level was
    absent or 0, "surplus" always comes with 999 years, and with a
    non-negative recharge rate "deficit" always comes with the rounded
    finite projection. *)
Theorem sustainability_fields_agree (currentLevel : option Q)
    (trend : option Input.TrendAnalysis) (e r : Q) :
  let s := Analysis.calculateSustainability currentLevel trend e r in
  (0 <= Analysis.yearsRemaining s)%Z
  /\ (Analysis.balance s = "unknown" <->
      currentLevel = None \/ exists l, currentLevel = Some l /\ l == 0)
  /\ (Analysis.balance s = "surplus" -> Analysis.yearsRemaining s = 999%Z)
  /\ (Analysis.balance s = "deficit" -> 0 <= r ->
      exists l, currentLevel = Some l /\ e > r
                /\ Analysis.yearsRemaining s
                   = Math_round (Math_max 0 (l * 1000 / ((e - r) * 365)))).
Proof.
  cbv zeta. unfold Analysis.calculateSustainability.
  destruct currentLevel as [l|].
  2: { cbn. repeat split; try discriminate; try lia; auto. }
  destruct (truthy l) eqn:T.
  2: { apply truthy_false in T. cbn.
       repeat split; try discriminate; try lia; eauto. }
  apply truthy_true in T.
  cbn [Analysis.yearsRemaining Analysis.balance].
  split.
  { destruct (gtb (e - r) 0); [|vm_compute; discriminate].
    apply (Math_round_ge 0). apply Q.le_max_l. }
  split.
  { split.
    - destruct (gtb (e - r) (r * (1 # 10)));
        [|destruct (gtb r (e * (11 # 10)))]; discriminate.
    - intros [H|(l' & [= <-] & Hl)]; [discriminate|contradiction]. }
  split.
  - destruct (gtb (e - r) (r * (1 # 10))) eqn:A; [discriminate|].
    destruct (gtb r (e * (11 # 10))) eqn:B; [|discriminate]. intros _.
    destruct (gtb (e - r) 0) eqn:C; [|reflexivity].
    order_facts. exfalso. lra.
  - destruct (gtb (e - r) (r * (1 # 10))) eqn:A.
    + intros _ Hr. order_facts. exists l. split; [reflexivity|].
      split; [lra|].
      assert (C : gtb (e - r) 0 = true) by (apply gtb_true; lra).
      rewrite C. reflexivity.
    + destruct (gtb r (e * (11 # 10))); discriminate.
Qed.

Lemma sustainability_fields_agree_witness :
  exists l,
    Some 10 = Some l /\ 5000 > 90
    /\ Analysis.yearsRemaining
         (Analysis.calculateSustainability (Some 10) None 5000 90)
       = Math_round (Math_max 0 (l * 1000 / ((5000 - 90) * 365))).
Proof.
  destruct (sustainability_fields_agree (Some 10) None 5000 90)
    as (_ & _ & _ & H).
  apply H; [reflexivity|discriminate].
Defined.

(** ** Sustainability as performGroundwaterAnalysis calls it *)

(** For a numeric recharge rate the calculator that tolerates NaN computes
    the same years, rates and balance as the calculator on numbers. *)
Lemma sustainability_models_agree (currentLevel : option Q)
    (trend : option Input.TrendAnalysis) (e r : Q) :
  let n := Pipeline.calculateSustainability currentLevel trend e (Some r) in
  let q := Analysis.calculateSustainability currentLevel trend e r in
  Pipeline.yearsRemaining n = Analysis.yearsRemaining q
  /\ Pipeline.balance n = Analysis.balance q
  /\ Pipeline.extractionRate n = Analysis.extractionRate q
  /\ Pipeline.rechargeRate n = Some (Analysis.rechargeRate q).
Proof.
  cbv zeta.
  unfold Pipeline.calculateSustainability, Analysis.calculateSustainability.
  destruct currentLevel as [l|]; [|repeat split].
  destruct (truthy l); [|repeat split].
  cbn [Pipeline.num_sub Pipeline.num_mul mbind option_bind Stats.num_gtb
       Spec.num_value Pipeline.yearsRemaining Pipeline.balance
       Pipeline.extractionRate Pipeline.rechargeRate Analysis.yearsRemaining
       Analysis.balance Analysis.extractionRate Analysis.rechargeRate].
  repeat split.
Qed.

Lemma recharge_needs_deficit (av : Ml.Availability)
    (su : Analysis.Sustainability) (env : Input.EnvironmentalData)
    (ta : Input.TrendAnalysis) (recs : list Analysis.Recommendation) :
  Analysis.balance su <> "deficit" ->
  Analysis.generateRecommendations av su env ta = Ok recs ->
  Analysis.recharge_high ∉ recs.
Proof.
  intros Hb. unfold Analysis.generateRecommendations.
  destruct (String.eqb (Analysis.balance su) "deficit") eqn:E.
  { apply String.eqb_eq in E. contradiction. }
  cbn [mbind result_bind mret result_ret]. intros H.
  apply bind_Ok_inv in H as (rainy & _ & H).
  apply mret_Ok_inv in H. subst recs.
  destruct (Ml.score av <? 30)%Z, (Ml.score av <? 50)%Z,
    (Analysis.str_eqb (Input.direction ta) "falling"
     && Analysis.str_eqb (Input.significance ta) "significant"), rainy;
    cbn [app]; intros Hin;
    repeat (apply elem_of_cons in Hin as [Hin|Hin]; [discriminate|]);
    now apply elem_of_nil in Hin.
Qed.

(** X24.  In performGroundwaterAnalysis the recharge rate is computed from
    a property the environmental data does not have, so it is NaN.  The
    sustainability it reports is exactly 999 years and "balanced" for
    every latest level other than 0, and 0 years and "unknown" when there
    is no latest reading or its level is 0, whatever extraction rate was
    requested; it is never "deficit" or "surplus", so the
    rainwater-harvesting recommendation cannot be produced from it. *)
Theorem analysis_sustainability_ignores_extraction (sd : Input.StationData)
    (env : Input.EnvironmentalData) (ta : Input.TrendAnalysis) (e : Q) :
  let s := Pipeline.sustainability_step sd env ta e in
  Pipeline.rechargeRate s = None
  /\ Pipeline.extractionRate s = e
  /\ (forall l, Pipeline.latest_level sd = Some l -> ~ l == 0 ->
        Pipeline.yearsRemaining s = 999%Z
        /\ Pipeline.balance s = "balanced")
  /\ (Pipeline.latest_level sd = None
      \/ (exists l, Pipeline.latest_level sd = Some l /\ l == 0) ->
      Pipeline.yearsRemaining s = 0%Z /\ Pipeline.balance s = "unknown")
  /\ Pipeline.balance s <> "deficit"
  /\ Pipeline.balance s <> "surplus"
  /\ (forall e',
        Pipeline.yearsRemaining (Pipeline.sustainability_step sd env ta e')
        = Pipeline.yearsRemaining s
        /\ Pipeline.balance (Pipeline.sustainability_step sd env ta e')
           = Pipeline.balance s)
  /\ (forall av su recs,
        Analysis.balance su = Pipeline.balance s ->
        Analysis.generateRecommendations av su env ta = Ok recs ->
        Analysis.recharge_high ∉ recs).
Proof.
  cbv zeta.
  assert (Hshape : forall x,
            let s := Pipeline.sustainability_step sd env ta x in
            Pipeline.rechargeRate s = None
            /\ Pipeline.extractionRate s = x
            /\ ((Pipeline.latest_level sd = None
                 \/ exists l, Pipeline.latest_level sd = Some l
                              /\ truthy l = false)
                /\ Pipeline.yearsRemaining s = 0%Z
                /\ Pipeline.balance s = "unknown"
                \/ (exists l, Pipeline.latest_level sd = Some l
                              /\ truthy l = true)
                   /\ Pipeline.yearsRemaining s = 999%Z
                   /\ Pipeline.balance s = "balanced")).
  { intros x. cbv zeta.
    unfold Pipeline.sustainability_step, Pipeline.calculateSustainability,
      Pipeline.annualRainfall.
    destruct (Pipeline.latest_level sd) as [l|];
      [|split; [reflexivity|split; [reflexivity|left]]; auto].
    destruct (truthy l) eqn:T.
    - split; [reflexivity|split; [reflexivity|right]].
      split; [eauto|]. split; reflexivity.
    - split; [reflexivity|split; [reflexivity|left]].
      split; [eauto|]. split; reflexivity. }
  destruct (Hshape e) as (Hr & Hx & He).
  split; [exact Hr|]. split; [exact Hx|].
  split.
  { intros l Hl Hnz. apply truthy_true in Hnz.
    destruct He as [([E|(l' & E & T)] & _)|(_ & Hy & Hb)];
      [congruence|congruence|auto]. }
  split.
  { intros Hc.
    destruct He as [(_ & Hy & Hb)|((l & E & T) & _)]; [auto|].
    exfalso. apply truthy_true in T.
    destruct Hc as [Hn|(l' & E' & Hz)]; [congruence|].
    apply T. congruence. }
  split; [destruct He as [(_ & _ & ->)|(_ & _ & ->)]; discriminate|].
  split; [destruct He as [(_ & _ & ->)|(_ & _ & ->)]; discriminate|].
  split.
  - intros e'. destruct (Hshape e') as (_ & _ & He').
    destruct He as [(Hc & Hy & Hb)|(Hc & Hy & Hb)],
      He' as [(Hc' & Hy' & Hb')|(Hc' & Hy' & Hb')];
      rewrite Hy, Hb, Hy', Hb'; try (split; reflexivity); exfalso.
    + destruct Hc' as (l' & E' & T').
      destruct Hc as [E|(l & E & T)]; congruence.
    + destruct Hc as (l & E & T).
      destruct Hc' as [E'|(l' & E' & T')]; congruence.
  - intros av su recs Hb. apply recharge_needs_deficit. rewrite Hb.
    destruct He as [(_ & _ & ->)|(_ & _ & ->)]; discriminate.
Qed.

Lemma analysis_sustainability_ignores_extraction_witness :
  Pipeline.yearsRemaining
    (Pipeline.sustainability_step Samples.station_with_reading
       (Examples.env 900 600 "low")
       (Examples.trend_of "falling" "very_significant") 5000)
  = 999%Z
  /\ Pipeline.balance
       (Pipeline.sustainability_step Samples.station_with_reading
          (Examples.env 900 600 "low")
          (Examples.trend_of "falling" "very_significant") 5000)
     = "balanced".
Proof.
  destruct (analysis_sustainability_ignores_extraction
              Samples.station_with_reading (Examples.env 900 600 "low")
              (Examples.trend_of "falling" "very_significant") 5000)
    as (_ & _ & H & _).
  apply (H (151 # 10)); [reflexivity|discriminate].
Defined.

(** ** Recommendations: failure and shape *)

(** X25.  The recommendation generator raises exactly when the rainfall
    record is missing and a rule has to read it: the balance is "deficit"
    or the availability score is above 70. *)
Theorem generateRecommendations_throws_iff (av : Ml.Availability)
    (su : Analysis.Sustainability) (env : Input.EnvironmentalData)
    (ta : Input.TrendAnalysis) :
  (exists msg, Analysis.generateRecommendations av su env ta = Throw msg)
  <-> Input.rainfall env = None
      /\ (Analysis.balance su = "deficit" \/ (70 < Ml.score av)%Z).
Proof.
  unfold Analysis.generateRecommendations, Analysis.annual_above.
  destruct (Input.rainfall env) as [rf|].
  - cbn [deref mbind result_bind mret result_ret].
    destruct (String.eqb (Analysis.balance su) "deficit"),
      (70 <? Ml.score av)%Z; cbn [mbind result_bind mret result_ret];
      (split; [intros [msg H]; discriminate|intros [Hn _]; discriminate]).
  - cbn [deref mbind result_bind mret result_ret].
    destruct (String.eqb (Analysis.balance su) "deficit") eqn:Eb;
      cbn [mbind result_bind mret result_ret].
    + apply String.eqb_eq in Eb. split; [auto|eauto].
    + apply String.eqb_neq in Eb.
      destruct (70 <? Ml.score av)%Z eqn:Es;
        cbn [mbind result_bind mret result_ret].
      * apply Z.ltb_lt in Es. split; [auto|eauto].
      * apply Z.ltb_ge in Es. split; [intros [msg H]; discriminate|].
        intros [_ [H|H]]; [contradiction|lia].
Qed.

(** X26.  A returned list holds at most three recommendations, all taken
    from the five fixed records, in the order conservation, recharge,
    monitoring, infrastructure; a conservation recommendation and the
    infrastructure recommendation never appear together. *)
Theorem recommendations_shape (av : Ml.Availability)
    (su : Analysis.Sustainability) (env : Input.EnvironmentalData)
    (ta : Input.TrendAnalysis) (recs : list Analysis.Recommendation) :
  Analysis.generateRecommendations av su env ta = Ok recs ->
  (length recs <= 3)%nat
  /\ map Analysis.type recs
     `sublist_of` ["conservation"; "recharge"; "monitoring"; "infrastructure"]
  /\ Forall (fun rec =>
               rec ∈ [Analysis.conservation_critical; Analysis.conservation_high;
                      Analysis.recharge_high; Analysis.monitoring_medium;
                      Analysis.infrastructure_low]) recs
  /\ ~ ("conservation" ∈ map Analysis.type recs
        /\ "infrastructure" ∈ map Analysis.type recs).
Proof.
  unfold Analysis.generateRecommendations. intros H.
  apply bind_Ok_inv in H as (wet & _ & H).
  apply bind_Ok_inv in H as (rainy & Hrainy & H).
  apply mret_Ok_inv in H. subst recs.
  assert (Hex : (Ml.score av <? 50)%Z = true -> rainy = false).
  { intros Hlow. apply Z.ltb_lt in Hlow.
    destruct (70 <? Ml.score av)%Z eqn:E; [apply Z.ltb_lt in E; lia|].
    apply mret_Ok_inv in Hrainy. congruence. }
  assert (Hex' : (Ml.score av <? 30)%Z = true -> rainy = false).
  { intros Hlow. apply Hex. apply Z.ltb_lt in Hlow. apply Z.ltb_lt. lia. }
  destruct (Ml.score av <? 30)%Z, (Ml.score av <? 50)%Z, wet,
    (Analysis.str_eqb (Input.direction ta) "falling"
     && Analysis.str_eqb (Input.significance ta) "significant"), rainy;
    try (specialize (Hex eq_refl); discriminate);
    try (specialize (Hex' eq_refl); discriminate);
    cbn [app map length Analysis.type Analysis.conservation_critical
         Analysis.conservation_high Analysis.recharge_high
         Analysis.monitoring_medium Analysis.infrastructure_low];
    (split; [lia|]);
    (split; [repeat first [apply sublist_nil_l | apply sublist_skip
                          | apply sublist_cons]|]);
    (split; [repeat constructor;
             repeat first [apply list_elem_of_here | apply list_elem_of_further]
            |]);
    intros [H1 H2];
    repeat (apply elem_of_cons in H1 as [H1|H1]; [try discriminate|]);
    try (now apply elem_of_nil in H1);
    repeat (apply elem_of_cons in H2 as [H2|H2]; [try discriminate|]);
    now apply elem_of_nil in H2.
Qed.

Lemma recommendations_shape_witness :
  (length [Analysis.conservation_critical; Analysis.monitoring_medium] <= 3)%nat.
Proof.
  apply (recommendations_shape
           {| Ml.score := 20; Ml.status := "critical" |}
           {| Analysis.yearsRemaining := 0; Analysis.extractionRate := 5000;
              Analysis.rechargeRate := 90; Analysis.balance := "deficit" |}
           (Examples.env 300 200 "low")
           (Examples.trend_of "falling" "significant")).
  reflexivity.
Defined.

(** ** Usage suitability: ranges and consistency *)

Lemma base_score_nonneg (waterLevel : option Q) :
  0 <= Math_max 0 (100 - or_default waterLevel 20 * 2).
Proof. apply Q.le_max_l. Qed.

Lemma min100_range (x : Q) : 0 <= x -> 0 <= Math_min 100 x <= 100.
Proof.
  intros H. unfold Math_min.
  destruct (Q.min_spec 100 x) as [[? ->]|[? ->]]; split; lra.
Qed.

(** X27.  Every suitability score lies in [0,100], for any water level
    (present, absent, zero or even negative) and any quality input. *)
Theorem usage_scores_in_range (waterLevel : option Q)
    (quality : option Analysis.Quality) (s : option Analysis.Sustainability) :
  let u := Analysis.calculateUsageSuitability waterLevel quality s in
  0 <= Analysis.score (Analysis.agriculture u) <= 100
  /\ 0 <= Analysis.score (Analysis.domestic u) <= 100
  /\ 0 <= Analysis.score (Analysis.industrial u) <= 100.
Proof.
  cbv zeta. unfold Analysis.calculateUsageSuitability.
  cbn [Analysis.score Analysis.agriculture Analysis.domestic
       Analysis.industrial].
  pose proof (base_score_nonneg waterLevel) as Hb.
  split; [|split]; apply min100_range.
  - destruct (_ && _); lra.
  - destruct (opt_ltb _ _); lra.
  - destruct (opt_ltb _ _); lra.
Qed.

(** X28.  Status and advice agree for each use: whenever mitigation advice
    is attached the status is not "suitable", and an "unsuitable" status
    always comes with advice. *)
Theorem usage_status_and_advice_agree (waterLevel : option Q)
    (quality : option Analysis.Quality) (s : option Analysis.Sustainability) :
  let u := Analysis.calculateUsageSuitability waterLevel quality s in
  Forall
    (fun use =>
       (Analysis.recommendations use <> [] -> Analysis.status use <> "suitable")
       /\ (Analysis.status use = "unsuitable" ->
           Analysis.recommendations use <> []))
    [Analysis.agriculture u; Analysis.domestic u; Analysis.industrial u].
Proof.
  cbv zeta. unfold Analysis.calculateUsageSuitability.
  set (base := Math_max 0 (100 - or_default waterLevel 20 * 2)).
  cbn [Analysis.agriculture Analysis.domestic Analysis.industrial].
  repeat constructor;
    cbn [Analysis.recommendations Analysis.status];
    repeat match goal with
           | |- context [gtb base ?k] => destruct (gtb base k) eqn:?
           | |- context [ltb base ?k] => destruct (ltb base k) eqn:?
           end;
    order_facts; try congruence; try discriminate;
    try (intros _; discriminate); exfalso; lra.
Qed.

(** ** Depth estimate *)

(** X29.  For a non-negative latest level the depth estimate is positive
    (a reading of 0 m, like a missing reading, is replaced by the default
    15 m, any other level is reported as it is), lies inside its reported
    range, and the range starts at 0 or above. *)
Theorem depth_range_contains_estimate (sd : Input.StationData) :
  (forall l, Pipeline.latest_level sd = Some l -> 0 <= l) ->
  let d := Pipeline.depth sd in
  0 < Pipeline.estimated d
  /\ 0 <= Pipeline.range_min d
  /\ Pipeline.range_min d <= Pipeline.estimated d
  /\ Pipeline.estimated d <= Pipeline.range_max d
  /\ (forall l, Pipeline.latest_level sd = Some l -> ~ l == 0 ->
        Pipeline.estimated d = l)
  /\ (Pipeline.latest_level sd = None
      \/ (exists l, Pipeline.latest_level sd = Some l /\ l == 0) ->
      Pipeline.estimated d = 15).
Proof.
  intros Hl. cbv zeta. unfold Pipeline.depth.
  cbn [Pipeline.estimated Pipeline.range_min Pipeline.range_max].
  set (est := or_default (Pipeline.latest_level sd) 15).
  assert (Hest : 0 < est).
  { subst est. unfold or_default.
    destruct (Pipeline.latest_level sd) as [l|]; [|reflexivity].
    destruct (truthy l) eqn:T; [|reflexivity].
    apply truthy_true in T. specialize (Hl l eq_refl).
    destruct (Qlt_le_dec 0 l) as [?|Hle]; [assumption|].
    exfalso. apply T. lra. }
  assert (Hsome : forall l, Pipeline.latest_level sd = Some l -> ~ l == 0 ->
                            est = l).
  { intros l E Hnz. subst est. rewrite E. apply or_default_truthy. exact Hnz. }
  assert (Hdef : Pipeline.latest_level sd = None
                 \/ (exists l, Pipeline.latest_level sd = Some l /\ l == 0) ->
                 est = 15).
  { intros [E|(l & E & Hz)]; subst est; rewrite E; [reflexivity|].
    unfold or_default. apply truthy_false in Hz. rewrite Hz. reflexivity. }
  unfold Math_max.
  destruct (Q.max_spec 0 (est - 5)) as [[? ->]|[? ->]];
    (do 4 (split; [lra|])); (split; [exact Hsome|exact Hdef]).
Qed.

Lemma depth_range_contains_estimate_witness :
  0 < Pipeline.estimated (Pipeline.depth Samples.station_with_reading)
  /\ Pipeline.estimated (Pipeline.depth Samples.station_with_reading)
     = 151 # 10.
Proof.
  assert (Hl : forall l,
             Pipeline.latest_level Samples.station_with_reading = Some l ->
             0 <= l)
    by (intros l [= <-]; discriminate).
  destruct (depth_range_contains_estimate Samples.station_with_reading Hl)
    as (Hpos & _ & _ & _ & Hsome & _).
  split; [exact Hpos|].
  apply Hsome; [reflexivity|discriminate].
Defined.

Lemma forecast_shape_witness :
  exists preds,
    Forecast.predictFutureLevels Samples.line_regression
      (Ok (repeat 9 12)) 30
    = Ok (Some preds)
    /\ length preds = 30%nat
    /\ Forecast.predictFutureLevels Samples.failing_regression
         (Ok (repeat 9 12)) 30
       = Ok None.
Proof.
  destruct (forecast_shape Samples.line_regression (Ok (repeat 9 12)) 30)
    as (_ & _ & _ & H).
  destruct (forecast_shape Samples.failing_regression (Ok (repeat 9 12)) 30)
    as (_ & _ & Hn & _).
  eexists. split; [reflexivity|]. split.
  - destruct (H _ eq_refl) as (levels & predict & _ & _ & _ & Hlen & _).
    exact Hlen.
  - destruct (Hn (repeat 9 12) eq_refl) as [_ Hthrow].
    apply (Hthrow "TypeError: x and y must be arrays"). reflexivity.
Defined.

Lemma usage_status_and_advice_agree_witness :
  Analysis.recommendations
    (Analysis.agriculture (Analysis.calculateUsageSuitability (Some 40) None None))
  <> [].
Proof.
  pose proof (usage_status_and_advice_agree (Some 40) None None) as H.
  cbv zeta in H. apply Forall_cons_1 in H as [[_ H] _]. apply H.
  reflexivity.
Defined.
